(** * SportSphere: slot locking and the booking lifecycle

    A shallow embedding of the three request handlers of the booking core

    - [stripeWebhook]        (controllers/payment/stripeWebhook)
    - [retryPayment]         (controllers/Booking/retryPayment)
    - [createDirectBooking]  (controllers/Booking/directBooking)

    over an explicit model of the datastore they share.  Every handler is a
    function from a [World] (the collections, the payment sessions created so
    far, the datastore calls issued so far) to an outcome and a new [World].

    Conventions.
    - Identifiers (ObjectIds, session ids) are strings; instants are
      milliseconds since the epoch, as [Z]; prices and amounts are JavaScript
      numbers, that is IEEE 754 binary64 values ([float]), and arithmetic on
      them is the arithmetic of that format.
    - The datastore primitives are total on the modelled store.  The faults
      that can be injected are the ones the handlers' own tests inject: the
      payment processor rejecting a session, [Booking.create] failing, and a
      missing processor key.
    - Log lines are not modelled: they have no effect on the stores or on the
      response. *)

From Stdlib Require Import Floats.PrimFloat.
From stdpp Require Import base decidable option list strings gmap pretty.
From Stdlib Require Import ZArith Lia Ascii.

Local Open Scope string_scope.

Abbreviation Id := string.

(** ** Data model *)

(** Modelled from the spec: the schema of a slot entry (models/TimeSlot) is
    not among the sources; its status takes the two values of the spec's data
    model, the strings ["available"] and ["booked"] of the handlers. *)
Inductive SlotStatus := available | booked.

(** Modelled from the spec: the schema of a booking (models/Booking) is not
    among the sources; its status takes the three values of the spec's data
    model, the strings ["Pending"], ["Paid"] and ["Failed"] of the handlers. *)
Inductive BookingStatus := Pending | Paid | Failed.

(** Modelled from the spec: the schema of a game (models/gameModels) is not
    among the sources; [status] and [bookingStatus] take the values of the
    spec's data model.  The handlers write ['Open'], ['Full'] and ["Booked"]. *)
Inductive GameStatus := Open | Full | BookedPending | Cancelled | Completed.

Inductive GameBookingStatus := NotBooked | Booked.

#[global] Instance SlotStatus_eq_dec : EqDecision SlotStatus.
Proof. solve_decision. Defined.

#[global] Instance BookingStatus_eq_dec : EqDecision BookingStatus.
Proof. solve_decision. Defined.

(** Per-sport prices arrive either as a [Map] (Mongoose map type) or as a
    plain object, given by its own properties; its prototype is
    [Object.prototype]. *)
Inductive Prices :=
| PricesMap (entries : gmap string float)
| PricesObject (props : gmap string float).

Record SlotEntry := {
  slot_id : Id;
  slot_startTime : Z;
  slot_endTime : Z;
  slot_status : SlotStatus;
  slot_bookedForSport : option string;
  slot_prices : Prices
}.

(** [ts_date] is the calendar day (days since the epoch, UTC): the value the
    handlers compare with [startTime.toISOString().split('T')[0]]. *)
Record TimeSlotDoc := {
  ts_id : Id;
  ts_subVenue : Id;
  ts_date : Z;
  ts_slots : list SlotEntry
}.

Record Booking := {
  bk_id : Id;
  bk_user : Id;
  bk_venueId : Id;
  bk_subVenueId : option Id;
  bk_sport : option string;
  bk_coordinates : list Z;
  bk_startTime : Z;
  bk_endTime : Z;
  bk_timeSlotDocId : option Id;
  bk_slotId : option Id;
  bk_amount : float;
  bk_currency : string;
  bk_stripeSessionId : string;
  bk_stripePaymentIntentId : option string;
  bk_status : BookingStatus;
  bk_gameId : option Id
}.

Record Game := {
  game_status : GameStatus;
  game_bookingStatus : GameBookingStatus
}.

Record SubVenue := { sv_venue : Id }.

Record Venue := { venue_id : Id; venue_coordinates : list Z }.

(** ** JavaScript helpers *)

(** Truthiness of a value that is a string or [undefined]. *)
Definition truthy (v : option string) : bool :=
  match v with
  | Some s => negb (String.eqb s "")
  | None => false
  end.

(** [Array.prototype.findIndex], with the element found; [None] for -1. *)
Fixpoint findIndex {A : Type} (p : A → bool) (l : list A) : option (nat * A) :=
  match l with
  | [] => None
  | x :: r => if p x then Some (0, x) else prod_map S id <$> findIndex p r
  end.

(** [date.toISOString().split('T')[0]], as a day number. *)
Definition isoDate (t : Z) : Z := (t / 86400000)%Z.

(** ** The slot store *)

(** A condition of a query document on the embedded [slots] array, written
    with a dotted path: ["slots._id": s] or ["slots.status": st]. *)
Inductive SlotCond :=
| SlotIdIs (s : Id)
| SlotStatusIs (st : SlotStatus).

(** A query document on the TimeSlot collection: [{ _id: q_id, ...q_slots }],
    the array conditions in the order the source writes them. *)
Record TimeSlotQuery := {
  q_id : Id;
  q_slots : list SlotCond
}.

(** An update document [{ $set: { "slots.$.status": .., "slots.$.bookedForSport": .. } }]. *)
Record SlotSet := {
  set_status : SlotStatus;
  set_bookedForSport : option string
}.

Definition slot_sat (c : SlotCond) (s : SlotEntry) : bool :=
  match c with
  | SlotIdIs i => String.eqb (slot_id s) i
  | SlotStatusIs st => bool_decide (slot_status s = st)
  end.

(** The datastore's reading of a query document.  A dotted-path condition
    on an array of subdocuments holds when some element of the array
    satisfies it. *)
Definition array_sat (c : SlotCond) (slots : list SlotEntry) : bool :=
  existsb (slot_sat c) slots.

(** A document matches when its [_id] is the one asked for and every array
    condition holds.  The array conditions of one query document are
    independent: each may be met by a different element.  The query language
    ties conditions to one and the same element only under [$elemMatch],
    which none of the handlers' queries uses. *)
Definition query_matches (q : TimeSlotQuery) (doc : TimeSlotDoc) : bool :=
  String.eqb (ts_id doc) (q_id q) && forallb (λ c, array_sat c (ts_slots doc)) (q_slots q).

(** The position the placeholder [$] of an update stands for.  The server
    records the index of the array element that met a condition while it
    evaluates the query; with several conditions on the array it keeps the
    index recorded last.  For a query with the single condition
    ["slots._id"] this is the first entry with that id; for the lock's query
    it is the first entry whose status is available. *)
Definition positional (q : TimeSlotQuery) (slots : list SlotEntry) : option nat :=
  c ← last (q_slots q); fst <$> findIndex (slot_sat c) slots.

Definition apply_SlotSet (u : SlotSet) (s : SlotEntry) : SlotEntry :=
  {| slot_id := slot_id s;
     slot_startTime := slot_startTime s;
     slot_endTime := slot_endTime s;
     slot_status := set_status u;
     slot_bookedForSport := set_bookedForSport u;
     slot_prices := slot_prices s |}.

Definition with_slots (doc : TimeSlotDoc) (slots : list SlotEntry) : TimeSlotDoc :=
  {| ts_id := ts_id doc; ts_subVenue := ts_subVenue doc; ts_date := ts_date doc;
     ts_slots := slots |}.

Definition update_doc (q : TimeSlotQuery) (u : SlotSet) (doc : TimeSlotDoc) : TimeSlotDoc :=
  match positional q (ts_slots doc) with
  | Some i => with_slots doc (alter (apply_SlotSet u) i (ts_slots doc))
  | None => doc
  end.

(** [TimeSlot.findOneAndUpdate(q, { $set: u }, { new: true })] on the
    collection: the first document matching [q] is updated in one indivisible
    step and returned; [None] (null) when no document matches. *)
Definition findOneAndUpdate (q : TimeSlotQuery) (u : SlotSet) (tss : list TimeSlotDoc)
  : option TimeSlotDoc * list TimeSlotDoc :=
  match findIndex (query_matches q) tss with
  | Some (k, doc) => let doc' := update_doc q u doc in (Some doc', <[k := doc']> tss)
  | None => (None, tss)
  end.

(** [TimeSlot.findById(d)]. *)
Definition findById (d : Id) (tss : list TimeSlotDoc) : option (nat * TimeSlotDoc) :=
  findIndex (λ doc, String.eqb (ts_id doc) d) tss.

(** [TimeSlot.findOne({ subVenue, date })]. *)
Definition findBySubVenueDate (sv : Id) (date : Z) (tss : list TimeSlotDoc)
  : option (nat * TimeSlotDoc) :=
  findIndex (λ doc, String.eqb (ts_subVenue doc) sv && Z.eqb (ts_date doc) date) tss.

(** [slots.id(s)] on a document array. *)
Definition slots_id (s : Id) (slots : list SlotEntry) : option SlotEntry :=
  snd <$> findIndex (λ e, String.eqb (slot_id e) s) slots.

(** The predicate both time-matching lookups use:
    [getTime()] of the slot's bounds equal to the booking's. *)
Definition same_times (b : Booking) (s : SlotEntry) : bool :=
  Z.eqb (slot_startTime s) (bk_startTime b) && Z.eqb (slot_endTime s) (bk_endTime b).

(** The two query documents of the handlers:
    [{ _id: d, "slots._id": s, "slots.status": "available" }], the lock, and
    [{ _id: d, "slots._id": s }], the release. *)
Definition lock_query (d s : Id) : TimeSlotQuery :=
  {| q_id := d; q_slots := [SlotIdIs s; SlotStatusIs available] |}.

Definition slot_query (d s : Id) : TimeSlotQuery :=
  {| q_id := d; q_slots := [SlotIdIs s] |}.

(** The two update documents of the handlers:
    [{ "slots.$.status": "booked", "slots.$.bookedForSport": sport }] and
    [{ "slots.$.status": "available", "slots.$.bookedForSport": null }]. *)
Definition set_booked (sport : option string) : SlotSet :=
  {| set_status := booked; set_bookedForSport := sport |}.

Definition set_available : SlotSet :=
  {| set_status := available; set_bookedForSport := None |}.

(** ** The payment processor and the request environment *)

(** Errors a handler can throw: the application's [AppError(message, status)]
    and any other exception (a processor or datastore failure). *)
Inductive Error :=
| AppError (message : string) (statusCode : Z)
| OtherError (message : string).

(** The argument of [stripe.checkout.sessions.create]. *)
Record SessionParams := {
  sp_mode : string;
  sp_payment_method_types : list string;
  sp_expires_at : option Z;
  sp_currency : string;
  sp_unit_amount : float;
  sp_product_name : string;
  sp_quantity : Z;
  sp_metadata : gmap string string;
  sp_success_url : string;
  sp_cancel_url : string
}.

(** What the processor returns for a created session. *)
Record CheckoutSession := { cs_id : string; cs_url : option string }.

(** The [data.object] of a processor event, read as a checkout session. *)
Record EventObject := {
  eo_id : string;
  eo_payment_intent : option string;
  eo_metadata : option (gmap string string)
}.

Record Event := {
  ev_id : string;
  ev_type : string;
  ev_object : EventObject
}.

(** The raw webhook request: body and [stripe-signature] header. *)
Record WebhookRequest := {
  wr_body : string;
  wr_signature : option string
}.

(** Everything a handler reads from outside the stores: the process
    environment, the clock, and the processor's answers. *)
Record Env := {
  STRIPE_SECRET_KEY : option string;
  STRIPE_WEBHOOK_SECRET : option string;
  BYPASS_STRIPE_PAYMENT : option string;
  FRONTEND_URL : option string;
  (** [new Date()] at validation, in milliseconds *)
  clock_request : Z;
  (** [Date.now()] when the payment session is requested, in milliseconds *)
  clock_session : Z;
  (** [stripe.webhooks.constructEvent(body, sig, secret)]: the verified
      event, or the message of the signature error *)
  constructEvent : string → option string → option string → string + Event;
  (** [sessions.create], given the number of sessions created before *)
  sessions_create : nat → SessionParams → Error + CheckoutSession;
  (** the failure of [Booking.create] on a document, if any *)
  Booking_create_fault : Booking → option Error;
  (** [new mongoose.Types.ObjectId()], given the number generated before *)
  ObjectId : nat → Id
}.

(** ** The world *)

Inductive Collection := TimeSlots | Bookings | Games | SubVenues | Venues.

(** A datastore call, as recorded in the order of issue. *)
Inductive DbOp :=
| OpRead (c : Collection)
| OpWrite (c : Collection)
| OpFindOneAndUpdate (q : TimeSlotQuery) (u : SlotSet) (matched : bool).

Record World := {
  timeslots : list TimeSlotDoc;
  bookings : list Booking;
  games : gmap Id Game;
  subvenues : gmap Id SubVenue;
  venues : gmap Id Venue;
  (** sessions requested from the processor, newest first *)
  sessions : list SessionParams;
  (** the lazily created processor clients of retryPayment and directBooking *)
  stripe_retry : bool;
  stripe_direct : bool;
  (** ObjectIds generated so far *)
  oids : nat;
  (** datastore calls issued so far, newest first *)
  oplog : list DbOp
}.

Definition with_timeslots (w : World) (x : list TimeSlotDoc) : World :=
  {| timeslots := x; bookings := bookings w; games := games w;
     subvenues := subvenues w; venues := venues w; sessions := sessions w;
     stripe_retry := stripe_retry w; stripe_direct := stripe_direct w;
     oids := oids w; oplog := oplog w |}.

Definition with_bookings (w : World) (x : list Booking) : World :=
  {| timeslots := timeslots w; bookings := x; games := games w;
     subvenues := subvenues w; venues := venues w; sessions := sessions w;
     stripe_retry := stripe_retry w; stripe_direct := stripe_direct w;
     oids := oids w; oplog := oplog w |}.

Definition with_games (w : World) (x : gmap Id Game) : World :=
  {| timeslots := timeslots w; bookings := bookings w; games := x;
     subvenues := subvenues w; venues := venues w; sessions := sessions w;
     stripe_retry := stripe_retry w; stripe_direct := stripe_direct w;
     oids := oids w; oplog := oplog w |}.

Definition with_sessions (w : World) (x : list SessionParams) : World :=
  {| timeslots := timeslots w; bookings := bookings w; games := games w;
     subvenues := subvenues w; venues := venues w; sessions := x;
     stripe_retry := stripe_retry w; stripe_direct := stripe_direct w;
     oids := oids w; oplog := oplog w |}.

Definition with_stripe_retry (w : World) (x : bool) : World :=
  {| timeslots := timeslots w; bookings := bookings w; games := games w;
     subvenues := subvenues w; venues := venues w; sessions := sessions w;
     stripe_retry := x; stripe_direct := stripe_direct w;
     oids := oids w; oplog := oplog w |}.

Definition with_stripe_direct (w : World) (x : bool) : World :=
  {| timeslots := timeslots w; bookings := bookings w; games := games w;
     subvenues := subvenues w; venues := venues w; sessions := sessions w;
     stripe_retry := stripe_retry w; stripe_direct := x;
     oids := oids w; oplog := oplog w |}.

Definition with_oids (w : World) (x : nat) : World :=
  {| timeslots := timeslots w; bookings := bookings w; games := games w;
     subvenues := subvenues w; venues := venues w; sessions := sessions w;
     stripe_retry := stripe_retry w; stripe_direct := stripe_direct w;
     oids := x; oplog := oplog w |}.

Definition with_oplog (w : World) (x : list DbOp) : World :=
  {| timeslots := timeslots w; bookings := bookings w; games := games w;
     subvenues := subvenues w; venues := venues w; sessions := sessions w;
     stripe_retry := stripe_retry w; stripe_direct := stripe_direct w;
     oids := oids w; oplog := x |}.

Definition logged (op : DbOp) (w : World) : World := with_oplog w (op :: oplog w).

(** ** Handler computations: state and exceptions *)

Inductive Res (A : Type) :=
| Ok (a : A)
| Throw (e : Error).

Arguments Ok {A} a.
Arguments Throw {A} e.

Definition M (A : Type) : Type := World → Res A * World.

Definition ret {A} (a : A) : M A := λ w, (Ok a, w).

Definition throw {A} (e : Error) : M A := λ w, (Throw e, w).

Definition bind {A B} (m : M A) (k : A → M B) : M B :=
  λ w, match m w with
       | (Ok a, w') => k a w'
       | (Throw e, w') => (Throw e, w')
       end.

(** [try { m } catch (error) { h error }] *)
Definition try_catch {A} (m : M A) (h : Error → M A) : M A :=
  λ w, match m w with
       | (Ok a, w') => (Ok a, w')
       | (Throw e, w') => h e w'
       end.

Declare Scope handler_scope.
Delimit Scope handler_scope with handler.
Bind Scope handler_scope with M.

Notation "x <~ m ;; k" := (bind m (λ x, k))
  (at level 100, m at next level, right associativity) : handler_scope.
Notation "m ;;; k" := (bind m (λ _, k))
  (at level 100, right associativity) : handler_scope.

Local Open Scope handler_scope.

Definition unless (c : bool) (e : Error) : M () := if c then ret () else throw e.

(** *** Datastore calls *)

Definition TimeSlot_findById (d : Id) : M (option (nat * TimeSlotDoc)) :=
  λ w, (Ok (findById d (timeslots w)), logged (OpRead TimeSlots) w).

Definition TimeSlot_findOne (sv : Id) (date : Z) : M (option (nat * TimeSlotDoc)) :=
  λ w, (Ok (findBySubVenueDate sv date (timeslots w)), logged (OpRead TimeSlots) w).

Definition TimeSlot_findOneAndUpdate (q : TimeSlotQuery) (u : SlotSet) : M (option TimeSlotDoc) :=
  λ w, let '(r, tss) := findOneAndUpdate q u (timeslots w) in
       (Ok r, logged (OpFindOneAndUpdate q u (bool_decide (is_Some r))) (with_timeslots w tss)).

(** [timeSlot.slots[j].status = ..; timeSlot.slots[j].bookedForSport = ..;
    await timeSlot.save()] on the document read at position [k]. *)
Definition TimeSlot_save_slot (k j : nat) (u : SlotSet) : M () :=
  λ w, (Ok (),
        logged (OpWrite TimeSlots)
          (with_timeslots w
             (alter (λ doc, with_slots doc (alter (apply_SlotSet u) j (ts_slots doc))) k
                (timeslots w)))).

Definition Booking_findOne (p : Booking → bool) : M (option (nat * Booking)) :=
  λ w, (Ok (findIndex p (bookings w)), logged (OpRead Bookings) w).

(** [booking.save()] after assignments [f] to the document read at [i]. *)
Definition Booking_save (i : nat) (f : Booking → Booking) : M () :=
  λ w, (Ok (), logged (OpWrite Bookings) (with_bookings w (alter f i (bookings w)))).

Definition Game_findById (g : Id) : M (option Game) :=
  λ w, (Ok (games w !! g), logged (OpRead Games) w).

Definition Game_save (g : Id) (x : Game) : M () :=
  λ w, (Ok (), logged (OpWrite Games) (with_games w (<[g := x]> (games w)))).

Definition SubVenue_findById (s : Id) : M (option SubVenue) :=
  λ w, (Ok (subvenues w !! s), logged (OpRead SubVenues) w).

Definition Venue_findById (v : Id) : M (option Venue) :=
  λ w, (Ok (venues w !! v), logged (OpRead Venues) w).

Definition from_env (v : option string) : string := default "undefined" v.

(** *** Assignments to a booking or game document *)

Definition bk_set_status (st : BookingStatus) (b : Booking) : Booking :=
  {| bk_id := bk_id b; bk_user := bk_user b; bk_venueId := bk_venueId b;
     bk_subVenueId := bk_subVenueId b; bk_sport := bk_sport b;
     bk_coordinates := bk_coordinates b; bk_startTime := bk_startTime b;
     bk_endTime := bk_endTime b; bk_timeSlotDocId := bk_timeSlotDocId b;
     bk_slotId := bk_slotId b; bk_amount := bk_amount b; bk_currency := bk_currency b;
     bk_stripeSessionId := bk_stripeSessionId b;
     bk_stripePaymentIntentId := bk_stripePaymentIntentId b;
     bk_status := st; bk_gameId := bk_gameId b |}.

Definition bk_set_stripeSessionId (sid : string) (b : Booking) : Booking :=
  {| bk_id := bk_id b; bk_user := bk_user b; bk_venueId := bk_venueId b;
     bk_subVenueId := bk_subVenueId b; bk_sport := bk_sport b;
     bk_coordinates := bk_coordinates b; bk_startTime := bk_startTime b;
     bk_endTime := bk_endTime b; bk_timeSlotDocId := bk_timeSlotDocId b;
     bk_slotId := bk_slotId b; bk_amount := bk_amount b; bk_currency := bk_currency b;
     bk_stripeSessionId := sid;
     bk_stripePaymentIntentId := bk_stripePaymentIntentId b;
     bk_status := bk_status b; bk_gameId := bk_gameId b |}.

Definition bk_set_stripePaymentIntentId (pi : option string) (b : Booking) : Booking :=
  {| bk_id := bk_id b; bk_user := bk_user b; bk_venueId := bk_venueId b;
     bk_subVenueId := bk_subVenueId b; bk_sport := bk_sport b;
     bk_coordinates := bk_coordinates b; bk_startTime := bk_startTime b;
     bk_endTime := bk_endTime b; bk_timeSlotDocId := bk_timeSlotDocId b;
     bk_slotId := bk_slotId b; bk_amount := bk_amount b; bk_currency := bk_currency b;
     bk_stripeSessionId := bk_stripeSessionId b;
     bk_stripePaymentIntentId := pi;
     bk_status := bk_status b; bk_gameId := bk_gameId b |}.

Definition game_set_status (st : GameStatus) (g : Game) : Game :=
  {| game_status := st; game_bookingStatus := game_bookingStatus g |}.

Definition game_set_bookingStatus (st : GameBookingStatus) (g : Game) : Game :=
  {| game_status := game_status g; game_bookingStatus := st |}.

(** A string-valued field that is present and truthy. *)
Definition nonempty (v : option string) : option string :=
  if truthy v then v else None.

(** [metadata && metadata[k]] *)
Definition metadata_get (md : option (gmap string string)) (k : string) : option string :=
  md ≫= (λ m, nonempty (m !! k)).

Definition error_message (e : Error) : string :=
  match e with
  | AppError m _ => m
  | OtherError m => m
  end.

(** ** Responses *)

Inductive Body :=
| BodyText (s : string)                               (* res.send(text) *)
| BodyStatus                                          (* res.sendStatus(code) *)
| BodyCheckout (url : option string) (bookingId : Id) (* { success, url, bookingId } *)
| BodyDemo (bookingId : Id) (status : BookingStatus) (sport : option string)
           (startTime endTime : Z) (amount : float).  (* { success, demoMode, booking } *)

Record Response := { res_status : Z; res_body : Body }.

(** ** The handlers *)

Section Handlers.

Context (env : Env).

(** *** stripeWebhook *)

Definition by_session (sid : string) (b : Booking) : bool :=
  String.eqb (bk_stripeSessionId b) sid.

(** [case "checkout.session.completed"] *)
Definition on_completed (session : EventObject) : M () :=
  booking <~ Booking_findOne (by_session (eo_id session)) ;;
  match booking with
  | Some (i, _) =>
      Booking_save i
        (λ b, bk_set_stripePaymentIntentId (eo_payment_intent session) (bk_set_status Paid b)) ;;;
      match eo_metadata session with
      | Some md =>
          if bool_decide (md !! "type" = Some "game") then
            match nonempty (md !! "gameId") with
            | Some gameId =>
                game <~ Game_findById gameId ;;
                match game with
                | Some g => Game_save gameId (game_set_bookingStatus Booked g)
                | None => ret ()
                end
            | None => ret ()
            end
          else ret ()
      | None => ret ()
      end
  | None => ret ()
  end.

(** The release of the slot on expiry: by the event's metadata when it names
    the document and the slot, else by the booking's sub-venue, day and
    times. *)
Definition release_expired (session : EventObject) (expiredBooking : option (nat * Booking))
  : M () :=
  match metadata_get (eo_metadata session) "timeSlotDocId",
        metadata_get (eo_metadata session) "slotId" with
  | Some timeSlotDocId, Some slotId =>
      TimeSlot_findOneAndUpdate (slot_query timeSlotDocId slotId) set_available ;;;
      ret ()
  | _, _ =>
      match expiredBooking with
      | Some (_, b) =>
          match nonempty (bk_subVenueId b) with
          | Some subVenueId =>
              timeSlot <~ TimeSlot_findOne subVenueId (isoDate (bk_startTime b)) ;;
              match timeSlot with
              | Some (k, doc) =>
                  match findIndex (same_times b) (ts_slots doc) with
                  | Some (slotIndex, _) => TimeSlot_save_slot k slotIndex set_available
                  | None => ret ()
                  end
              | None => ret ()
              end
          | None => ret ()
          end
      | None => ret ()
      end
  end.

(** [case "checkout.session.expired"] *)
Definition on_expired (session : EventObject) : M () :=
  expiredBooking <~ Booking_findOne (by_session (eo_id session)) ;;
  match expiredBooking with
  | Some (i, _) =>
      Booking_save i (bk_set_status Failed) ;;;
      match metadata_get (eo_metadata session) "gameId" with
      | Some gameId =>
          game <~ Game_findById gameId ;;
          match game with
          | Some g => Game_save gameId (game_set_status Open g)
          | None => ret ()
          end
      | None => ret ()
      end
  | None => ret ()
  end ;;;
  release_expired session expiredBooking.

(** [switch (event.type)] *)
Definition dispatch (event : Event) : M () :=
  if String.eqb (ev_type event) "checkout.session.completed" then
    on_completed (ev_object event)
  else if String.eqb (ev_type event) "checkout.session.expired" then
    on_expired (ev_object event)
  else if String.eqb (ev_type event) "payment_intent.payment_failed" then ret ()
  else if String.eqb (ev_type event) "payment_intent.succeeded" then ret ()
  else ret ().

Definition stripeWebhook (req : WebhookRequest) : M Response :=
  match constructEvent env (wr_body req) (wr_signature req) (STRIPE_WEBHOOK_SECRET env) with
  | inl message =>
      ret {| res_status := 400; res_body := BodyText ("Webhook Error: " ++ message) |}
  | inr event =>
      failed <~ try_catch (dispatch event ;;; ret None)
                 (λ err, ret (Some {| res_status := 500;
                                      res_body := BodyText ("Webhook processing error: "
                                                            ++ error_message err) |})) ;;
      match failed with
      | Some response => ret response
      | None => ret {| res_status := 200; res_body := BodyStatus |}
      end
  end.

(** *** The processor client *)

(** [getStripe()]: the client is created on first use, which needs the key. *)
Definition getStripe (ready : World → bool) (mark : World → bool → World) : M () :=
  λ w, if ready w then (Ok (), w)
       else if truthy (STRIPE_SECRET_KEY env) then (Ok (), mark w true)
       else (Throw (AppError "STRIPE_SECRET_KEY is not set in environment variables" 500), w).

(** [stripeClient.checkout.sessions.create(p)] *)
Definition checkout_sessions_create (p : SessionParams) : M CheckoutSession :=
  λ w, match sessions_create env (length (sessions w)) p with
       | inr s => (Ok s, with_sessions w (p :: sessions w))
       | inl e => (Throw e, w)
       end.

Definition success_url : string :=
  from_env (FRONTEND_URL env) ++ "/payment-success?session_id={CHECKOUT_SESSION_ID}".

Definition cancel_url : string := from_env (FRONTEND_URL env) ++ "/payment-cancel".

(** *** retryPayment *)

Record RetryRequest := {
  rr_user : Id;                   (* req.user._id *)
  rr_bookingId : option string    (* req.body.bookingId *)
}.

Definition retry_session_params (userId : Id) (booking : Booking) : SessionParams :=
  {| sp_mode := "payment";
     sp_payment_method_types := ["card"];
     sp_expires_at := None;
     sp_currency := bk_currency booking;
     sp_unit_amount := bk_amount booking;
     sp_product_name := "Booking Retry - " ++ default "Venue" (nonempty (bk_sport booking));
     sp_quantity := 1;
     sp_metadata := {[ "type" := "retry"; "userId" := userId; "bookingId" := bk_id booking ]};
     sp_success_url := success_url;
     sp_cancel_url := cancel_url |}.

(** The lock step of the retry: [didLock] for the [try] block that follows. *)
Definition retry_lock (booking : Booking) (ts : TimeSlotDoc) (slot : SlotEntry) : M bool :=
  match bk_status booking with
  | Failed =>
      lockedTs <~ TimeSlot_findOneAndUpdate (lock_query (ts_id ts) (slot_id slot))
                    (set_booked (bk_sport booking)) ;;
      match lockedTs with
      | None => throw (AppError "Slot is no longer available" 400)
      | Some _ => ret true
      end
  | Pending =>
      lockedTs <~ TimeSlot_findOneAndUpdate (lock_query (ts_id ts) (slot_id slot))
                    (set_booked (bk_sport booking)) ;;
      match lockedTs with
      | Some _ => ret true
      | None =>
          currentTs <~ TimeSlot_findById (ts_id ts) ;;
          match currentTs with
          | None => throw (OtherError "Cannot read properties of undefined (reading 'id')")
          | Some (_, cur) =>
              match slots_id (slot_id slot) (ts_slots cur) with
              | Some currentSlot =>
                  if bool_decide (slot_status currentSlot = booked) then ret false
                  else throw (AppError "Slot is not available for retry" 400)
              | None => throw (AppError "Slot is not available for retry" 400)
              end
          end
      end
  | Paid => ret false
  end.

(** The [try] block of the retry and its [catch]. *)
Definition retry_pay (userId : Id) (i : nat) (booking : Booking)
    (ts : TimeSlotDoc) (slot : SlotEntry) (didLock : bool) : M Response :=
  try_catch
    (getStripe stripe_retry with_stripe_retry ;;;
     session <~ checkout_sessions_create (retry_session_params userId booking) ;;
     Booking_save i (λ b, bk_set_status Pending (bk_set_stripeSessionId (cs_id session) b)) ;;;
     match nonempty (bk_gameId booking) with
     | Some gameId =>
         game <~ Game_findById gameId ;;
         match game with
         | Some g => Game_save gameId (game_set_status Full g)
         | None => ret ()
         end
     | None => ret ()
     end ;;;
     ret {| res_status := 200; res_body := BodyCheckout (cs_url session) (bk_id booking) |})
    (λ error,
       (if didLock then
          TimeSlot_findOneAndUpdate (slot_query (ts_id ts) (slot_id slot)) set_available ;;;
          ret ()
        else ret ()) ;;;
       throw error).

Definition retryPayment (req : RetryRequest) : M Response :=
  let userId := rr_user req in
  match nonempty (rr_bookingId req) with
  | None => throw (AppError "Booking ID is required" 400)
  | Some bookingId =>
  found <~ Booking_findOne (λ b, String.eqb (bk_id b) bookingId && String.eqb (bk_user b) userId) ;;
  match found with
  | None => throw (AppError "Booking not found" 404)
  | Some (i, booking) =>
  if bool_decide (bk_status booking = Paid) then
    throw (AppError "Booking is already paid" 400)
  else if (bk_startTime booking <? clock_request env)%Z then
    throw (AppError "Cannot retry payment for a past booking" 400)
  else if bool_decide (bk_status booking = Failed) || bool_decide (bk_status booking = Pending) then
    match nonempty (bk_subVenueId booking) with
    | None => throw (AppError "Invalid booking: missing subVenueId" 400)
    | Some subVenueId =>
    ts <~ TimeSlot_findOne subVenueId (isoDate (bk_startTime booking)) ;;
    match ts with
    | None => throw (AppError "TimeSlot not found" 404)
    | Some (_, ts) =>
    match findIndex (same_times booking) (ts_slots ts) with
    | None => throw (AppError "Slot not found" 404)
    | Some (_, slot) =>
    didLock <~ retry_lock booking ts slot ;;
    retry_pay userId i booking ts slot didLock
    end end end
  else throw (AppError "Invalid booking status for retry" 400)
  end end.

(** *** createDirectBooking *)

Record DirectRequest := {
  dr_user : Id;                    (* req.user._id *)
  dr_subVenueId : option string;   (* req.body.* *)
  dr_timeSlotDocId : option string;
  dr_slotId : option string;
  dr_sport : option string
}.

(** What the lookup of a price answers besides [undefined]: a number, or,
    on a plain object without an own property of that name, the member of
    [Object.prototype] of that name (a function, or the prototype itself for
    [__proto__]). *)
Inductive PriceValue :=
| PriceNumber (x : float)
| PriceInherited.

(** The property names of [Object.prototype]. *)
Definition Object_prototype : list string :=
  ["constructor"; "__defineGetter__"; "__defineSetter__"; "hasOwnProperty";
   "__lookupGetter__"; "__lookupSetter__"; "isPrototypeOf"; "propertyIsEnumerable";
   "toString"; "valueOf"; "__proto__"; "toLocaleString"].

(** The price of a sport: [prices.get(sport)] on a [Map], [prices[sport]] on
    a plain object, where the lookup goes on to the prototype. *)
Definition price_of (prices : Prices) (sport : string) : option PriceValue :=
  match prices with
  | PricesMap entries => PriceNumber <$> entries !! sport
  | PricesObject props =>
      match props !! sport with
      | Some x => Some (PriceNumber x)
      | None => if bool_decide (sport ∈ Object_prototype) then Some PriceInherited else None
      end
  end.

(** [!price]: [undefined], 0, -0 and NaN are falsy; a function or an object
    is truthy. *)
Definition no_price (price : option PriceValue) : bool :=
  match price with
  | Some (PriceNumber x) => PrimFloat.eqb x 0 || PrimFloat.is_nan x
  | Some PriceInherited => false
  | None => true
  end.

(** [price * 100]: the product of two doubles; a function, an object or
    [undefined] converts to NaN. *)
Definition times_100 (price : option PriceValue) : float :=
  match price with
  | Some (PriceNumber x) => PrimFloat.mul x 100
  | Some PriceInherited | None => PrimFloat.nan
  end.

(** What the validation hands over to the locking step. *)
Record Validated := {
  v_subVenueId : Id;
  v_timeSlotDocId : Id;
  v_slotId : Id;
  v_sport : string;
  v_slot : SlotEntry;
  v_priceInPaise : float;
  v_venue : Venue
}.

(** Everything before the atomic lock: reads and checks only. *)
Definition validate (req : DirectRequest) : M Validated :=
  match nonempty (dr_subVenueId req), nonempty (dr_timeSlotDocId req),
        nonempty (dr_slotId req), nonempty (dr_sport req) with
  | Some subVenueId, Some timeSlotDocId, Some slotId, Some sport =>
      ts <~ TimeSlot_findById timeSlotDocId ;;
      match ts with
      | None => throw (AppError "TimeSlot document not found" 404)
      | Some (_, ts) =>
      match slots_id slotId (ts_slots ts) with
      | None => throw (AppError "Slot not found" 404)
      | Some slot =>
      if negb (bool_decide (slot_status slot = available)) then
        throw (AppError "Slot is no longer available" 400)
      else if (slot_startTime slot <? clock_request env)%Z then
        throw (AppError "Cannot book a slot in the past" 400)
      else
      let price := price_of (slot_prices slot) sport in
      if no_price price then
        throw (AppError "Sport price not available for this slot" 400)
      else
      let priceInPaise := times_100 price in
      subVenue <~ SubVenue_findById subVenueId ;;
      match subVenue with
      | None => throw (AppError "SubVenue not found" 404)
      | Some subVenue =>
      venue <~ Venue_findById (sv_venue subVenue) ;;
      match venue with
      | None => throw (AppError "Venue not found" 404)
      | Some venue =>
          ret {| v_subVenueId := subVenueId; v_timeSlotDocId := timeSlotDocId;
                 v_slotId := slotId; v_sport := sport; v_slot := slot;
                 v_priceInPaise := priceInPaise; v_venue := venue |}
      end end end end
  | _, _, _, _ => throw (AppError "Missing required fields" 400)
  end.

Definition direct_session_params (userId bookingId : Id) (v : Validated) : SessionParams :=
  {| sp_mode := "payment";
     sp_payment_method_types := ["card"];
     sp_expires_at := Some (clock_session env / 1000 + 30 * 60)%Z;
     sp_currency := "inr";
     sp_unit_amount := v_priceInPaise v;
     sp_product_name := "Direct Venue Booking - " ++ v_sport v;
     sp_quantity := 1;
     sp_metadata := {[ "type" := "direct"; "userId" := userId; "bookingId" := bookingId;
                       "timeSlotDocId" := v_timeSlotDocId v; "slotId" := v_slotId v ]};
     sp_success_url := success_url;
     sp_cancel_url := cancel_url |}.

Definition direct_booking (userId bookingId : Id) (v : Validated)
    (stripeSessionId : string) (stripePaymentIntentId : option string)
    (bookingStatus : BookingStatus) : Booking :=
  {| bk_id := bookingId;
     bk_user := userId;
     bk_venueId := venue_id (v_venue v);
     bk_subVenueId := Some (v_subVenueId v);
     bk_sport := Some (v_sport v);
     bk_coordinates := venue_coordinates (v_venue v);
     bk_startTime := slot_startTime (v_slot v);
     bk_endTime := slot_endTime (v_slot v);
     bk_timeSlotDocId := Some (v_timeSlotDocId v);
     bk_slotId := Some (v_slotId v);
     bk_amount := v_priceInPaise v;
     bk_currency := "inr";
     bk_stripeSessionId := stripeSessionId;
     bk_stripePaymentIntentId := stripePaymentIntentId;
     bk_status := bookingStatus;
     bk_gameId := None |}.

Definition new_ObjectId : M Id :=
  λ w, (Ok (ObjectId env (oids w)), with_oids w (S (oids w))).

(** [Booking.create(b)] *)
Definition Booking_create (b : Booking) : M Booking :=
  λ w, match Booking_create_fault env b with
       | Some e => (Throw e, logged (OpWrite Bookings) w)
       | None => (Ok b, logged (OpWrite Bookings) (with_bookings w (bookings w ++ [b])))
       end.

(** The [try] block after the lock. *)
Definition book_locked (userId : Id) (v : Validated) : M Response :=
  bookingId <~ new_ObjectId ;;
  if bool_decide (BYPASS_STRIPE_PAYMENT env = Some "true") then
    booking <~ Booking_create
                 (direct_booking userId bookingId v ("demo_session_" ++ bookingId)
                    (Some ("demo_payment_" ++ bookingId)) Paid) ;;
    ret {| res_status := 201;
           res_body := BodyDemo (bk_id booking) (bk_status booking) (bk_sport booking)
                         (bk_startTime booking) (bk_endTime booking)
                         (PrimFloat.div (bk_amount booking) 100) |}
  else
    getStripe stripe_direct with_stripe_direct ;;;
    session <~ checkout_sessions_create (direct_session_params userId bookingId v) ;;
    booking <~ Booking_create
                 (direct_booking userId bookingId v (cs_id session) None Pending) ;;
    ret {| res_status := 201; res_body := BodyCheckout (cs_url session) (bk_id booking) |}.

(** The atomic lock and everything after it. *)
Definition reserve (userId : Id) (v : Validated) : M Response :=
  lockedTs <~ TimeSlot_findOneAndUpdate (lock_query (v_timeSlotDocId v) (v_slotId v))
                (set_booked (Some (v_sport v))) ;;
  match lockedTs with
  | None => throw (AppError "Slot is no longer available" 400)
  | Some _ =>
      try_catch (book_locked userId v)
        (λ error,
           TimeSlot_findOneAndUpdate (slot_query (v_timeSlotDocId v) (v_slotId v))
             set_available ;;;
           throw error)
  end.

Definition createDirectBooking (req : DirectRequest) : M Response :=
  v <~ validate req ;;
  reserve (dr_user req) v.

End Handlers.

(** ** Observations on a world *)

(** The slot entry a reader gets for a document id and a slot id:
    [TimeSlot.findById(d)] followed by [slots.id(s)]. *)
Definition read_slot (d s : Id) (tss : list TimeSlotDoc) : option SlotEntry :=
  findById d tss ≫= (λ r, slots_id s (ts_slots r.2)).

(** The datastore calls a run started in [w] has added on reaching [w']. *)
Definition issued (w w' : World) : list DbOp :=
  take (length (oplog w') - length (oplog w)) (oplog w').

(** The [findOneAndUpdate] calls among datastore calls. *)
Definition updates (ops : list DbOp) : list DbOp :=
  List.filter (λ op, match op with OpFindOneAndUpdate _ _ _ => true | _ => false end) ops.

(** The faults a failing step of [createDirectBooking] can raise. *)
Definition direct_fault (env : Env) (e : Error) : Prop :=
  e = AppError "STRIPE_SECRET_KEY is not set in environment variables" 500
  ∨ (∃ n p, sessions_create env n p = inl e)
  ∨ (∃ b, Booking_create_fault env b = Some e).

(** The processor is configured and accepts every session. *)
Definition processor_up (env : Env) : Prop :=
  truthy (STRIPE_SECRET_KEY env) = true ∧ ∀ n p, ∃ cs, sessions_create env n p = inr cs.

(** [Booking.create] succeeds on every document. *)
Definition persistence_up (env : Env) : Prop :=
  ∀ b, Booking_create_fault env b = None.

(** The slot [s] of document [d] is the first available entry of its
    document. *)
Definition first_available (d s : Id) (tss : list TimeSlotDoc) : bool :=
  match findById d tss with
  | Some (_, doc) =>
      match findIndex (slot_sat (SlotIdIs s)) (ts_slots doc),
            findIndex (slot_sat (SlotStatusIs available)) (ts_slots doc) with
      | Some (j, _), Some (j', _) => Nat.eqb j j'
      | _, _ => false
      end
  | None => false
  end.

(** Two direct bookings racing: both finish their validation before either
    reaches its lock; the locks and what follows them then run one after the
    other.  Every step between two [await]s is one step here. *)
Definition race (env : Env) (req1 req2 : DirectRequest)
  : World → (Res Response * Res Response) * World :=
  λ w,
    let '(v1, w1) := validate env req1 w in
    let '(v2, w2) := validate env req2 w1 in
    let '(r1, w3) := match v1 with
                     | Ok v => reserve env (dr_user req1) v w2
                     | Throw e => (Throw e, w2)
                     end in
    let '(r2, w4) := match v2 with
                     | Ok v => reserve env (dr_user req2) v w3
                     | Throw e => (Throw e, w3)
                     end in
    ((r1, r2), w4).

(** ** Scenarios *)

Definition ex_slot (id : Id) (startTime endTime : Z) (st : SlotStatus)
    (sport : option string) (prices : Prices) : SlotEntry :=
  {| slot_id := id; slot_startTime := startTime; slot_endTime := endTime;
     slot_status := st; slot_bookedForSport := sport; slot_prices := prices |}.

Definition ex_prices : Prices :=
  PricesObject {[ "Cricket" := 1000%float; "Football" := 800%float; "Chess" := 0%float ]}.

Definition ex_prices_map : Prices := PricesMap {[ "Cricket" := 1200%float ]}.

(** One sub-venue, one day, two one-hour slots. *)
Definition ex_doc (stA stB : SlotStatus) (sportA sportB : option string) : TimeSlotDoc :=
  {| ts_id := "tsDoc123"; ts_subVenue := "subVenue123"; ts_date := 20000;
     ts_slots := [ex_slot "slot123" 1728000000000 1728003600000 stA sportA ex_prices;
                  ex_slot "slot456" 1728003600000 1728007200000 stB sportB ex_prices_map] |}.

Definition ex_world (doc : TimeSlotDoc) (bks : list Booking) : World :=
  {| timeslots := [doc];
     bookings := bks;
     games := {[ "game123" := {| game_status := Full; game_bookingStatus := NotBooked |} ]};
     subvenues := {[ "subVenue123" := {| sv_venue := "venue123" |} ]};
     venues := {[ "venue123" := {| venue_id := "venue123"; venue_coordinates := [0; 0]%Z |} ]};
     sessions := [];
     stripe_retry := false;
     stripe_direct := false;
     oids := 0;
     oplog := [] |}.

(** A booking of slot123 by user123. *)
Definition ex_booking (st : BookingStatus) (sessionId : string) : Booking :=
  {| bk_id := "booking123"; bk_user := "user123"; bk_venueId := "venue123";
     bk_subVenueId := Some "subVenue123"; bk_sport := Some "Cricket";
     bk_coordinates := [0; 0]%Z;
     bk_startTime := 1728000000000; bk_endTime := 1728003600000;
     bk_timeSlotDocId := Some "tsDoc123"; bk_slotId := Some "slot123";
     bk_amount := 100000; bk_currency := "inr";
     bk_stripeSessionId := sessionId; bk_stripePaymentIntentId := None;
     bk_status := st; bk_gameId := None |}.

Definition ex_event (type sessionId : string) (md : option (gmap string string)) : Event :=
  {| ev_id := "evt_1"; ev_type := type;
     ev_object := {| eo_id := sessionId; eo_payment_intent := Some "pi_1"; eo_metadata := md |} |}.

Definition ex_metadata : gmap string string :=
  {[ "type" := "direct"; "userId" := "user123"; "bookingId" := "booking123";
     "timeSlotDocId" := "tsDoc123"; "slotId" := "slot123" ]}.

Definition ex_metadata_game : gmap string string :=
  {[ "type" := "game"; "userId" := "user123"; "bookingId" := "booking123";
     "gameId" := "game123"; "timeSlotDocId" := "tsDoc123"; "slotId" := "slot123" ]}.

(** The processor's verification: the signature header decides, and the body
    names the event delivered. *)
Definition ex_constructEvent (body : string) (sig secret : option string) : string + Event :=
  if bool_decide (sig = Some "t=1,v1=good") then
    if String.eqb body "expired with metadata" then
      inr (ex_event "checkout.session.expired" "cs_0" (Some ex_metadata))
    else if String.eqb body "expired game session" then
      inr (ex_event "checkout.session.expired" "cs_0" (Some ex_metadata_game))
    else if String.eqb body "expired without metadata" then
      inr (ex_event "checkout.session.expired" "cs_0" None)
    else if String.eqb body "completed" then
      inr (ex_event "checkout.session.completed" "cs_0" (Some ex_metadata))
    else inl "Unexpected end of JSON input"
  else inl "No signatures found matching the expected signature for payload".

Definition ex_env (processor : nat → SessionParams → Error + CheckoutSession) : Env :=
  {| STRIPE_SECRET_KEY := Some "sk_test";
     STRIPE_WEBHOOK_SECRET := Some "whsec_test";
     BYPASS_STRIPE_PAYMENT := None;
     FRONTEND_URL := Some "http://localhost:3000";
     clock_request := 1727900000000;
     clock_session := 1727900000500;
     constructEvent := ex_constructEvent;
     sessions_create := processor;
     Booking_create_fault := λ _, None;
     ObjectId := λ n, "oid" ++ pretty n |}.

Definition processor_ok (n : nat) (p : SessionParams) : Error + CheckoutSession :=
  inr {| cs_id := "cs_" ++ pretty n; cs_url := Some "https://checkout.stripe.com/pay" |}.

Definition processor_down (n : nat) (p : SessionParams) : Error + CheckoutSession :=
  inl (OtherError "Stripe Fail").

Definition ex_direct (user slotId sport : string) : DirectRequest :=
  {| dr_user := user; dr_subVenueId := Some "subVenue123";
     dr_timeSlotDocId := Some "tsDoc123"; dr_slotId := Some slotId; dr_sport := Some sport |}.

Definition ex_retry : RetryRequest :=
  {| rr_user := "user123"; rr_bookingId := Some "booking123" |}.

Definition ex_webhook (body : string) (sig : option string) : WebhookRequest :=
  {| wr_body := body; wr_signature := sig |}.

Definition ex_good_signature : option string := Some "t=1,v1=good".

(** What validation hands over for slot123 and Cricket. *)
Definition ex_validated : Validated :=
  {| v_subVenueId := "subVenue123"; v_timeSlotDocId := "tsDoc123"; v_slotId := "slot123";
     v_sport := "Cricket";
     v_slot := ex_slot "slot123" 1728000000000 1728003600000 available None ex_prices;
     v_priceInPaise := 100000;
     v_venue := {| venue_id := "venue123"; venue_coordinates := [0; 0]%Z |} |}.

(** ** What a request leaves of the stores *)

(** The three collections the handlers share. *)
Definition stores (w : World) : list TimeSlotDoc * list Booking * gmap Id Game :=
  (timeslots w, bookings w, games w).

(** What a booking is a purchase of: everything but its payment fields
    ([stripeSessionId], [stripePaymentIntentId], [status]). *)
Definition purchase (b : Booking) :=
  (bk_id b, bk_user b, bk_venueId b, bk_subVenueId b, bk_sport b, bk_coordinates b,
   bk_startTime b, bk_endTime b, bk_timeSlotDocId b, bk_slotId b,
   bk_amount b, bk_currency b, bk_gameId b).

(** The slot store after the release step of the expiry handler, given the
    booking the handler found. *)
Definition released (session : EventObject) (found : option Booking)
    (tss : list TimeSlotDoc) : list TimeSlotDoc :=
  match metadata_get (eo_metadata session) "timeSlotDocId",
        metadata_get (eo_metadata session) "slotId" with
  | Some d, Some s => (findOneAndUpdate (slot_query d s) set_available tss).2
  | _, _ =>
      match found with
      | Some b =>
          match nonempty (bk_subVenueId b) with
          | Some sv =>
              match findBySubVenueDate sv (isoDate (bk_startTime b)) tss with
              | Some (k, doc) =>
                  match findIndex (same_times b) (ts_slots doc) with
                  | Some (j, _) =>
                      alter (λ doc, with_slots doc
                                      (alter (apply_SlotSet set_available) j (ts_slots doc)))
                        k tss
                  | None => tss
                  end
              | None => tss
              end
          | None => tss
          end
      | None => tss
      end
  end.

(** The booking a retry looks up: [Booking.findOne({ _id, user })]. *)
Definition retry_lookup (req : RetryRequest) (bookingId : Id) (b : Booking) : bool :=
  String.eqb (bk_id b) bookingId && String.eqb (bk_user b) (rr_user req).

(** The retry of [req] in [w] gets as far as its lock: it finds the booking
    [b] at position [i], not Paid and not started, and the slot [slot] with
    the booking's times in the document [ts] of the booking's sub-venue and
    day. *)
Definition retry_target (env : Env) (req : RetryRequest) (w : World)
    (i : nat) (b : Booking) (ts : TimeSlotDoc) (slot : SlotEntry) : Prop :=
  (∃ bookingId, nonempty (rr_bookingId req) = Some bookingId
                ∧ findIndex (retry_lookup req bookingId) (bookings w) = Some (i, b))
  ∧ bk_status b ≠ Paid
  ∧ (clock_request env ≤ bk_startTime b)%Z
  ∧ ∃ sv k j, nonempty (bk_subVenueId b) = Some sv
              ∧ findBySubVenueDate sv (isoDate (bk_startTime b)) (timeslots w) = Some (k, ts)
              ∧ findIndex (same_times b) (ts_slots ts) = Some (j, slot).


(** ** The authentication middleware *)

(** The error [jwt.verify] throws: its message, and what [instanceof]
    answers for the three classes the middleware asks about. *)
Record VerifyError := {
  ve_message : string;
  ve_TokenExpiredError : bool;
  ve_JsonWebTokenError : bool;
  ve_NotBeforeError : bool
}.

(** The decoded payload: [decoded.userId] (users) and [decoded.id] (admins). *)
Record JwtPayload := { jp_userId : option string; jp_id : option string }.

(** What the middleware puts in [req.user]. *)
Record Account := { acc_id : Id; acc_username : string; acc_email : string }.

(** What the middleware reads from outside: the process environment, the
    token library and the two account collections.  A lookup answers the
    document, [None] for null, or the message of the error it threw. *)
Record AuthEnv := {
  JWT_SECRET : option string;
  ADMIN_TOKEN : option string;
  ADMIN_USERNAME : option string;
  ADMIN_EMAIL : option string;
  jwt_verify : string → option string → VerifyError + JwtPayload;
  User_findById : option string → string + option Account;
  Admin_findById : option string → string + option Account
}.

(** The outside calls of one run, in the order of issue. *)
Inductive AuthCall :=
| CallVerify (token : string) (secret : option string)
| CallUserFindById (id : option string)
| CallAdminFindById (id : option string).

(** One run of a middleware: the outside calls, the codes passed to
    [res.status] in order, [req.user], and the message of the [Error] thrown;
    [next()] was called exactly when nothing was thrown. *)
Record AuthRun := {
  ar_calls : list AuthCall;
  ar_statuses : list Z;
  ar_user : option Account;
  ar_thrown : option string
}.

(** [s.split(c)] *)
Fixpoint split_on (c : Ascii.ascii) (s : string) : list string :=
  match s with
  | EmptyString => [""]
  | String a r =>
      if Ascii.eqb a c then "" :: split_on c r
      else match split_on c r with
           | x :: l => String a x :: l
           | [] => [String a ""]
           end
  end.

(** White space as [trim] sees it, among the code units below 256 a header
    value is made of: TAB, LF, VT, FF, CR, space and NBSP. *)
Definition is_whitespace (a : Ascii.ascii) : bool :=
  let n := Ascii.nat_of_ascii a in
  Nat.eqb n 9 || Nat.eqb n 10 || Nat.eqb n 11 || Nat.eqb n 12 || Nat.eqb n 13
  || Nat.eqb n 32 || Nat.eqb n 160.

(** [s.trim() === ''] *)
Definition blank (s : string) : bool := forallb is_whitespace (String.list_ascii_of_string s).

(** The checks on the Authorization header, the same in both middlewares:
    the token, or the message of the 401. *)
Definition bearer_token (authorization : option string) : string + string :=
  match nonempty authorization with
  | None => inl "Authorization header missing — token not provided."
  | Some authHeader =>
      if negb (String.prefix "Bearer " authHeader) then
        inl "Invalid Authorization format — expected 'Bearer <token>'."
      else
        match split_on " "%char authHeader !! 1%nat with
        | Some token =>
            if String.eqb token "" || blank token then
              inl "Token is empty — please provide a valid token after 'Bearer'."
            else inr token
        | None => inl "Token is empty — please provide a valid token after 'Bearer'."
        end
  end.

(** The message chosen in the [catch] around [jwt.verify]. *)
Definition verify_failure (e : VerifyError) : string :=
  if ve_TokenExpiredError e then "Token verification failed — token has expired."
  else if ve_JsonWebTokenError e then "Token verification failed — invalid or tampered token."
  else if ve_NotBeforeError e then "Token verification failed — token not yet active."
  else "Unexpected token verification error: " ++ ve_message e.

Definition auth_throw (calls : list AuthCall) (statuses : list Z) (message : string)
  : AuthRun :=
  {| ar_calls := calls; ar_statuses := statuses; ar_user := None; ar_thrown := Some message |}.

Definition auth_next (calls : list AuthCall) (user : Account) : AuthRun :=
  {| ar_calls := calls; ar_statuses := []; ar_user := Some user; ar_thrown := None |}.

Section Middleware.

Context (aenv : AuthEnv).

(** [protect]: the [throw] for a missing user sits inside the [try] around
    the lookup, so the [catch] of that [try] takes it up. *)
Definition protect (authorization : option string) : AuthRun :=
  match bearer_token authorization with
  | inl message => auth_throw [] [401]%Z message
  | inr token =>
      let verify := CallVerify token (JWT_SECRET aenv) in
      match jwt_verify aenv token (JWT_SECRET aenv) with
      | inl error => auth_throw [verify] [401]%Z (verify_failure error)
      | inr decoded =>
          let find := CallUserFindById (jp_userId decoded) in
          match User_findById aenv (jp_userId decoded) with
          | inr (Some user) => auth_next [verify; find] user
          | inr None =>
              auth_throw [verify; find] [401; 500]%Z
                ("Database lookup failed — could not retrieve user: "
                 ++ "Authentication failed — user not found or has been removed.")
          | inl dbError =>
              auth_throw [verify; find] [500]%Z
                ("Database lookup failed — could not retrieve user: " ++ dbError)
          end
      end
  end.

(** The account built from the environment for the built-in admin. *)
Definition env_admin : Account :=
  {| acc_id := "admin-env";
     acc_username := default "Admin" (nonempty (ADMIN_USERNAME aenv));
     acc_email := default "admin@example.com" (nonempty (ADMIN_EMAIL aenv)) |}.

Definition protectAdmin (authorization : option string) : AuthRun :=
  match bearer_token authorization with
  | inl message => auth_throw [] [401]%Z message
  | inr token =>
      if bool_decide (ADMIN_TOKEN aenv = Some token) then auth_next [] env_admin
      else
        let verify := CallVerify token (JWT_SECRET aenv) in
        match jwt_verify aenv token (JWT_SECRET aenv) with
        | inl error => auth_throw [verify] [401]%Z (verify_failure error)
        | inr decoded =>
            if bool_decide (jp_id decoded = Some "admin-env") then auth_next [verify] env_admin
            else
              let find := CallAdminFindById (jp_id decoded) in
              match Admin_findById aenv (jp_id decoded) with
              | inl dbError =>
                  auth_throw [verify; find] [500]%Z
                    ("Database lookup failed — could not retrieve admin: " ++ dbError)
              | inr None =>
                  auth_throw [verify; find] [401]%Z
                    "Authentication failed — admin not found or has been removed."
              | inr (Some admin) => auth_next [verify; find] admin
              end
        end
  end.

End Middleware.

(** ** The routes (routes/bookingRoutes) *)

(** [req.body] of a direct booking. *)
Record DirectBody := {
  body_subVenueId : option string;
  body_timeSlotDocId : option string;
  body_slotId : option string;
  body_sport : option string
}.

(** [router.post("/direct", protect, createDirectBooking)]: the handler runs
    when [protect] called [next()], for the user [protect] put in
    [req.user]. *)
Definition route_direct (aenv : AuthEnv) (env : Env) (authorization : option string)
    (body : DirectBody) : World → AuthRun * option (Res Response) * World :=
  λ w,
    let auth := protect aenv authorization in
    match ar_thrown auth, ar_user auth with
    | None, Some user =>
        let '(r, w') :=
          createDirectBooking env
            {| dr_user := acc_id user; dr_subVenueId := body_subVenueId body;
               dr_timeSlotDocId := body_timeSlotDocId body; dr_slotId := body_slotId body;
               dr_sport := body_sport body |} w in
        (auth, Some r, w')
    | _, _ => (auth, None, w)
    end.

(** [router.post("/retry", protect, retryPayment)] *)
Definition route_retry (aenv : AuthEnv) (env : Env) (authorization : option string)
    (bookingId : option string) : World → AuthRun * option (Res Response) * World :=
  λ w,
    let auth := protect aenv authorization in
    match ar_thrown auth, ar_user auth with
    | None, Some user =>
        let '(r, w') :=
          retryPayment env {| rr_user := acc_id user; rr_bookingId := bookingId |} w in
        (auth, Some r, w')
    | _, _ => (auth, None, w)
    end.

(** ** Further scenarios *)

(** The environment of [ex_env] with the bypass flag and the verification of
    one's choice. *)
Definition ex_env_with (bypass : option string)
    (verification : string → option string → option string → string + Event)
    (processor : nat → SessionParams → Error + CheckoutSession) : Env :=
  {| STRIPE_SECRET_KEY := Some "sk_test";
     STRIPE_WEBHOOK_SECRET := Some "whsec_test";
     BYPASS_STRIPE_PAYMENT := bypass;
     FRONTEND_URL := Some "http://localhost:3000";
     clock_request := 1727900000000;
     clock_session := 1727900000500;
     constructEvent := verification;
     sessions_create := processor;
     Booking_create_fault := λ _, None;
     ObjectId := λ n, "oid" ++ pretty n |}.

(** A verification that delivers a [payment_intent.succeeded] event. *)
Definition ex_constructEvent_intent (body : string) (sig secret : option string)
  : string + Event :=
  if bool_decide (sig = Some "t=1,v1=good") then
    inr (ex_event "payment_intent.succeeded" "pi_1" None)
  else inl "No signatures found matching the expected signature for payload".

(** The metadata [retryPayment] gives its sessions. *)
Definition ex_metadata_retry : gmap string string :=
  {[ "type" := "retry"; "userId" := "user123"; "bookingId" := "booking123" ]}.

(** Metadata that names a game and no slot. *)
Definition ex_metadata_game_only : gmap string string :=
  {[ "type" := "game"; "userId" := "user123"; "bookingId" := "booking123";
     "gameId" := "game123" ]}.

(** A verification that delivers further events for the session cs_0. *)
Definition ex_constructEvent_more (body : string) (sig secret : option string)
  : string + Event :=
  if bool_decide (sig = Some "t=1,v1=good") then
    if String.eqb body "completed game session" then
      inr (ex_event "checkout.session.completed" "cs_0" (Some ex_metadata_game))
    else if String.eqb body "expired retry session" then
      inr (ex_event "checkout.session.expired" "cs_0" (Some ex_metadata_retry))
    else if String.eqb body "expired game session without slot" then
      inr (ex_event "checkout.session.expired" "cs_0" (Some ex_metadata_game_only))
    else inl "Unexpected end of JSON input"
  else inl "No signatures found matching the expected signature for payload".

(** A booking of slot456 by user123 for the game game123. *)
Definition ex_booking_game (st : BookingStatus) (sessionId : string) : Booking :=
  {| bk_id := "booking123"; bk_user := "user123"; bk_venueId := "venue123";
     bk_subVenueId := Some "subVenue123"; bk_sport := Some "Cricket";
     bk_coordinates := [0; 0]%Z;
     bk_startTime := 1728003600000; bk_endTime := 1728007200000;
     bk_timeSlotDocId := Some "tsDoc123"; bk_slotId := Some "slot456";
     bk_amount := 120000; bk_currency := "inr";
     bk_stripeSessionId := sessionId; bk_stripePaymentIntentId := None;
     bk_status := st; bk_gameId := Some "game123" |}.


(** A direct request whose [slotId] is the empty string. *)
Definition ex_direct_no_slot : DirectRequest :=
  {| dr_user := "user123"; dr_subVenueId := Some "subVenue123";
     dr_timeSlotDocId := Some "tsDoc123"; dr_slotId := Some ""; dr_sport := Some "Cricket" |}.

(** Another account asking to retry booking123. *)
Definition ex_retry_foreign : RetryRequest :=
  {| rr_user := "user999"; rr_bookingId := Some "booking123" |}.

Definition ex_account : Account :=
  {| acc_id := "user123"; acc_username := "asha"; acc_email := "asha@example.com" |}.

Definition ex_admin : Account :=
  {| acc_id := "admin1"; acc_username := "root"; acc_email := "root@example.com" |}.

(** The token "good" names user123 and admin1; the token "ghost" names
    accounts that no longer exist; anything else is malformed. *)
Definition ex_jwt_verify (token : string) (secret : option string)
  : VerifyError + JwtPayload :=
  let malformed :=
    {| ve_message := "jwt malformed"; ve_TokenExpiredError := false;
       ve_JsonWebTokenError := true; ve_NotBeforeError := false |} in
  if bool_decide (secret = Some "jwt_secret") then
    if String.eqb token "good" then
      inr {| jp_userId := Some "user123"; jp_id := Some "admin1" |}
    else if String.eqb token "ghost" then
      inr {| jp_userId := Some "user999"; jp_id := Some "admin999" |}
    else inl malformed
  else inl malformed.

(** No ADMIN_TOKEN is configured. *)
Definition ex_auth : AuthEnv :=
  {| JWT_SECRET := Some "jwt_secret";
     ADMIN_TOKEN := None;
     ADMIN_USERNAME := None;
     ADMIN_EMAIL := None;
     jwt_verify := ex_jwt_verify;
     User_findById := λ id, inr (if bool_decide (id = Some "user123") then Some ex_account
                                 else None);
     Admin_findById := λ id, inr (if bool_decide (id = Some "admin1") then Some ex_admin
                                  else None) |}.

(** ** Running a handler symbolically *)

(** Unfolds the monad and the datastore calls, then computes. *)
Ltac run_handler :=
  unfold bind, try_catch, ret, throw, unless,
    Booking_findOne, Booking_save, Game_findById, Game_save,
    TimeSlot_findById, TimeSlot_findOne, TimeSlot_findOneAndUpdate, TimeSlot_save_slot,
    SubVenue_findById, Venue_findById, logged; cbn.

(** * Properties *)

(** ** The array helpers *)

Section FindIndex.

Context {A : Type}.
Implicit Types (p q : A → bool) (l : list A).

Lemma findIndex_Some p l i x :
  findIndex p l = Some (i, x) →
  l !! i = Some x ∧ p x = true ∧ ∀ j y, (j < i)%nat → l !! j = Some y → p y = false.
Proof.
  revert i. induction l as [|a l IH]; intros i; simpl; [done|].
  destruct (p a) eqn:Hpa.
  - intros [= <- <-]. repeat split; auto. intros j y Hj. lia.
  - destruct (findIndex p l) as [[i' x']|] eqn:Hf; simpl; [|done].
    intros [= <- <-]. destruct (IH i' eq_refl) as (Hl & Hp & Hlt).
    repeat split; auto. intros [|j] y Hj; simpl.
    + by intros [= <-].
    + apply Hlt. lia.
Qed.

Lemma findIndex_None p l :
  findIndex p l = None → ∀ x, x ∈ l → p x = false.
Proof.
  induction l as [|a l IH]; simpl; intros Hf x Hx.
  - by apply elem_of_nil in Hx.
  - destruct (p a) eqn:Hpa; [done|].
    destruct (findIndex p l) eqn:Hf'; [done|].
    apply elem_of_cons in Hx as [->|Hx]; auto.
Qed.

Lemma findIndex_existsb p l : existsb p l = bool_decide (is_Some (findIndex p l)).
Proof.
  induction l as [|a l IH]; simpl; [done|].
  destruct (p a); simpl; [done|]. rewrite IH.
  destruct (findIndex p l) as [[??]|]; done.
Qed.

(** The first [p]-element is also the first [q]-element when it satisfies
    [q] and [q] is stronger than [p]. *)
Lemma findIndex_stronger p q l i x :
  findIndex p l = Some (i, x) → q x = true → (∀ y, q y = true → p y = true) →
  findIndex q l = Some (i, x).
Proof.
  intros Hf Hq Hqp. revert i Hf. induction l as [|a l IH]; intros i; simpl; [done|].
  destruct (p a) eqn:Hpa.
  - intros [= <- <-]. by rewrite Hq.
  - destruct (q a) eqn:Hqa; [apply Hqp in Hqa; congruence|].
    destruct (findIndex p l) as [[i' x']|]; simpl; [|done].
    intros [= <- <-]. by rewrite (IH i' eq_refl).
Qed.

(** Replacing the element found by one that still satisfies [p]. *)
Lemma findIndex_insert p l i x x' :
  findIndex p l = Some (i, x) → p x' = true →
  findIndex p (<[i := x']> l) = Some (i, x').
Proof.
  revert i. induction l as [|a l IH]; intros i; simpl; [done|].
  destruct (p a) eqn:Hpa.
  - intros [= <- <-] Hp'. simpl. by rewrite Hp'.
  - destruct (findIndex p l) as [[i' y]|]; simpl; [|done].
    intros [= <- <-] Hp'. simpl. rewrite Hpa. by rewrite (IH i' eq_refl Hp').
Qed.

Lemma findIndex_alter p l i x f :
  findIndex p l = Some (i, x) → p (f x) = true →
  findIndex p (alter f i l) = Some (i, f x).
Proof.
  revert i. induction l as [|a l IH]; intros i; simpl; [done|].
  destruct (p a) eqn:Hpa.
  - intros [= <- <-] Hp'. simpl. by rewrite Hp'.
  - destruct (findIndex p l) as [[i' y]|]; simpl; [|done].
    intros [= <- <-] Hp'. simpl. rewrite Hpa.
    change (list_alter f i' l) with (alter f i' l). by rewrite (IH i' eq_refl Hp').
Qed.

(** Changing one element without changing what [p] says of it. *)
Lemma findIndex_alter_stable p l k f :
  (∀ y, p (f y) = p y) →
  findIndex p (alter f k l) =
  (λ r, (r.1, if Nat.eqb r.1 k then f r.2 else r.2)) <$> findIndex p l.
Proof.
  intros Hpf. revert k. induction l as [|a l IH]; intros k; simpl; [done|].
  destruct k as [|k]; simpl.
  - rewrite Hpf. destruct (p a); simpl; [done|].
    by destruct (findIndex p l) as [[i' y]|].
  - destruct (p a) eqn:Hpa; simpl; [done|].
    change (list_alter f k l) with (alter f k l). rewrite IH.
    by destruct (findIndex p l) as [[i' y]|].
Qed.

Lemma findIndex_insert_stable p l k x x' :
  l !! k = Some x → p x' = p x →
  findIndex p (<[k := x']> l) =
  (λ r, (r.1, if Nat.eqb r.1 k then x' else r.2)) <$> findIndex p l.
Proof.
  revert k. induction l as [|a l IH]; intros k; simpl; [done|].
  destruct k as [|k]; simpl.
  - intros [= ->] ->. destruct (p x); simpl; [done|].
    by destruct (findIndex p l) as [[i' y]|].
  - intros Hl Hp. destruct (p a) eqn:Hpa; simpl; [done|].
    rewrite (IH k Hl Hp). by destruct (findIndex p l) as [[i' y]|].
Qed.

Lemma existsb_filter_nil p l : List.filter p l = [] → existsb p l = false.
Proof.
  induction l as [|a l IH]; simpl; [done|]. destruct (p a); [done|]. exact IH.
Qed.

(** Spoiling the only [p]-element leaves no [p]-element. *)
Lemma existsb_alter_only p f l j x :
  findIndex p l = Some (j, x) → length (List.filter p l) = 1%nat → p (f x) = false →
  existsb p (alter f j l) = false.
Proof.
  revert j. induction l as [|a l IH]; intros j; simpl; [done|].
  destruct (p a) eqn:Hpa; simpl.
  - intros [= <- <-] Hlen Hpf. simpl. rewrite Hpf. simpl.
    apply existsb_filter_nil. by destruct (List.filter p l).
  - destruct (findIndex p l) as [[j' y]|]; simpl; [|done].
    intros [= <- <-] Hlen Hpf. simpl. rewrite Hpa. simpl.
    change (list_alter f j' l) with (alter f j' l). by apply IH.
Qed.

End FindIndex.

(** ** The slot store *)

Section Store.

Implicit Types (d s : Id) (u : SlotSet) (tss : list TimeSlotDoc) (doc : TimeSlotDoc).

Lemma apply_SlotSet_id u e : slot_id (apply_SlotSet u e) = slot_id e.
Proof. done. Qed.

Lemma update_doc_id q u doc : ts_id (update_doc q u doc) = ts_id doc.
Proof. unfold update_doc. by destruct (positional q (ts_slots doc)). Qed.

Lemma read_slot_Some d s tss sl :
  read_slot d s tss = Some sl ↔
  ∃ k doc j, findById d tss = Some (k, doc)
             ∧ findIndex (slot_sat (SlotIdIs s)) (ts_slots doc) = Some (j, sl).
Proof.
  unfold read_slot, slots_id. split.
  - destruct (findById d tss) as [[k doc]|]; simpl; [|done].
    change (λ e, String.eqb (slot_id e) s) with (slot_sat (SlotIdIs s)).
    destruct (findIndex _ (ts_slots doc)) as [[j x]|] eqn:Hj; simpl; [|done].
    intros [= ->]. eauto.
  - intros (k & doc & j & -> & Hj); simpl.
    change (λ e, String.eqb (slot_id e) s) with (slot_sat (SlotIdIs s)).
    by rewrite Hj.
Qed.

(** A query that names a slot of the document [findById] returns selects
    that very document. *)
Lemma findIndex_query d tss k doc (conds : list SlotCond) :
  findById d tss = Some (k, doc) →
  forallb (λ c, array_sat c (ts_slots doc)) conds = true →
  findIndex (query_matches {| q_id := d; q_slots := conds |}) tss = Some (k, doc).
Proof.
  intros Hf Hall. eapply findIndex_stronger; [exact Hf| |].
  - apply findIndex_Some in Hf as (_ & Hid & _).
    unfold query_matches; simpl. by rewrite Hid, Hall.
  - intros y. unfold query_matches; simpl. by intros [? _]%andb_prop.
Qed.

(** The unconditional update [{ _id: d, "slots._id": s }] reaches the entry
    [slots.id(s)] of the document [findById(d)], whatever its state. *)
Lemma release_read_slot d s u tss sl :
  read_slot d s tss = Some sl →
  is_Some (findOneAndUpdate (slot_query d s) u tss).1
  ∧ read_slot d s (findOneAndUpdate (slot_query d s) u tss).2 = Some (apply_SlotSet u sl).
Proof.
  intros (k & doc & j & Hdoc & Hj)%read_slot_Some.
  assert (Hq : findIndex (query_matches (slot_query d s)) tss = Some (k, doc)).
  { apply findIndex_query; [done|]. simpl. rewrite andb_true_r.
    unfold array_sat. rewrite findIndex_existsb, Hj. by apply bool_decide_eq_true_2. }
  unfold findOneAndUpdate. rewrite Hq; simpl. split; [by eexists|].
  apply read_slot_Some.
  exists k, (update_doc (slot_query d s) u doc), j. split.
  - unfold findById in *. eapply findIndex_insert; [exact Hdoc|].
    rewrite update_doc_id. by apply findIndex_Some in Hdoc as (_ & ? & _).
  - unfold update_doc, positional; simpl. rewrite Hj; simpl.
    eapply findIndex_alter; [exact Hj|]. by apply findIndex_Some in Hj as (_ & ? & _).
Qed.

(** The conditional update of the lock matches as soon as the document holds
    the slot and holds an available entry. *)
Lemma lock_matches d s tss k doc :
  findById d tss = Some (k, doc) →
  array_sat (SlotIdIs s) (ts_slots doc) = true →
  array_sat (SlotStatusIs available) (ts_slots doc) = true →
  findIndex (query_matches (lock_query d s)) tss = Some (k, doc).
Proof.
  intros Hf Hs Ha. apply findIndex_query; [done|]. simpl. by rewrite Hs, Ha.
Qed.

(** Where the lock is exclusive: when the document holds one available entry
    only (a single-slot document, or the last free slot of the day), the
    conditional update that matched cannot match a second time. *)
Lemma lock_exclusive_on_last_available d s sport doc :
  query_matches (lock_query d s) doc = true →
  length (List.filter (slot_sat (SlotStatusIs available)) (ts_slots doc)) = 1%nat →
  query_matches (lock_query d s) (update_doc (lock_query d s) (set_booked sport) doc) = false.
Proof.
  unfold query_matches, update_doc, positional; simpl. rewrite !andb_true_r.
  intros [_ [_ Hav]%andb_prop]%andb_prop Hone.
  unfold array_sat in Hav. rewrite findIndex_existsb in Hav.
  apply bool_decide_eq_true_1 in Hav as [[j x] Hj]. rewrite Hj; simpl.
  unfold array_sat.
  rewrite (existsb_alter_only _ _ _ j x Hj Hone) by done.
  by rewrite !andb_false_r.
Qed.

End Store.

(** ** The webhook reconciler *)

Section Webhook.

Context (env : Env).
Implicit Types (w : World) (session : EventObject) (event : Event).

(** What the expiry handler has done when it reaches the release of the
    slot: the booking found is marked Failed and the game the metadata names
    is reopened; the slot store is untouched so far. *)
Lemma on_expired_booking_step session w :
  let found := findIndex (by_session (eo_id session)) (bookings w) in
  ∃ w1, timeslots w1 = timeslots w
        ∧ bookings w1 = match found with
                        | Some (i, _) => alter (bk_set_status Failed) i (bookings w)
                        | None => bookings w
                        end
        ∧ games w1 = match found, metadata_get (eo_metadata session) "gameId" with
                     | Some _, Some g =>
                         match games w !! g with
                         | Some gm => <[g := game_set_status Open gm]> (games w)
                         | None => games w
                         end
                     | _, _ => games w
                     end
        ∧ on_expired session w = release_expired session found w1.
Proof.
  unfold on_expired. run_handler.
  destruct (findIndex (by_session (eo_id session)) (bookings w)) as [[i b]|]; cbn.
  - destruct (metadata_get (eo_metadata session) "gameId") as [g|]; cbn.
    + destruct (games w !! g) as [gm|]; cbn; eexists;
        (split; [|split; [|split; [|reflexivity]]]); done.
    + eexists; (split; [|split; [|split; [|reflexivity]]]); done.
  - eexists; (split; [|split; [|split; [|reflexivity]]]); done.
Qed.

Lemma release_expired_metadata session found d s w :
  metadata_get (eo_metadata session) "timeSlotDocId" = Some d →
  metadata_get (eo_metadata session) "slotId" = Some s →
  release_expired session found w =
  (Ok (),
   let r := findOneAndUpdate (slot_query d s) set_available (timeslots w) in
   logged (OpFindOneAndUpdate (slot_query d s) set_available (bool_decide (is_Some r.1)))
     (with_timeslots w r.2)).
Proof.
  intros Hd Hs. unfold release_expired. rewrite Hd, Hs. run_handler.
  by destruct (findOneAndUpdate _ _ _).
Qed.

Lemma release_expired_ok session found w :
  (release_expired session found w).1 = Ok ().
Proof.
  unfold release_expired.
  destruct (metadata_get (eo_metadata session) "timeSlotDocId") as [d|];
    destruct (metadata_get (eo_metadata session) "slotId") as [s|];
    run_handler;
    try (by destruct (findOneAndUpdate _ _ _));
    (destruct found as [[i b]|]; [|done];
     destruct (nonempty (bk_subVenueId b)) as [sv|]; [|done];
     run_handler;
     destruct (findBySubVenueDate sv _ _) as [[k doc]|]; [|done];
     by destruct (findIndex (same_times b) (ts_slots doc)) as [[j x]|]).
Qed.

(** The release of the slot leaves bookings and games alone. *)
Lemma release_expired_frame session found w :
  bookings (release_expired session found w).2 = bookings w
  ∧ games (release_expired session found w).2 = games w.
Proof.
  unfold release_expired.
  destruct (metadata_get (eo_metadata session) "timeSlotDocId") as [d|];
    destruct (metadata_get (eo_metadata session) "slotId") as [s|];
    run_handler;
    try (by destruct (findOneAndUpdate _ _ _));
    (destruct found as [[i b]|]; [|done];
     destruct (nonempty (bk_subVenueId b)) as [sv|]; [|done];
     run_handler;
     destruct (findBySubVenueDate sv _ _) as [[k doc]|]; [|done];
     by destruct (findIndex (same_times b) (ts_slots doc)) as [[j x]|]).
Qed.


#[local] Arguments on_expired : simpl never.
#[local] Arguments on_completed : simpl never.
#[local] Arguments release_expired : simpl never.

Lemma stripeWebhook_expired req event w :
  constructEvent env (wr_body req) (wr_signature req) (STRIPE_WEBHOOK_SECRET env) = inr event →
  ev_type event = "checkout.session.expired" →
  stripeWebhook env req w =
  (Ok {| res_status := 200; res_body := BodyStatus |}, (on_expired (ev_object event) w).2)
  ∧ (on_expired (ev_object event) w).1 = Ok ().
Proof.
  intros Hev Hty. unfold stripeWebhook, dispatch. rewrite Hev, Hty. cbn.
  destruct (on_expired_booking_step (ev_object event) w) as (w1 & _ & _ & _ & Heq).
  assert (Hok : (on_expired (ev_object event) w).1 = Ok ()).
  { rewrite Heq. apply release_expired_ok. }
  split; [|done]. run_handler.
  destruct (on_expired (ev_object event) w) as [[[]|e] w']; simpl in *; done.
Qed.

Lemma stripeWebhook_unverified req w message :
  constructEvent env (wr_body req) (wr_signature req) (STRIPE_WEBHOOK_SECRET env)
    = inl message →
  stripeWebhook env req w =
    (Ok {| res_status := 400; res_body := BodyText ("Webhook Error: " ++ message) |}, w).
Proof. intros Hsig. unfold stripeWebhook. by rewrite Hsig. Qed.

(** C9. The webhook checks the signature before it trusts anything in the
    payload: when [constructEvent] rejects the request, the handler answers
    400 with the verification message at once and leaves the world exactly
    as it was, so no booking, slot or game is read or written and no
    datastore call is issued.  An event handler runs only in the other case,
    on the event the verification returned. *)
Theorem webhook_signature_gate req w message :
  constructEvent env (wr_body req) (wr_signature req) (STRIPE_WEBHOOK_SECRET env)
    = inl message →
  stripeWebhook env req w =
    (Ok {| res_status := 400; res_body := BodyText ("Webhook Error: " ++ message) |}, w)
  ∧ issued w (stripeWebhook env req w).2 = [].
Proof.
  intros Hsig. rewrite (stripeWebhook_unverified req w message Hsig). split; [done|].
  unfold issued; simpl. by rewrite Nat.sub_diag.
Qed.

(** C10. On a verified [checkout.session.expired] event whose metadata
    carries both [timeSlotDocId] and [slotId], the last datastore call of the
    handler is the update [{ _id, "slots._id" }] setting the slot available
    and clearing [bookedForSport], applied to the slot store as it stood, and
    the slot reads as available afterwards.  Nothing is assumed of the
    bookings (none may match the session, the one that matches may have any
    status) nor of the slot's current state. *)
Theorem expired_metadata_release_unguarded req w event d s :
  constructEvent env (wr_body req) (wr_signature req) (STRIPE_WEBHOOK_SECRET env)
    = inr event →
  ev_type event = "checkout.session.expired" →
  metadata_get (eo_metadata (ev_object event)) "timeSlotDocId" = Some d →
  metadata_get (eo_metadata (ev_object event)) "slotId" = Some s →
  let w' := (stripeWebhook env req w).2 in
  (∃ matched, head (oplog w') = Some (OpFindOneAndUpdate (slot_query d s) set_available matched))
  ∧ timeslots w' = (findOneAndUpdate (slot_query d s) set_available (timeslots w)).2
  ∧ ∀ sl, read_slot d s (timeslots w) = Some sl →
      ∃ sl', read_slot d s (timeslots w') = Some sl'
             ∧ slot_status sl' = available ∧ slot_bookedForSport sl' = None.
Proof.
  intros Hev Hty Hd Hs w'. subst w'.
  destruct (stripeWebhook_expired req event w Hev Hty) as [-> _]; simpl.
  destruct (on_expired_booking_step (ev_object event) w) as (w1 & Hts & _ & _ & ->).
  rewrite (release_expired_metadata _ _ d s w1 Hd Hs); simpl. rewrite Hts.
  split; [by eexists|]. split; [done|].
  intros sl Hsl. exists (apply_SlotSet set_available sl).
  by destruct (release_read_slot d s set_available (timeslots w) sl Hsl) as [_ ->].
Qed.






(** *** A Paid booking under webhook events *)

Lemma on_completed_bookings session w :
  bookings (on_completed session w).2 =
  match findIndex (by_session (eo_id session)) (bookings w) with
  | Some (i, _) =>
      alter (λ b, bk_set_stripePaymentIntentId (eo_payment_intent session)
                    (bk_set_status Paid b)) i (bookings w)
  | None => bookings w
  end.
Proof.
  unfold on_completed. run_handler.
  destruct (findIndex (by_session (eo_id session)) (bookings w)) as [[i b]|]; cbn; [|done].
  destruct (eo_metadata session) as [md|]; cbn; [|done].
  destruct (bool_decide (md !! "type" = Some "game")); cbn; [|done].
  destruct (nonempty (md !! "gameId")) as [g|]; cbn; [|done].
  by destruct (games w !! g).
Qed.

Lemma on_expired_bookings session w :
  bookings (on_expired session w).2 =
  match findIndex (by_session (eo_id session)) (bookings w) with
  | Some (i, _) => alter (bk_set_status Failed) i (bookings w)
  | None => bookings w
  end.
Proof.
  destruct (on_expired_booking_step session w) as (w1 & _ & Hbk & _ & ->).
  by destruct (release_expired_frame session
                 (findIndex (by_session (eo_id session)) (bookings w)) w1) as [-> _].
Qed.

Lemma stripeWebhook_verified req event w :
  constructEvent env (wr_body req) (wr_signature req) (STRIPE_WEBHOOK_SECRET env)
    = inr event →
  (stripeWebhook env req w).2 = (dispatch event w).2.
Proof.
  intros Hev. unfold stripeWebhook. rewrite Hev. run_handler.
  by destruct (dispatch event w) as [[[]|e] w1].
Qed.

Lemma dispatch_keeps_paid event w i b :
  bookings w !! i = Some b → bk_status b = Paid →
  (ev_type event = "checkout.session.expired" →
   eo_id (ev_object event) ≠ bk_stripeSessionId b) →
  ∃ b', bookings (dispatch event w).2 !! i = Some b' ∧ bk_status b' = Paid.
Proof.
  intros Hi Hpaid Hother. unfold dispatch.
  destruct (String.eqb_spec (ev_type event) "checkout.session.completed") as [Hc|_].
  { rewrite on_completed_bookings.
    destruct (findIndex _ (bookings w)) as [[j bj]|]; [|eauto].
    destruct (decide (j = i)) as [->|Hne].
    - rewrite list_lookup_alter_eq, Hi; simpl. eauto.
    - rewrite list_lookup_alter_ne by done. eauto. }
  destruct (String.eqb_spec (ev_type event) "checkout.session.expired") as [He|_].
  { rewrite on_expired_bookings.
    destruct (findIndex _ (bookings w)) as [[j bj]|] eqn:Hf; [|eauto].
    apply findIndex_Some in Hf as (Hj & Hsid & _).
    apply String.eqb_eq in Hsid.
    destruct (decide (j = i)) as [->|Hne].
    - exfalso. apply (Hother He). congruence.
    - rewrite list_lookup_alter_ne by done. eauto. }
  destruct (String.eqb (ev_type event) "payment_intent.payment_failed");
    [eauto|].
  destruct (String.eqb (ev_type event) "payment_intent.succeeded"); eauto.
Qed.

End Webhook.

(** ** Identifiers survive every update of the slot store *)

Section Frames.

Implicit Types (d s : Id) (u : SlotSet) (q : TimeSlotQuery) (tss : list TimeSlotDoc).

Lemma update_doc_slots_id q u doc s :
  slots_id s (ts_slots (update_doc q u doc)) =
  (λ e, match positional q (ts_slots doc) with
        | Some i =>
            if bool_decide (fst <$> findIndex (slot_sat (SlotIdIs s)) (ts_slots doc) = Some i)
            then apply_SlotSet u e else e
        | None => e
        end) <$> slots_id s (ts_slots doc).
Proof.
  unfold update_doc, slots_id.
  change (λ e, String.eqb (slot_id e) s) with (slot_sat (SlotIdIs s)).
  destruct (positional q (ts_slots doc)) as [i|]; simpl.
  - rewrite findIndex_alter_stable by done.
    destruct (findIndex (slot_sat (SlotIdIs s)) (ts_slots doc)) as [[j e]|]; simpl; [|done].
    destruct (Nat.eqb_spec j i) as [->|Hne].
    + by rewrite bool_decide_eq_true_2.
    + rewrite bool_decide_eq_false_2; [done|]. by intros [= ->].
  - by destruct (findIndex _ _) as [[j e]|].
Qed.

(** An update never makes a slot appear or disappear. *)
Lemma findOneAndUpdate_keeps_slot q u d s tss :
  is_Some (read_slot d s tss) → is_Some (read_slot d s (findOneAndUpdate q u tss).2).
Proof.
  unfold findOneAndUpdate.
  destruct (findIndex (query_matches q) tss) as [[k doc]|] eqn:Hq; simpl; [|done].
  apply findIndex_Some in Hq as (Hk & _ & _).
  unfold read_slot, findById.
  rewrite (findIndex_insert_stable _ tss k doc (update_doc q u doc) Hk)
    by (by rewrite update_doc_id).
  destruct (findIndex _ tss) as [[k' doc']|] eqn:Hd; simpl; [|done].
  destruct (Nat.eqb_spec k' k) as [->|_]; [|done].
  apply findIndex_Some in Hd as (Hk' & _ & _).
  assert (doc' = doc) as -> by congruence.
  rewrite update_doc_slots_id. intros [e ->]. by eexists.
Qed.

End Frames.

(** ** Direct booking *)

Section Direct.

Context (env : Env).
Implicit Types (w : World) (v : Validated) (req : DirectRequest).

#[local] Arguments direct_session_params : simpl never.
#[local] Arguments direct_booking : simpl never.

(** The [try] block leaves the slot store alone, and what it throws is the
    fault of the step that failed. *)
Lemma book_locked_frame userId v w :
  timeslots (book_locked env userId v w).2 = timeslots w
  ∧ ∀ e, (book_locked env userId v w).1 = Throw e → direct_fault env e.
Proof.
  unfold book_locked, new_ObjectId, Booking_create, getStripe, checkout_sessions_create.
  run_handler.
  destruct (bool_decide (BYPASS_STRIPE_PAYMENT env = Some "true")); run_handler.
  - destruct (Booking_create_fault env _) as [e|] eqn:Hb; cbn; (split; [done|]).
    + intros ? [= <-]. right; right. eauto.
    + done.
  - destruct (stripe_direct w); cbn;
      [|destruct (truthy (STRIPE_SECRET_KEY env)); cbn;
        [|split; [done|]; intros ? [= <-]; by left]];
      (destruct (sessions_create env _ _) as [e|cs] eqn:Hs; cbn;
       [split; [done|]; intros ? [= <-]; right; left; eauto|]);
      (destruct (Booking_create_fault env _) as [e|] eqn:Hb; cbn;
       (split; [done|]); [intros ? [= <-]; right; right; eauto|done]).
Qed.

#[local] Arguments book_locked : simpl never.

(** C2. In [createDirectBooking], from the atomic lock on ([reserve]): when
    the conditional lock matched on a slot that exists and the [try] block
    after the lock then throws an error [e] (processor key, payment-session
    creation or [Booking.create]), the handler throws that same error [e];
    the last datastore call issued before the error reaches the caller is
    the unconditional update [{ _id, "slots._id" }] of that very slot to
    available with [bookedForSport] cleared, which matches; and the slot then
    reads as available with [bookedForSport] cleared.  That run is the
    outcome of [createDirectBooking] for every request whose validation
    hands over to the lock here. *)
Theorem direct_failure_releases_slot userId v w e :
  let d := v_timeSlotDocId v in
  let s := v_slotId v in
  let lock := findOneAndUpdate (lock_query d s) (set_booked (Some (v_sport v))) (timeslots w) in
  let locked := logged (OpFindOneAndUpdate (lock_query d s) (set_booked (Some (v_sport v))) true)
                  (with_timeslots w lock.2) in
  is_Some (read_slot d s (timeslots w)) →
  is_Some lock.1 →
  (book_locked env userId v locked).1 = Throw e →
  let run := reserve env userId v w in
  run.1 = Throw e
  ∧ direct_fault env e
  ∧ head (oplog run.2) = Some (OpFindOneAndUpdate (slot_query d s) set_available true)
  ∧ (∃ sl, read_slot d s (timeslots run.2) = Some sl
           ∧ slot_status sl = available ∧ slot_bookedForSport sl = None)
  ∧ ∀ req w0, dr_user req = userId → validate env req w0 = (Ok v, w) →
              createDirectBooking env req w0 = run.
Proof.
  intros d s lock locked Hslot Hlock Hthrow run. subst run.
  assert (Hcaller : ∀ req w0, dr_user req = userId → validate env req w0 = (Ok v, w) →
                              createDirectBooking env req w0 = reserve env userId v w).
  { intros req w0 <- Hv. unfold createDirectBooking, bind. by rewrite Hv. }
  revert Hcaller. unfold reserve. run_handler. fold d s.
  pose proof (findOneAndUpdate_keeps_slot (lock_query d s) (set_booked (Some (v_sport v)))
                d s (timeslots w) Hslot) as Hkept.
  subst locked lock.
  destruct (findOneAndUpdate (lock_query d s) _ (timeslots w)) as [[l|] tss1];
    simpl in *; [|by destruct Hlock].
  match goal with |- context [book_locked env userId v ?w1] => set (w1' := w1) end.
  change ((book_locked env userId v w1').1 = Throw e) in Hthrow.
  destruct (book_locked_frame userId v w1') as [Hts Hfault].
  destruct (book_locked env userId v w1') as [[r|e0] w2] eqn:Hbl; simpl in *; [done|].
  injection Hthrow as ->.
  destruct Hkept as [sl0 Hsl0]. rewrite <- Hts in Hsl0.
  destruct (release_read_slot d s set_available (timeslots w2) sl0 Hsl0) as [Hm Hread].
  destruct (findOneAndUpdate (slot_query d s) set_available (timeslots w2))
    as [r3 tss3]; simpl in *.
  intros Hcaller. split; [done|].
  split; [by apply Hfault|]. split; [by rewrite bool_decide_eq_true_2|].
  split; [by exists (apply_SlotSet set_available sl0)|]. exact Hcaller.
Qed.

(** *** The successful run *)

Lemma read_slot_inv d s tss slot :
  read_slot d s tss = Some slot →
  ∃ k doc, findById d tss = Some (k, doc) ∧ slots_id s (ts_slots doc) = Some slot.
Proof.
  unfold read_slot. destruct (findById d tss) as [[k doc]|]; simpl; [|done]. eauto.
Qed.

Lemma validate_ok req w subVenueId d s sport slot subVenue venue :
  nonempty (dr_subVenueId req) = Some subVenueId →
  nonempty (dr_timeSlotDocId req) = Some d →
  nonempty (dr_slotId req) = Some s →
  nonempty (dr_sport req) = Some sport →
  read_slot d s (timeslots w) = Some slot →
  slot_status slot = available →
  (clock_request env ≤ slot_startTime slot)%Z →
  no_price (price_of (slot_prices slot) sport) = false →
  subvenues w !! subVenueId = Some subVenue →
  venues w !! sv_venue subVenue = Some venue →
  validate env req w =
  (Ok {| v_subVenueId := subVenueId; v_timeSlotDocId := d; v_slotId := s; v_sport := sport;
         v_slot := slot; v_priceInPaise := times_100 (price_of (slot_prices slot) sport);
         v_venue := venue |},
   logged (OpRead Venues) (logged (OpRead SubVenues) (logged (OpRead TimeSlots) w))).
Proof.
  intros H1 H2 H3 H4 (k & doc & Hdoc & Hslot)%read_slot_inv Hav Hfuture Hp Hsv Hv.
  unfold validate. rewrite H1, H2, H3, H4. run_handler. rewrite Hdoc, Hslot, Hav; cbn.
  rewrite bool_decide_eq_true_2 by done; cbn.
  destruct (Z.ltb_spec (slot_startTime slot) (clock_request env)) as [?|_]; [lia|].
  rewrite Hp.
  unfold with_oplog; simpl. rewrite Hsv; simpl. by rewrite Hv.
Qed.

(** A request refused for its price: one read, nothing written. *)
Lemma validate_no_price req w subVenueId d s sport slot :
  nonempty (dr_subVenueId req) = Some subVenueId →
  nonempty (dr_timeSlotDocId req) = Some d →
  nonempty (dr_slotId req) = Some s →
  nonempty (dr_sport req) = Some sport →
  read_slot d s (timeslots w) = Some slot →
  slot_status slot = available →
  (clock_request env ≤ slot_startTime slot)%Z →
  no_price (price_of (slot_prices slot) sport) = true →
  createDirectBooking env req w =
  (Throw (AppError "Sport price not available for this slot" 400),
   logged (OpRead TimeSlots) w).
Proof.
  intros H1 H2 H3 H4 (k & doc & Hdoc & Hslot)%read_slot_inv Hav Hfuture Hp.
  unfold createDirectBooking, bind, validate. rewrite H1, H2, H3, H4. run_handler.
  rewrite Hdoc, Hslot, Hav; cbn.
  rewrite bool_decide_eq_true_2 by done; cbn.
  destruct (Z.ltb_spec (slot_startTime slot) (clock_request env)) as [?|_]; [lia|].
  by rewrite Hp.
Qed.

(** A price held by the map, or an own property of the plain object. *)
Lemma price_of_own prices sport p :
  match prices with
  | PricesMap entries => entries !! sport
  | PricesObject props => props !! sport
  end = Some p →
  price_of prices sport = Some (PriceNumber p).
Proof. destruct prices; simpl; by intros ->. Qed.

Lemma book_locked_ok userId v w :
  BYPASS_STRIPE_PAYMENT env ≠ Some "true" → processor_up env → persistence_up env →
  ∃ session,
    let booking := direct_booking userId (ObjectId env (oids w)) v (cs_id session) None Pending in
    (book_locked env userId v w).1 =
      Ok {| res_status := 201; res_body := BodyCheckout (cs_url session) (bk_id booking) |}
    ∧ bookings (book_locked env userId v w).2 = (bookings w ++ [booking])%list.
Proof.
  intros Hby [Hkey Hup] Hdb.
  unfold book_locked, new_ObjectId, Booking_create, getStripe, checkout_sessions_create.
  run_handler. rewrite bool_decide_eq_false_2 by done. run_handler. rewrite Hkey.
  destruct (Hup (length (sessions w))
              (direct_session_params env userId (ObjectId env (oids w)) v)) as [cs Hcs].
  exists cs. destruct (stripe_direct w); cbn; rewrite Hcs; cbn; rewrite Hdb; cbn; done.
Qed.

(** A price that is missing, 0 or NaN is no price. *)
Lemma no_price_falsy prices sport :
  match match prices with
        | PricesMap entries => entries !! sport
        | PricesObject props => props !! sport
        end, prices with
  | Some p, _ => PrimFloat.eqb p 0 = true ∨ PrimFloat.is_nan p = true
  | None, PricesMap _ => True
  | None, PricesObject _ => sport ∉ Object_prototype
  end →
  no_price (price_of prices sport) = true.
Proof.
  intros Hno. unfold price_of. destruct prices as [entries|props]; simpl.
  - destruct (entries !! sport) as [p|]; simpl; [|done].
    destruct Hno as [->| ->]; [done|apply orb_true_r].
  - destruct (props !! sport) as [p|]; simpl.
    + destruct Hno as [->| ->]; [done|apply orb_true_r].
    + by rewrite bool_decide_eq_false_2.
Qed.

(** C8, as the code has it.  The price of the sport is read with the map
    accessor when the prices are a [Map] and as a property otherwise.  For an
    available slot that has not started:
    - when the price is missing (no entry of the map; no own property of the
      plain object and no member of [Object.prototype] of that name), or is
      0 or NaN, [createDirectBooking] is refused with 400 "Sport price not
      available for this slot" after the single read of the time-slot
      document, and nothing is written;
    - when the map or the object itself holds a price [p] that is neither 0
      nor NaN, with the sub-venue and its venue on record, outside bypass
      mode and with the processor and [Booking.create] succeeding,
      [createDirectBooking] answers 201 with the checkout URL and appends one
      booking with amount [p * 100] (the product of the two doubles) and
      status Pending for that user, sport and slot; and the slot reads as
      booked for the sport when it is the first available entry of its
      document. *)
Theorem direct_booking_price_and_lock req w subVenueId d s sport slot :
  nonempty (dr_subVenueId req) = Some subVenueId →
  nonempty (dr_timeSlotDocId req) = Some d →
  nonempty (dr_slotId req) = Some s →
  nonempty (dr_sport req) = Some sport →
  read_slot d s (timeslots w) = Some slot →
  slot_status slot = available →
  (clock_request env ≤ slot_startTime slot)%Z →
  let own := match slot_prices slot with
             | PricesMap entries => entries !! sport
             | PricesObject props => props !! sport
             end in
  let w' := (createDirectBooking env req w).2 in
  (match own, slot_prices slot with
   | Some p, _ => PrimFloat.eqb p 0 = true ∨ PrimFloat.is_nan p = true
   | None, PricesMap _ => True
   | None, PricesObject _ => sport ∉ Object_prototype
   end →
   createDirectBooking env req w =
   (Throw (AppError "Sport price not available for this slot" 400),
    logged (OpRead TimeSlots) w))
  ∧ ∀ p subVenue venue,
      own = Some p →
      PrimFloat.eqb p 0 = false → PrimFloat.is_nan p = false →
      subvenues w !! subVenueId = Some subVenue →
      venues w !! sv_venue subVenue = Some venue →
      BYPASS_STRIPE_PAYMENT env ≠ Some "true" →
      processor_up env → persistence_up env →
      ∃ session booking,
        (createDirectBooking env req w).1 =
          Ok {| res_status := 201;
                res_body := BodyCheckout (cs_url session) (bk_id booking) |}
        ∧ bookings w' = (bookings w ++ [booking])%list
        ∧ bk_amount booking = PrimFloat.mul p 100 ∧ bk_status booking = Pending
        ∧ bk_user booking = dr_user req ∧ bk_sport booking = Some sport
        ∧ bk_timeSlotDocId booking = Some d ∧ bk_slotId booking = Some s
        ∧ (first_available d s (timeslots w) = true →
           ∃ slot', read_slot d s (timeslots w') = Some slot'
                    ∧ slot_status slot' = booked
                    ∧ slot_bookedForSport slot' = Some sport).
Proof.
  intros Hsv Hd Hs Hsport Hread Hav Hfuture own w'. subst own w'. split.
  { intros Hno. apply (validate_no_price req w subVenueId d s sport slot); try done.
    by apply no_price_falsy. }
  intros p subVenue venue Hp Hp0 Hpnan Hsub Hven Hby Hproc Hdb.
  apply price_of_own in Hp.
  unfold createDirectBooking, bind.
  rewrite (validate_ok req w subVenueId d s sport slot subVenue venue)
    by (try done; by rewrite Hp; simpl; rewrite Hp0, Hpnan).
  rewrite Hp. simpl times_100.
  set (v := {| v_subVenueId := subVenueId |}).
  set (w1 := logged (OpRead Venues) _).
  destruct (read_slot_inv _ _ _ _ Hread) as (k & doc & Hdoc & Hslot).
  assert (Hj : ∃ j, findIndex (slot_sat (SlotIdIs s)) (ts_slots doc) = Some (j, slot)).
  { unfold slots_id in Hslot.
    change (λ e, String.eqb (slot_id e) s) with (slot_sat (SlotIdIs s)) in Hslot.
    destruct (findIndex _ (ts_slots doc)) as [[j x]|]; simpl in Hslot; [|done].
    injection Hslot as ->. eauto. }
  destruct Hj as [j Hj].
  assert (Hq : findIndex (query_matches (lock_query d s)) (timeslots w) = Some (k, doc)).
  { apply lock_matches; [done|..]; unfold array_sat.
    - rewrite findIndex_existsb, Hj. by apply bool_decide_eq_true_2.
    - apply existsb_exists. exists slot. apply findIndex_Some in Hj as (Hin & _ & _).
      split; [by apply list_elem_of_In, list_elem_of_lookup; eauto|].
      simpl. by apply bool_decide_eq_true_2. }
  unfold reserve. run_handler. unfold findOneAndUpdate. rewrite Hq. cbn.
  match goal with |- context [book_locked env (dr_user req) v ?w0] => set (w2 := w0) end.
  destruct (book_locked_frame (dr_user req) v w2) as [Hts _].
  destruct (book_locked_ok (dr_user req) v w2 Hby Hproc Hdb) as (cs & Hres & Hbk).
  destruct (book_locked env (dr_user req) v w2) as [r w3]; simpl in *. subst r. simpl.
  exists cs, (direct_booking (dr_user req) (ObjectId env (oids w)) v (cs_id cs) None Pending).
  split; [done|]. split; [exact Hbk|].
  repeat (split; [done|]).
  intros Hfirst. rewrite Hts. unfold w2; simpl.
  unfold first_available in Hfirst. rewrite Hdoc, Hj in Hfirst.
  destruct (findIndex (slot_sat (SlotStatusIs available)) (ts_slots doc))
    as [[j' x]|] eqn:Hj'; [|done].
  apply Nat.eqb_eq in Hfirst as <-.
  exists (apply_SlotSet (set_booked (Some sport)) slot). split; [|done].
  unfold read_slot, findById.
  erewrite findIndex_insert; [|exact Hdoc|].
  - simpl. rewrite update_doc_slots_id, Hslot; simpl.
    unfold positional; simpl. rewrite Hj', Hj; simpl.
    by rewrite bool_decide_eq_true_2.
  - rewrite update_doc_id. by apply findIndex_Some in Hdoc as (_ & ? & _).
Qed.

End Direct.

(** ** Retry *)

Section Retry.

Context (env : Env).
Implicit Types (w : World) (req : RetryRequest).

Lemma retry_rejects_paid req w bookingId i b :
  nonempty (rr_bookingId req) = Some bookingId →
  findIndex (λ x, String.eqb (bk_id x) bookingId && String.eqb (bk_user x) (rr_user req))
    (bookings w) = Some (i, b) →
  bk_status b = Paid →
  retryPayment env req w =
  (Throw (AppError "Booking is already paid" 400), logged (OpRead Bookings) w).
Proof.
  intros Hid Hfound Hpaid. unfold retryPayment. rewrite Hid. run_handler.
  rewrite Hfound, Hpaid. by rewrite bool_decide_eq_true_2.
Qed.

End Retry.

(** ** The terminal state *)

(** C4, as the code has it.  For a booking whose status is Paid:
    - a retry that finds it is rejected with 400 "Booking is already paid";
      the only datastore call issued is the read of the booking, and no
      store is changed;
    - a webhook request leaves its status Paid, whether or not the signature
      verifies, unless the verified event is a [checkout.session.expired]
      carrying the booking's own session id.
    The expiry handler does not look at the status of the booking it finds:
    see [paid_booking_expired]. *)
Theorem paid_is_terminal_but_for_own_expiry env w i b :
  bookings w !! i = Some b →
  bk_status b = Paid →
  (∀ req bookingId,
     nonempty (rr_bookingId req) = Some bookingId →
     findIndex (λ x, String.eqb (bk_id x) bookingId && String.eqb (bk_user x) (rr_user req))
       (bookings w) = Some (i, b) →
     retryPayment env req w =
       (Throw (AppError "Booking is already paid" 400), logged (OpRead Bookings) w))
  ∧ (∀ wreq,
       (∀ event,
          constructEvent env (wr_body wreq) (wr_signature wreq) (STRIPE_WEBHOOK_SECRET env)
            = inr event →
          ev_type event = "checkout.session.expired" →
          eo_id (ev_object event) ≠ bk_stripeSessionId b) →
       ∃ b', bookings (stripeWebhook env wreq w).2 !! i = Some b' ∧ bk_status b' = Paid).
Proof.
  intros Hi Hpaid. split.
  - intros req bookingId Hid Hfound. by eapply retry_rejects_paid.
  - intros wreq Hother.
    destruct (constructEvent env (wr_body wreq) (wr_signature wreq)
                (STRIPE_WEBHOOK_SECRET env)) as [message|event] eqn:Hev.
    + rewrite (stripeWebhook_unverified env wreq w message Hev). eauto.
    + rewrite (stripeWebhook_verified env wreq event w Hev).
      eapply dispatch_keeps_paid; eauto.
Qed.

(** ** What each flow asks of the processor *)

Section Sessions.

Context (env : Env).
Implicit Types (w : World) (v : Validated).

Lemma issued_app w w' ops : oplog w' = (ops ++ oplog w)%list → issued w w' = ops.
Proof.
  intros H. unfold issued. rewrite H, length_app, Nat.add_sub. apply take_app_length.
Qed.

(** A session of the direct flow expires 30 minutes after it is requested
    and names the document and the slot. *)
Lemma direct_session_expiry userId bookingId v :
  sp_expires_at (direct_session_params env userId bookingId v)
  = Some (clock_session env / 1000 + 30 * 60)%Z.
Proof. reflexivity. Qed.

Lemma direct_session_carries_slot userId bookingId v :
  let md := sp_metadata (direct_session_params env userId bookingId v) in
  md !! "type" = Some "direct" ∧ md !! "userId" = Some userId
  ∧ md !! "bookingId" = Some bookingId
  ∧ md !! "timeSlotDocId" = Some (v_timeSlotDocId v) ∧ md !! "slotId" = Some (v_slotId v).
Proof. repeat split; reflexivity. Qed.

(** A session of the retry flow has no expiry of its own and names neither
    the document nor the slot. *)
Lemma retry_session_shape userId booking :
  let p := retry_session_params env userId booking in
  sp_expires_at p = None
  ∧ sp_metadata p !! "timeSlotDocId" = None ∧ sp_metadata p !! "slotId" = None.
Proof. repeat split; reflexivity. Qed.

#[local] Arguments direct_session_params : simpl never.
#[local] Arguments direct_booking : simpl never.
#[local] Arguments retry_session_params : simpl never.
#[local] Arguments issued : simpl never.

Lemma validate_sessions req w :
  sessions (validate env req w).2 = sessions w.
Proof.
  unfold validate.
  destruct (nonempty (dr_subVenueId req)) as [subVenueId|]; [|done].
  destruct (nonempty (dr_timeSlotDocId req)) as [d|]; [|done].
  destruct (nonempty (dr_slotId req)) as [s|]; [|done].
  destruct (nonempty (dr_sport req)) as [sport|]; [|done].
  run_handler.
  destruct (findById d (timeslots w)) as [[k doc]|]; [|done].
  destruct (slots_id s (ts_slots doc)) as [slot|]; [|done].
  destruct (negb _); [done|]. destruct (_ <? _)%Z; [done|].
  destruct (no_price _); [done|]. unfold with_oplog; simpl.
  destruct (subvenues w !! _) as [sv|]; [|done]. simpl.
  by destruct (venues w !! _).
Qed.

Lemma book_locked_sessions userId v w :
  sessions (book_locked env userId v w).2 = sessions w
  ∨ sessions (book_locked env userId v w).2
    = direct_session_params env userId (ObjectId env (oids w)) v :: sessions w.
Proof.
  unfold book_locked, new_ObjectId, Booking_create, getStripe, checkout_sessions_create.
  run_handler.
  destruct (bool_decide (BYPASS_STRIPE_PAYMENT env = Some "true")); run_handler.
  - destruct (Booking_create_fault env _); cbn; by left.
  - destruct (stripe_direct w); cbn;
      [|destruct (truthy (STRIPE_SECRET_KEY env)); cbn; [|by left]];
      (destruct (sessions_create env _ _) as [e|cs]; cbn; [by left|]);
      destruct (Booking_create_fault env _); cbn; by right.
Qed.

#[local] Arguments book_locked : simpl never.

(** Every session [createDirectBooking] creates is one of the direct flow. *)
Lemma direct_sessions req w :
  let w' := (createDirectBooking env req w).2 in
  sessions w' = sessions w
  ∨ ∃ bookingId v, sessions w' = direct_session_params env (dr_user req) bookingId v :: sessions w.
Proof.
  unfold createDirectBooking, bind.
  pose proof (validate_sessions req w) as Hv.
  destruct (validate env req w) as [[v|e] w1]; simpl in *; [|by left].
  unfold reserve. run_handler.
  destruct (findOneAndUpdate (lock_query _ _) _ (timeslots w1)) as [[locked|] tss1];
    cbn; [|by left].
  match goal with |- context [book_locked env (dr_user req) v ?w0] => set (w2 := w0) end.
  assert (Hw2 : sessions w2 = sessions w) by (by rewrite <- Hv).
  destruct (book_locked_sessions (dr_user req) v w2) as [Hs|Hs];
    destruct (book_locked env (dr_user req) v w2) as [[r|e] w3]; simpl in *;
    try destruct (findOneAndUpdate (slot_query _ _) _ (timeslots w3)); simpl;
    rewrite Hs, Hw2; eauto.
Qed.

(** *** The lock of a retry and its error path *)

Lemma retry_lock_spec booking ts slot w :
  let run := retry_lock booking ts slot w in
  let locked := findOneAndUpdate (lock_query (ts_id ts) (slot_id slot))
                  (set_booked (bk_sport booking)) (timeslots w) in
  sessions run.2 = sessions w
  ∧ (run.1 = Ok true → is_Some locked.1).
Proof.
  unfold retry_lock. destruct (bk_status booking); run_handler.
  - destruct (findOneAndUpdate _ _ (timeslots w)) as [[l|] tss]; cbn; [by eauto|].
    destruct (findIndex _ tss) as [[k cur]|]; cbn; [|done].
    destruct (slots_id (slot_id slot) (ts_slots cur)) as [cs|]; cbn; [|done].
    by destruct (bool_decide (slot_status cs = booked)).
  - done.
  - by destruct (findOneAndUpdate _ _ (timeslots w)) as [[l|] tss]; cbn; eauto.
Qed.

(** Without [didLock] the error path never touches the slot store: no
    [findOneAndUpdate] is issued, and the slots stay as they are. *)
Lemma retry_pay_unlocked userId i booking ts slot w :
  let w' := (retry_pay env userId i booking ts slot false w).2 in
  timeslots w' = timeslots w ∧ updates (issued w w') = [].
Proof.
  unfold retry_pay, getStripe, checkout_sessions_create. run_handler.
  destruct (stripe_retry w); cbn;
    [|destruct (truthy (STRIPE_SECRET_KEY env)); cbn;
      [|by rewrite (issued_app w _ []) by reflexivity]];
    (destruct (sessions_create env _ _) as [e|cs]; cbn;
     [by rewrite (issued_app w _ []) by reflexivity|]);
    (destruct (nonempty (bk_gameId booking)) as [g|]; cbn;
     [destruct (games w !! g) as [gm|]; cbn|]);
    (split; [done|]).
  all: try (by rewrite (issued_app w _ [OpWrite Games; OpRead Games; OpWrite Bookings])).
  all: try (by rewrite (issued_app w _ [OpRead Games; OpWrite Bookings])).
  all: by rewrite (issued_app w _ [OpWrite Bookings]).
Qed.

Lemma retry_pay_sessions userId i booking ts slot didLock w :
  let w' := (retry_pay env userId i booking ts slot didLock w).2 in
  sessions w' = sessions w
  ∨ sessions w' = retry_session_params env userId booking :: sessions w.
Proof.
  unfold retry_pay, getStripe, checkout_sessions_create. run_handler.
  destruct (stripe_retry w); cbn;
    [|destruct (truthy (STRIPE_SECRET_KEY env)); cbn;
      [|destruct didLock; cbn; [destruct (findOneAndUpdate _ _ _)|]; by left]];
    (destruct (sessions_create env _ _) as [e|cs]; cbn;
     [destruct didLock; cbn; [destruct (findOneAndUpdate _ _ _)|]; by left|]);
    (destruct (nonempty (bk_gameId booking)) as [g|]; cbn;
     [destruct (games w !! g) as [gm|]; cbn|]);
    by right.
Qed.

#[local] Arguments retry_pay : simpl never.
#[local] Arguments retry_lock : simpl never.

(** Every session [retryPayment] creates is one of the retry flow. *)
Lemma retry_sessions req w :
  let w' := (retryPayment env req w).2 in
  sessions w' = sessions w
  ∨ ∃ booking, sessions w' = retry_session_params env (rr_user req) booking :: sessions w.
Proof.
  unfold retryPayment.
  destruct (nonempty (rr_bookingId req)) as [bookingId|]; [|by left].
  run_handler.
  destruct (findIndex _ (bookings w)) as [[i booking]|]; [|by left].
  destruct (bool_decide (bk_status booking = Paid)); [by left|].
  destruct (_ <? _)%Z; [by left|].
  destruct (_ || _); [|by left].
  destruct (nonempty (bk_subVenueId booking)) as [sv|]; [|by left].
  run_handler.
  destruct (findIndex _ (timeslots w)) as [[k ts]|]; [|by left].
  destruct (findIndex (same_times booking) (ts_slots ts)) as [[j slot]|]; [|by left].
  run_handler.
  match goal with |- context [retry_lock booking ts slot ?w0] => set (w1 := w0) end.
  destruct (retry_lock_spec booking ts slot w1) as [Hs _].
  destruct (retry_lock booking ts slot w1) as [[didLock|e] w2]; simpl in *; [|by left].
  destruct (retry_pay_sessions (rr_user req) i booking ts slot didLock w2) as [H|H];
    rewrite H, Hs; eauto.
Qed.

(** A lock that matches no document ends the request: 400, no session, no
    booking, the slots as they were. *)
Lemma reserve_lock_lost userId v w :
  (findOneAndUpdate (lock_query (v_timeSlotDocId v) (v_slotId v))
     (set_booked (Some (v_sport v))) (timeslots w)).1 = None →
  let run := reserve env userId v w in
  run.1 = Throw (AppError "Slot is no longer available" 400)
  ∧ bookings run.2 = bookings w ∧ sessions run.2 = sessions w
  ∧ timeslots run.2 = timeslots w.
Proof.
  intros Hnone. unfold reserve. run_handler.
  destruct (findOneAndUpdate (lock_query _ _) _ (timeslots w)) as [r tss] eqn:Hlock.
  simpl in Hnone. subst r. cbn.
  unfold findOneAndUpdate in Hlock.
  destruct (findIndex _ (timeslots w)) as [[k doc]|]; [done|]. by injection Hlock as <-.
Qed.

End Sessions.

(** ** The properties at work *)

Lemma webhook_signature_gate_witness :
  let req := ex_webhook "expired with metadata" (Some "t=1,v1=forged") in
  let w := ex_world (ex_doc booked available (Some "Cricket") None) [ex_booking Pending "cs_0"] in
  stripeWebhook (ex_env processor_ok) req w =
    (Ok {| res_status := 400;
           res_body := BodyText ("Webhook Error: "
                         ++ "No signatures found matching the expected signature for payload") |},
     w)
  ∧ issued w (stripeWebhook (ex_env processor_ok) req w).2 = [].
Proof.
  intros req w.
  apply (webhook_signature_gate (ex_env processor_ok) req w
           "No signatures found matching the expected signature for payload").
  vm_compute. reflexivity.
Defined.

(** The slot is released although no booking carries the session id. *)
Lemma expired_metadata_release_unguarded_witness :
  let req := ex_webhook "expired with metadata" ex_good_signature in
  let w := ex_world (ex_doc booked available (Some "Cricket") None) [] in
  ∃ sl', read_slot "tsDoc123" "slot123"
           (timeslots (stripeWebhook (ex_env processor_ok) req w).2) = Some sl'
         ∧ slot_status sl' = available ∧ slot_bookedForSport sl' = None.
Proof.
  intros req w.
  destruct (expired_metadata_release_unguarded (ex_env processor_ok) req w
              (ex_event "checkout.session.expired" "cs_0" (Some ex_metadata))
              "tsDoc123" "slot123")
    as (_ & _ & Hslot); [vm_compute; reflexivity..|].
  apply (Hslot (ex_slot "slot123" 1728000000000 1728003600000 booked (Some "Cricket")
                  ex_prices)).
  vm_compute. reflexivity.
Defined.



(** The processor rejects the session: the request fails with the
    processor's error, after the release of slot123. *)
Lemma direct_failure_releases_slot_witness :
  let env := ex_env processor_down in
  let req := ex_direct "user123" "slot123" "Cricket" in
  let w := ex_world (ex_doc available available None None) [] in
  let run := createDirectBooking env req w in
  run.1 = Throw (OtherError "Stripe Fail")
  ∧ direct_fault env (OtherError "Stripe Fail")
  ∧ head (oplog run.2)
    = Some (OpFindOneAndUpdate (slot_query "tsDoc123" "slot123") set_available true)
  ∧ ∃ sl, read_slot "tsDoc123" "slot123" (timeslots run.2) = Some sl
          ∧ slot_status sl = available ∧ slot_bookedForSport sl = None.
Proof.
  intros env req w run.
  destruct (direct_failure_releases_slot env "user123" ex_validated
              (validate env req w).2 (OtherError "Stripe Fail"))
    as (Hthrow & Hfault & Hrelease & Hslot & Hcaller).
  - vm_compute. by eexists.
  - vm_compute. by eexists.
  - vm_compute. reflexivity.
  - subst run. rewrite (Hcaller req w); [|reflexivity|vm_compute; reflexivity].
    split; [exact Hthrow|]. split; [exact Hfault|]. split; [exact Hrelease|exact Hslot].
Defined.

Lemma paid_is_terminal_but_for_own_expiry_witness :
  let env := ex_env processor_ok in
  let w := ex_world (ex_doc booked available (Some "Cricket") None) [ex_booking Paid "cs_0"] in
  retryPayment env ex_retry w =
    (Throw (AppError "Booking is already paid" 400), logged (OpRead Bookings) w)
  ∧ ∃ b', bookings (stripeWebhook env (ex_webhook "completed" ex_good_signature) w).2 !! 0%nat
            = Some b'
          ∧ bk_status b' = Paid.
Proof.
  intros env w.
  destruct (paid_is_terminal_but_for_own_expiry env w 0 (ex_booking Paid "cs_0"))
    as [Hretry Hhook]; [reflexivity..|].
  split.
  - apply (Hretry ex_retry "booking123"); vm_compute; reflexivity.
  - apply Hhook. intros event Hevent Htype. exfalso. revert Hevent Htype.
    vm_compute. intros [= <-]. discriminate.
Defined.

(** C4, counterexample.  A Paid booking whose own session is reported expired
    is set to Failed: the expiry handler assigns the status of whatever
    booking it finds. *)
Lemma paid_booking_expired :
  let env := ex_env processor_ok in
  let w := ex_world (ex_doc booked available (Some "Cricket") None) [ex_booking Paid "cs_0"] in
  let w' := (stripeWebhook env (ex_webhook "expired with metadata" ex_good_signature) w).2 in
  bk_status <$> bookings w !! 0%nat = Some Paid
  ∧ bk_status <$> bookings w' !! 0%nat = Some Failed.
Proof. vm_compute. split; reflexivity. Qed.

Lemma direct_booking_price_and_lock_witness :
  let env := ex_env processor_ok in
  let req := ex_direct "user123" "slot123" "Cricket" in
  let w := ex_world (ex_doc available available None None) [] in
  let w' := (createDirectBooking env req w).2 in
  ∃ session booking,
    (createDirectBooking env req w).1 =
      Ok {| res_status := 201; res_body := BodyCheckout (cs_url session) (bk_id booking) |}
    ∧ bookings w' = ([] ++ [booking])%list
    ∧ bk_amount booking = 100000%float ∧ bk_status booking = Pending
    ∧ bk_user booking = "user123" ∧ bk_sport booking = Some "Cricket"
    ∧ bk_timeSlotDocId booking = Some "tsDoc123" ∧ bk_slotId booking = Some "slot123"
    ∧ (first_available "tsDoc123" "slot123" (timeslots w) = true →
       ∃ slot', read_slot "tsDoc123" "slot123" (timeslots w') = Some slot'
                ∧ slot_status slot' = booked ∧ slot_bookedForSport slot' = Some "Cricket").
Proof.
  intros env req w.
  destruct (direct_booking_price_and_lock env req w "subVenue123" "tsDoc123" "slot123"
              "Cricket"
              (ex_slot "slot123" 1728000000000 1728003600000 available None ex_prices))
    as [_ Hbooked]; try (vm_compute; reflexivity); try (vm_compute; discriminate).
  apply (Hbooked 1000%float {| sv_venue := "venue123" |}
           {| venue_id := "venue123"; venue_coordinates := [0; 0]%Z |});
    try (vm_compute; reflexivity); try (vm_compute; discriminate);
    try (intros b; reflexivity).
  split; [reflexivity|]. intros n p. eexists. reflexivity.
Defined.

(** C8, counterexample.  A slot that is available, has not started and
    carries the price 0 for the sport is refused; no booking is created and
    the slot stays available. *)
Lemma zero_price_rejected :
  let env := ex_env processor_ok in
  let req := ex_direct "user123" "slot123" "Chess" in
  let w := ex_world (ex_doc available available None None) [] in
  (price_of ex_prices "Chess" = Some (PriceNumber 0)
   ∧ slot_status <$> read_slot "tsDoc123" "slot123" (timeslots w) = Some available)
  ∧ (createDirectBooking env req w).1
    = Throw (AppError "Sport price not available for this slot" 400)
  ∧ bookings (createDirectBooking env req w).2 = []
  ∧ slot_status <$> read_slot "tsDoc123" "slot123"
                      (timeslots (createDirectBooking env req w).2) = Some available.
Proof. vm_compute. repeat split; reflexivity. Qed.

(** The same booking on a slot whose prices are a [Map]. *)
Example direct_booking_map_prices :
  let env := ex_env processor_ok in
  let w := ex_world (ex_doc booked available (Some "Tennis") None) [] in
  let w' := (createDirectBooking env (ex_direct "user123" "slot456" "Cricket") w).2 in
  bk_amount <$> bookings w' = [120000%float]
  ∧ slot_status <$> read_slot "tsDoc123" "slot456" (timeslots w') = Some booked.
Proof. vm_compute. split; reflexivity. Qed.

(** The product is the one of the doubles: for the price 2^53 - 1 the amount
    is not the integer product. *)
Example direct_booking_amount_is_a_double :
  times_100 (Some (PriceNumber 9007199254740991)) = 900719925474099072%float.
Proof. reflexivity. Qed.

(** On a plain object the lookup of the price goes on to [Object.prototype]:
    for the sport "toString" the request is not refused; the slot is locked
    and the amount asked of the processor is NaN. *)
Example direct_booking_inherited_price :
  let env := ex_env processor_ok in
  let w := ex_world (ex_doc available available None None) [] in
  let w' := (createDirectBooking env (ex_direct "user123" "slot123" "toString") w).2 in
  price_of ex_prices "toString" = Some PriceInherited
  ∧ PrimFloat.is_nan <$> (sp_unit_amount <$> sessions w') = [true]
  ∧ slot_status <$> read_slot "tsDoc123" "slot123" (timeslots w') = Some booked.
Proof. vm_compute. repeat split; reflexivity. Qed.

(** ** Where the code departs from its own intent *)

(** C1, at the failing input.  The document holds slot123 and slot456, both
    available; two users ask for slot123 and both pass validation before
    either reaches the lock.  Both conditional updates match the document
    (the second one because slot456 is still available), both requests are
    answered 201 with a checkout URL, and two Pending bookings of slot123
    exist. *)
Theorem direct_race_double_booking :
  let env := ex_env processor_ok in
  let w := ex_world (ex_doc available available None None) [] in
  let run := race env (ex_direct "user123" "slot123" "Cricket")
               (ex_direct "user456" "slot123" "Football") w in
  run.1 = (Ok {| res_status := 201;
                 res_body := BodyCheckout (Some "https://checkout.stripe.com/pay") "oid0" |},
           Ok {| res_status := 201;
                 res_body := BodyCheckout (Some "https://checkout.stripe.com/pay") "oid1" |})
  ∧ (λ b, (bk_user b, bk_slotId b, bk_status b)) <$> bookings run.2
    = [("user123", Some "slot123", Pending); ("user456", Some "slot123", Pending)]
  ∧ updates (oplog run.2)
    = [OpFindOneAndUpdate (lock_query "tsDoc123" "slot123") (set_booked (Some "Football")) true;
       OpFindOneAndUpdate (lock_query "tsDoc123" "slot123") (set_booked (Some "Cricket")) true].
Proof. vm_compute. repeat split; reflexivity. Qed.

(** C3, at the failing input.  slot123 is booked by somebody else (for
    Tennis) and slot456 of the same document is available.  A retry of the
    Failed booking of slot123 finds its conditional lock matching the
    document, so [didLock] is set although this call never took slot123 from
    available to booked; the processor then fails, and the error path sets
    slot123, which this call did not lock, to available. *)
Theorem retry_releases_foreign_slot :
  let env := ex_env processor_down in
  let w := ex_world (ex_doc booked available (Some "Tennis") None) [ex_booking Failed "cs_0"] in
  let run := retryPayment env ex_retry w in
  (λ e, (slot_status e, slot_bookedForSport e)) <$> read_slot "tsDoc123" "slot123" (timeslots w)
    = Some (booked, Some "Tennis")
  ∧ run.1 = Throw (OtherError "Stripe Fail")
  ∧ updates (issued w run.2)
    = [OpFindOneAndUpdate (slot_query "tsDoc123" "slot123") set_available true;
       OpFindOneAndUpdate (lock_query "tsDoc123" "slot123") (set_booked (Some "Cricket")) true]
  ∧ (λ e, (slot_status e, slot_bookedForSport e))
      <$> read_slot "tsDoc123" "slot123" (timeslots run.2)
    = Some (available, None).
Proof. vm_compute. repeat split; reflexivity. Qed.

(** C6, at the failing input.  The session a retry creates carries the
    metadata [type], [userId] and [bookingId] only: neither [timeSlotDocId]
    nor [slotId], so that on its expiry the webhook cannot take the release by
    metadata. *)
Theorem retry_session_lacks_slot_reference :
  let env := ex_env processor_ok in
  let w := ex_world (ex_doc available available None None) [ex_booking Failed "cs_0"] in
  let run := retryPayment env ex_retry w in
  run.1 = Ok {| res_status := 200;
                res_body := BodyCheckout (Some "https://checkout.stripe.com/pay") "booking123" |}
  ∧ (λ p, (sp_metadata p !! "type", sp_metadata p !! "userId", sp_metadata p !! "bookingId",
           sp_metadata p !! "timeSlotDocId", sp_metadata p !! "slotId")) <$> sessions run.2
    = [(Some "retry", Some "user123", Some "booking123", None, None)]
  ∧ (λ p, (metadata_get (Some (sp_metadata p)) "timeSlotDocId",
           metadata_get (Some (sp_metadata p)) "slotId")) <$> sessions run.2
    = [(None, None)].
Proof. vm_compute. repeat split; reflexivity. Qed.

(** C7, at the failing input.  The session a retry creates is requested
    without [expires_at]. *)
Theorem retry_session_has_no_expiry :
  let env := ex_env processor_ok in
  let w := ex_world (ex_doc available available None None) [ex_booking Failed "cs_0"] in
  let run := retryPayment env ex_retry w in
  run.1 = Ok {| res_status := 200;
                res_body := BodyCheckout (Some "https://checkout.stripe.com/pay") "booking123" |}
  ∧ sp_expires_at <$> sessions run.2 = [None].
Proof. vm_compute. repeat split; reflexivity. Qed.

(** * Beyond the lifecycle claims *)

(** ** More of the webhook reconciler *)

Section WebhookEvents.

Context (env : Env).
Implicit Types (w : World) (session : EventObject) (event : Event).

(** The games after the completion handler. *)
Lemma on_completed_effect session w :
  (on_completed session w).1 = Ok ()
  ∧ timeslots (on_completed session w).2 = timeslots w
  ∧ games (on_completed session w).2 =
    match findIndex (by_session (eo_id session)) (bookings w), eo_metadata session with
    | Some _, Some md =>
        if bool_decide (md !! "type" = Some "game") then
          match nonempty (md !! "gameId") with
          | Some g =>
              match games w !! g with
              | Some gm => <[g := game_set_bookingStatus Booked gm]> (games w)
              | None => games w
              end
          | None => games w
          end
        else games w
    | _, _ => games w
    end.
Proof.
  unfold on_completed. run_handler.
  destruct (findIndex (by_session (eo_id session)) (bookings w)) as [[i b]|]; cbn; [|done].
  destruct (eo_metadata session) as [md|]; cbn; [|done].
  destruct (bool_decide (md !! "type" = Some "game")); cbn; [|done].
  destruct (nonempty (md !! "gameId")) as [g|]; cbn; [|done].
  by destruct (games w !! g).
Qed.

Lemma release_expired_released session found w :
  timeslots (release_expired session found w).2
  = released session (snd <$> found) (timeslots w).
Proof.
  unfold release_expired, released.
  destruct (metadata_get (eo_metadata session) "timeSlotDocId") as [d|];
    destruct (metadata_get (eo_metadata session) "slotId") as [s|];
    run_handler;
    try (by destruct (findOneAndUpdate _ _ _));
    (destruct found as [[i b]|]; [|done]; simpl;
     destruct (nonempty (bk_subVenueId b)) as [sv|]; [|done];
     run_handler; unfold findBySubVenueDate;
     destruct (findIndex _ (timeslots w)) as [[k doc]|]; [|done];
     by destruct (findIndex (same_times b) (ts_slots doc)) as [[j x]|]).
Qed.

(** The three stores after the expiry handler. *)
Lemma on_expired_effect session w :
  let found := findIndex (by_session (eo_id session)) (bookings w) in
  timeslots (on_expired session w).2 = released session (snd <$> found) (timeslots w)
  ∧ bookings (on_expired session w).2 =
    match found with
    | Some (i, _) => alter (bk_set_status Failed) i (bookings w)
    | None => bookings w
    end
  ∧ games (on_expired session w).2 =
    match found, metadata_get (eo_metadata session) "gameId" with
    | Some _, Some g =>
        match games w !! g with
        | Some gm => <[g := game_set_status Open gm]> (games w)
        | None => games w
        end
    | _, _ => games w
    end.
Proof.
  intros found. subst found.
  destruct (on_expired_booking_step session w) as (w1 & Hts & Hbk & Hgm & ->).
  destruct (release_expired_frame session
              (findIndex (by_session (eo_id session)) (bookings w)) w1) as [-> ->].
  by rewrite release_expired_released, Hts.
Qed.

#[local] Arguments on_expired : simpl never.
#[local] Arguments on_completed : simpl never.

Lemma stripeWebhook_completed req event w :
  constructEvent env (wr_body req) (wr_signature req) (STRIPE_WEBHOOK_SECRET env)
    = inr event →
  ev_type event = "checkout.session.completed" →
  stripeWebhook env req w =
  (Ok {| res_status := 200; res_body := BodyStatus |}, (on_completed (ev_object event) w).2).
Proof.
  intros Hev Hty. unfold stripeWebhook, dispatch. rewrite Hev, Hty. cbn.
  destruct (on_completed_effect (ev_object event) w) as (Hok & _).
  run_handler. destruct (on_completed (ev_object event) w) as [[[]|e] w']; simpl in *; done.
Qed.

(** X1. On a verified [checkout.session.completed] event the webhook answers
    200 and touches no slot.  The first booking carrying the session id gets
    status Paid and the event's payment intent, nothing else of it changes.
    The game named by the metadata gets [bookingStatus] Booked when there is
    such a booking, the metadata's [type] is ["game"] and the game exists; in
    every other case (no booking, no metadata, another type, no [gameId], an
    unknown game) the games stay as they are.  When no booking carries the
    session id the bookings stay as they are. *)
Theorem completed_marks_paid req w event :
  constructEvent env (wr_body req) (wr_signature req) (STRIPE_WEBHOOK_SECRET env)
    = inr event →
  ev_type event = "checkout.session.completed" →
  let session := ev_object event in
  let w' := (stripeWebhook env req w).2 in
  let found := findIndex (by_session (eo_id session)) (bookings w) in
  let names_game g :=
    ∃ md, eo_metadata session = Some md ∧ md !! "type" = Some "game"
          ∧ nonempty (md !! "gameId") = Some g in
  (stripeWebhook env req w).1 = Ok {| res_status := 200; res_body := BodyStatus |}
  ∧ timeslots w' = timeslots w
  ∧ match found with
    | Some (i, b) =>
        bookings w' =
          <[i := bk_set_stripePaymentIntentId (eo_payment_intent session)
                   (bk_set_status Paid b)]> (bookings w)
    | None => bookings w' = bookings w
    end
  ∧ (∀ g gm, is_Some found → names_game g → games w !! g = Some gm →
             games w' = <[g := game_set_bookingStatus Booked gm]> (games w))
  ∧ ((¬ ∃ g, is_Some found ∧ names_game g ∧ is_Some (games w !! g)) →
     games w' = games w).
Proof.
  intros Hev Hty session w' found names_game. subst session w' found names_game.
  rewrite (stripeWebhook_completed req event w Hev Hty); simpl.
  destruct (on_completed_effect (ev_object event) w) as (_ & Hts & Hgm).
  split; [done|]. split; [done|].
  rewrite on_completed_bookings, Hgm. split; [|split].
  - destruct (findIndex _ (bookings w)) as [[i b]|] eqn:Hf; [|done].
    apply findIndex_Some in Hf as (Hi & _ & _).
    rewrite list_insert_alter. apply list_alter_ext; [|done].
    intros x Hx. congruence.
  - intros g gm [[i b] ->] (md & -> & Hty' & Hg) Hgm'.
    by rewrite bool_decide_eq_true_2, Hg, Hgm'.
  - intros Hno.
    destruct (findIndex _ (bookings w)) as [[i b]|]; [|done].
    destruct (eo_metadata (ev_object event)) as [md|]; [|done].
    destruct (decide (md !! "type" = Some "game")) as [Hty'|Hty'];
      [rewrite bool_decide_eq_true_2 by done|by rewrite bool_decide_eq_false_2].
    destruct (nonempty (md !! "gameId")) as [g|] eqn:Hg; [|done].
    destruct (games w !! g) as [gm|] eqn:Hgm'; [|done].
    exfalso. apply Hno. exists g. split; [by eexists|]. split; [|by eexists].
    by exists md.
Qed.

(** X2. A verified event of any type other than
    [checkout.session.completed] and [checkout.session.expired] (the two
    [payment_intent] types included) is acknowledged with 200 and nothing
    else happens: no datastore call, the world as it was. *)
Theorem other_events_only_acknowledged req w event :
  constructEvent env (wr_body req) (wr_signature req) (STRIPE_WEBHOOK_SECRET env)
    = inr event →
  ev_type event ≠ "checkout.session.completed" →
  ev_type event ≠ "checkout.session.expired" →
  stripeWebhook env req w = (Ok {| res_status := 200; res_body := BodyStatus |}, w).
Proof.
  intros Hev Hc He. unfold stripeWebhook, dispatch. rewrite Hev.
  destruct (String.eqb_spec (ev_type event) "checkout.session.completed"); [done|].
  destruct (String.eqb_spec (ev_type event) "checkout.session.expired"); [done|].
  by destruct (String.eqb (ev_type event) "payment_intent.payment_failed"),
       (String.eqb (ev_type event) "payment_intent.succeeded").
Qed.

(** X3. A verified [checkout.session.expired] event for which no booking
    carries the session id and whose metadata does not name both the
    document and the slot releases nothing: the one datastore call is the
    lookup of the booking, and the answer is 200. *)
Theorem expired_unknown_session_releases_nothing req w event :
  constructEvent env (wr_body req) (wr_signature req) (STRIPE_WEBHOOK_SECRET env)
    = inr event →
  ev_type event = "checkout.session.expired" →
  findIndex (by_session (eo_id (ev_object event))) (bookings w) = None →
  metadata_get (eo_metadata (ev_object event)) "timeSlotDocId" = None
  ∨ metadata_get (eo_metadata (ev_object event)) "slotId" = None →
  stripeWebhook env req w
  = (Ok {| res_status := 200; res_body := BodyStatus |}, logged (OpRead Bookings) w).
Proof.
  intros Hev Hty Hnone Hmd. unfold stripeWebhook, dispatch. rewrite Hev, Hty. cbn.
  unfold on_expired, release_expired. run_handler. rewrite Hnone. cbn.
  destruct (metadata_get (eo_metadata (ev_object event)) "timeSlotDocId") as [d|];
    destruct (metadata_get (eo_metadata (ev_object event)) "slotId") as [s|];
    try done; by destruct Hmd.
Qed.

End WebhookEvents.

(** ** Deliveries repeated, and what a delivery leaves alone *)

Section Lists.

Context {A B : Type}.

Lemma fmap_alter_stable (g : A → B) (f : A → A) (l : list A) i :
  (∀ x, g (f x) = g x) → g <$> alter f i l = g <$> l.
Proof.
  intros Hgf. revert i. induction l as [|a l IH]; intros [|i]; simpl; [done..| |].
  - by rewrite Hgf.
  - f_equal. apply IH.
Qed.

Lemma alter_idempotent (f : A → A) (l : list A) i :
  (∀ x, f (f x) = f x) → alter f i (alter f i l) = alter f i l.
Proof.
  intros Hff. rewrite list_alter_alter_eq. apply list_alter_ext; [|done].
  intros x _. apply Hff.
Qed.

Lemma existsb_alter_stable (p : A → bool) (f : A → A) (l : list A) i :
  (∀ x, p (f x) = p x) → existsb p (alter f i l) = existsb p l.
Proof.
  intros Hpf. rewrite !findIndex_existsb, findIndex_alter_stable by done.
  by destruct (findIndex p l).
Qed.

End Lists.

Section Idempotence.

Implicit Types (d s : Id) (tss : list TimeSlotDoc) (session : EventObject).

Lemma apply_SlotSet_idempotent u e : apply_SlotSet u (apply_SlotSet u e) = apply_SlotSet u e.
Proof. done. Qed.

Lemma bk_set_status_idempotent st b : bk_set_status st (bk_set_status st b) = bk_set_status st b.
Proof. done. Qed.

(** The release of a slot, done twice, is the release done once. *)
Lemma release_idempotent d s tss :
  let once := (findOneAndUpdate (slot_query d s) set_available tss).2 in
  (findOneAndUpdate (slot_query d s) set_available once).2 = once.
Proof.
  unfold findOneAndUpdate.
  destruct (findIndex (query_matches (slot_query d s)) tss) as [[k doc]|] eqn:Hq; simpl.
  - set (doc' := update_doc (slot_query d s) set_available doc).
    assert (Hm : query_matches (slot_query d s) doc' = true).
    { apply findIndex_Some in Hq as (_ & Hm & _). revert Hm.
      unfold query_matches, doc', update_doc, positional; simpl.
      destruct (findIndex _ (ts_slots doc)) as [[j x]|]; simpl; [|done].
      unfold array_sat. by rewrite existsb_alter_stable. }
    rewrite (findIndex_insert _ _ _ _ doc' Hq Hm); simpl.
    rewrite list_insert_insert_eq. f_equal.
    unfold doc', update_doc, positional; simpl.
    destruct (findIndex _ (ts_slots doc)) as [[j x]|] eqn:Hj; simpl.
    + rewrite findIndex_alter_stable, Hj by done. simpl.
      unfold with_slots; simpl. f_equal. by apply alter_idempotent.
    + by rewrite Hj.
  - by rewrite Hq.
Qed.

(** So is the release step of the expiry handler, the booking it found being
    marked Failed in between. *)
Lemma released_idempotent session found tss :
  released session (bk_set_status Failed <$> found) (released session found tss)
  = released session found tss.
Proof.
  unfold released.
  destruct (metadata_get (eo_metadata session) "timeSlotDocId") as [d|];
    destruct (metadata_get (eo_metadata session) "slotId") as [s|];
    try apply release_idempotent;
    (destruct found as [b|]; [|done]; simpl;
     destruct (nonempty (bk_subVenueId b)) as [sv|]; [|done];
     destruct (findBySubVenueDate sv _ tss) as [[k doc]|] eqn:Hk;
       [|by rewrite Hk];
     change (same_times (bk_set_status Failed b)) with (same_times b);
     destruct (findIndex (same_times b) (ts_slots doc)) as [[j sl]|] eqn:Hj;
       [|by rewrite Hk, Hj];
     unfold findBySubVenueDate in *;
     rewrite findIndex_alter_stable, Hk by done; simpl;
     rewrite Nat.eqb_refl; simpl;
     rewrite findIndex_alter_stable, Hj by done; simpl;
     apply alter_idempotent; intros x; unfold with_slots; simpl;
     f_equal; by apply alter_idempotent).
Qed.

Lemma on_expired_idempotent session w :
  stores (on_expired session (on_expired session w).2).2 = stores (on_expired session w).2.
Proof.
  unfold stores.
  destruct (on_expired_effect session (on_expired session w).2) as (-> & -> & ->).
  destruct (on_expired_effect session w) as (-> & -> & ->).
  destruct (findIndex (by_session (eo_id session)) (bookings w)) as [[i b]|] eqn:Hf; simpl.
  - rewrite findIndex_alter_stable, Hf by done. simpl. rewrite Nat.eqb_refl.
    rewrite (released_idempotent session (Some b)).
    rewrite alter_idempotent by done.
    do 2 f_equal.
    destruct (metadata_get (eo_metadata session) "gameId") as [g|]; [|done].
    destruct (games w !! g) as [gm|] eqn:Hg.
    + by rewrite lookup_insert_eq, insert_insert_eq.
    + by rewrite Hg.
  - rewrite Hf. simpl. by rewrite (released_idempotent session None).
Qed.

Lemma on_completed_idempotent session w :
  stores (on_completed session (on_completed session w).2).2
  = stores (on_completed session w).2.
Proof.
  unfold stores.
  destruct (on_completed_effect session (on_completed session w).2) as (_ & -> & ->).
  rewrite (on_completed_bookings session (on_completed session w).2).
  destruct (on_completed_effect session w) as (_ & -> & ->).
  rewrite (on_completed_bookings session w).
  destruct (findIndex (by_session (eo_id session)) (bookings w)) as [[i b]|] eqn:Hf; simpl.
  - rewrite findIndex_alter_stable, Hf by done. simpl.
    rewrite alter_idempotent by done. do 2 f_equal.
    destruct (eo_metadata session) as [md|]; [|done].
    destruct (bool_decide (md !! "type" = Some "game")); [|done].
    destruct (nonempty (md !! "gameId")) as [g|]; [|done].
    destruct (games w !! g) as [gm|] eqn:Hg.
    + by rewrite lookup_insert_eq, insert_insert_eq.
    + by rewrite Hg.
  - by rewrite Hf.
Qed.

Lemma dispatch_idempotent event w :
  stores (dispatch event (dispatch event w).2).2 = stores (dispatch event w).2.
Proof.
  unfold dispatch.
  destruct (String.eqb (ev_type event) "checkout.session.completed");
    [apply on_completed_idempotent|].
  destruct (String.eqb (ev_type event) "checkout.session.expired");
    [apply on_expired_idempotent|].
  by destruct (String.eqb (ev_type event) "payment_intent.payment_failed"),
       (String.eqb (ev_type event) "payment_intent.succeeded").
Qed.

(** X4. Delivering a webhook request a second time changes nothing: the
    slots, the bookings and the games after the second delivery are those
    after the first, whatever the event and whether or not the signature
    verifies. *)
Theorem webhook_redelivery_idempotent env req w :
  let once := (stripeWebhook env req w).2 in
  stores (stripeWebhook env req once).2 = stores once.
Proof.
  intros once. subst once.
  destruct (constructEvent env (wr_body req) (wr_signature req)
              (STRIPE_WEBHOOK_SECRET env)) as [message|event] eqn:Hev.
  - by rewrite !(stripeWebhook_unverified env req _ message Hev).
  - rewrite !(stripeWebhook_verified env req event _ Hev). apply dispatch_idempotent.
Qed.

Lemma dispatch_purchases event w :
  purchase <$> bookings (dispatch event w).2 = purchase <$> bookings w
  ∧ bk_stripeSessionId <$> bookings (dispatch event w).2 = bk_stripeSessionId <$> bookings w.
Proof.
  unfold dispatch.
  destruct (String.eqb (ev_type event) "checkout.session.completed").
  { rewrite on_completed_bookings.
    destruct (findIndex _ (bookings w)) as [[i b]|]; [|done].
    by rewrite !fmap_alter_stable. }
  destruct (String.eqb (ev_type event) "checkout.session.expired").
  { rewrite on_expired_bookings.
    destruct (findIndex _ (bookings w)) as [[i b]|]; [|done].
    by rewrite !fmap_alter_stable. }
  by destruct (String.eqb (ev_type event) "payment_intent.payment_failed"),
       (String.eqb (ev_type event) "payment_intent.succeeded").
Qed.

(** X5. The webhook never creates or removes a booking and never changes
    what a booking is a purchase of: after any request the bookings are as
    many, in the same order, each with the id, user, venue, sport, times,
    slot, amount, currency and game it had, and with the session id it had.
    Only the status and the payment intent of a booking can change. *)
Theorem webhook_keeps_purchases env req w :
  let w' := (stripeWebhook env req w).2 in
  purchase <$> bookings w' = purchase <$> bookings w
  ∧ bk_stripeSessionId <$> bookings w' = bk_stripeSessionId <$> bookings w.
Proof.
  intros w'. subst w'.
  destruct (constructEvent env (wr_body req) (wr_signature req)
              (STRIPE_WEBHOOK_SECRET env)) as [message|event] eqn:Hev.
  - by rewrite !(stripeWebhook_unverified env req _ message Hev).
  - rewrite !(stripeWebhook_verified env req event _ Hev). apply dispatch_purchases.
Qed.

End Idempotence.

Section ReleaseFrame.

Context (env : Env).

(** The release of one slot is invisible on every other slot. *)
Lemma release_frame d s u d' s' tss :
  d' ≠ d ∨ s' ≠ s →
  read_slot d' s' (findOneAndUpdate (slot_query d s) u tss).2 = read_slot d' s' tss.
Proof.
  intros Hne. unfold findOneAndUpdate.
  destruct (findIndex (query_matches (slot_query d s)) tss) as [[k doc]|] eqn:Hq;
    simpl; [|done].
  apply findIndex_Some in Hq as (Hk & Hm & _).
  apply andb_prop in Hm as [Hid%String.eqb_eq _].
  unfold read_slot, findById.
  rewrite (findIndex_insert_stable _ tss k doc (update_doc (slot_query d s) u doc) Hk)
    by (by rewrite update_doc_id).
  destruct (findIndex _ tss) as [[k' doc0]|] eqn:Hd; simpl; [|done].
  destruct (Nat.eqb_spec k' k) as [->|_]; [|done].
  apply findIndex_Some in Hd as (Hk' & Hid'%String.eqb_eq & _).
  assert (doc0 = doc) as -> by congruence.
  simpl in Hid.
  assert (Hs : s' ≠ s) by (destruct Hne; congruence).
  rewrite update_doc_slots_id. unfold positional, slots_id; simpl.
  change (λ e, String.eqb (slot_id e) s') with (slot_sat (SlotIdIs s')).
  destruct (findIndex (slot_sat (SlotIdIs s')) (ts_slots doc)) as [[j' x']|] eqn:Hj';
    simpl; [|done].
  destruct (findIndex (slot_sat (SlotIdIs s)) (ts_slots doc)) as [[j x]|] eqn:Hj;
    simpl; [|done].
  rewrite bool_decide_eq_false_2; [done|].
  intros [= ->].
  apply findIndex_Some in Hj as (Hx & Hsx%String.eqb_eq & _).
  apply findIndex_Some in Hj' as (Hx' & Hsx'%String.eqb_eq & _).
  congruence.
Qed.

#[local] Arguments on_expired : simpl never.

(** X6. The release by metadata touches one slot only: on a verified
    [checkout.session.expired] event whose metadata names document [d] and
    slot [s], every slot other than [s] of [d] reads after the request as it
    read before. *)
Theorem expired_release_leaves_other_slots req w event d s d' s' :
  constructEvent env (wr_body req) (wr_signature req) (STRIPE_WEBHOOK_SECRET env)
    = inr event →
  ev_type event = "checkout.session.expired" →
  metadata_get (eo_metadata (ev_object event)) "timeSlotDocId" = Some d →
  metadata_get (eo_metadata (ev_object event)) "slotId" = Some s →
  d' ≠ d ∨ s' ≠ s →
  read_slot d' s' (timeslots (stripeWebhook env req w).2) = read_slot d' s' (timeslots w).
Proof.
  intros Hev Hty Hd Hs Hne.
  rewrite (stripeWebhook_verified env req event w Hev).
  unfold dispatch. rewrite Hty. cbn.
  destruct (on_expired_effect (ev_object event) w) as (-> & _ & _).
  unfold released. rewrite Hd, Hs. by apply release_frame.
Qed.

End ReleaseFrame.

(** ** More of the direct booking *)

Section DirectMore.

Context (env : Env).
Implicit Types (w : World) (v : Validated) (req : DirectRequest).

#[local] Arguments direct_session_params : simpl never.
#[local] Arguments direct_booking : simpl never.
#[local] Arguments issued : simpl never.

Lemma validation_bookings req w : bookings (validate env req w).2 = bookings w.
Proof.
  unfold validate.
  destruct (nonempty (dr_subVenueId req)) as [subVenueId|]; [|done].
  destruct (nonempty (dr_timeSlotDocId req)) as [d|]; [|done].
  destruct (nonempty (dr_slotId req)) as [s|]; [|done].
  destruct (nonempty (dr_sport req)) as [sport|]; [|done].
  run_handler.
  destruct (findById d (timeslots w)) as [[k doc]|]; [|done].
  destruct (slots_id s (ts_slots doc)) as [slot|]; [|done].
  destruct (negb _); [done|]. destruct (_ <? _)%Z; [done|].
  destruct (no_price _); [done|]. unfold with_oplog; simpl.
  destruct (subvenues w !! _) as [sv|]; [|done]. simpl.
  by destruct (venues w !! _).
Qed.

(** X7. Everything [createDirectBooking] does before its atomic lock is a
    read.  Whatever the request and the world, the validation leaves slots,
    bookings, games and payment sessions as they were and issues at most
    three datastore calls, all of them reads: the time-slot document, then
    the sub-venue, then the venue. *)
Theorem validation_only_reads req w :
  let w' := (validate env req w).2 in
  stores w' = stores w ∧ sessions w' = sessions w
  ∧ (issued w w' = [] ∨ issued w w' = [OpRead TimeSlots]
     ∨ issued w w' = [OpRead SubVenues; OpRead TimeSlots]
     ∨ issued w w' = [OpRead Venues; OpRead SubVenues; OpRead TimeSlots]).
Proof.
  unfold validate, stores.
  destruct (nonempty (dr_subVenueId req)) as [subVenueId|];
    [|rewrite (issued_app w _ []) by reflexivity; auto 10].
  destruct (nonempty (dr_timeSlotDocId req)) as [d|];
    [|rewrite (issued_app w _ []) by reflexivity; auto 10].
  destruct (nonempty (dr_slotId req)) as [s|];
    [|rewrite (issued_app w _ []) by reflexivity; auto 10].
  destruct (nonempty (dr_sport req)) as [sport|];
    [|rewrite (issued_app w _ []) by reflexivity; auto 10].
  run_handler.
  destruct (findById d (timeslots w)) as [[k doc]|];
    [|rewrite (issued_app w _ [OpRead TimeSlots]) by reflexivity; auto 10].
  destruct (slots_id s (ts_slots doc)) as [slot|];
    [|rewrite (issued_app w _ [OpRead TimeSlots]) by reflexivity; auto 10].
  destruct (negb _); [rewrite (issued_app w _ [OpRead TimeSlots]) by reflexivity; auto 10|].
  destruct (_ <? _)%Z; [rewrite (issued_app w _ [OpRead TimeSlots]) by reflexivity; auto 10|].
  destruct (no_price _); [rewrite (issued_app w _ [OpRead TimeSlots]) by reflexivity; auto 10|].
  unfold with_oplog; simpl.
  destruct (subvenues w !! _) as [sv|]; simpl;
    [|rewrite (issued_app w _ [OpRead SubVenues; OpRead TimeSlots]) by reflexivity; auto 10].
  destruct (venues w !! _); simpl;
    rewrite (issued_app w _ [OpRead Venues; OpRead SubVenues; OpRead TimeSlots]) by reflexivity; auto 10.
Qed.

(** X8. A request that lacks one of [subVenueId], [timeSlotDocId], [slotId]
    and [sport] (absent or empty) is refused with 400 "Missing required
    fields" before any datastore call: the world is left as it was. *)
Theorem direct_missing_field req w :
  nonempty (dr_subVenueId req) = None ∨ nonempty (dr_timeSlotDocId req) = None
  ∨ nonempty (dr_slotId req) = None ∨ nonempty (dr_sport req) = None →
  createDirectBooking env req w = (Throw (AppError "Missing required fields" 400), w).
Proof.
  intros H. unfold createDirectBooking, bind, validate.
  destruct (nonempty (dr_subVenueId req)), (nonempty (dr_timeSlotDocId req)),
    (nonempty (dr_slotId req)), (nonempty (dr_sport req)); try done;
    destruct H as [?|[?|[?|?]]]; done.
Qed.

(** X9. The refusals decided on the time-slot document alone.  With the four
    fields present, a request whose slot cannot be booked as read (the
    document is unknown, the slot is not in it, it is not available, it has
    started, or its price for the sport is falsy: missing, 0 or NaN, where on
    a plain object a member of [Object.prototype] counts as a price) is refused
    after that single read, with the error of the first of these checks that
    fails, in this order; nothing else is read and nothing is written. *)
Theorem direct_refused_on_slot req w subVenueId d s sport :
  nonempty (dr_subVenueId req) = Some subVenueId →
  nonempty (dr_timeSlotDocId req) = Some d →
  nonempty (dr_slotId req) = Some s →
  nonempty (dr_sport req) = Some sport →
  (∀ slot, read_slot d s (timeslots w) = Some slot →
           slot_status slot ≠ available
           ∨ (slot_startTime slot < clock_request env)%Z
           ∨ match match slot_prices slot with
                   | PricesMap entries => entries !! sport
                   | PricesObject props => props !! sport
                   end, slot_prices slot with
             | Some p, _ => PrimFloat.eqb p 0 = true ∨ PrimFloat.is_nan p = true
             | None, PricesMap _ => True
             | None, PricesObject _ => sport ∉ Object_prototype
             end) →
  createDirectBooking env req w =
  (Throw
     match findById d (timeslots w) with
     | None => AppError "TimeSlot document not found" 404
     | Some (_, doc) =>
         match slots_id s (ts_slots doc) with
         | None => AppError "Slot not found" 404
         | Some slot =>
             if bool_decide (slot_status slot = available) then
               if (slot_startTime slot <? clock_request env)%Z then
                 AppError "Cannot book a slot in the past" 400
               else AppError "Sport price not available for this slot" 400
             else AppError "Slot is no longer available" 400
         end
     end,
   logged (OpRead TimeSlots) w).
Proof.
  intros H1 H2 H3 H4 Hbad. unfold createDirectBooking, bind, validate.
  rewrite H1, H2, H3, H4. run_handler. unfold read_slot in Hbad.
  destruct (findById d (timeslots w)) as [[k doc]|] eqn:Hdoc; simpl in *; [|done].
  destruct (slots_id s (ts_slots doc)) as [slot|]; [|done].
  destruct (bool_decide (slot_status slot = available)) eqn:Hav; simpl; [|done].
  destruct (slot_startTime slot <? clock_request env)%Z eqn:Hpast; [done|].
  destruct (no_price _) eqn:Hprice; [done|].
  apply bool_decide_eq_true_1 in Hav. apply Z.ltb_ge in Hpast.
  destruct (Hbad slot eq_refl) as [?|[?|Hno]]; [done|lia|].
  apply no_price_falsy in Hno. congruence.
Qed.

(** The conditional lock matches on a slot that reads as available. *)
Lemma lock_after_validation d s tss slot :
  read_slot d s tss = Some slot → slot_status slot = available →
  ∃ k doc, findById d tss = Some (k, doc)
           ∧ findIndex (query_matches (lock_query d s)) tss = Some (k, doc).
Proof.
  intros (k & doc & j & Hdoc & Hj)%read_slot_Some Hav. exists k, doc. split; [done|].
  apply lock_matches; [done|..]; unfold array_sat.
  - rewrite findIndex_existsb, Hj. by apply bool_decide_eq_true_2.
  - apply existsb_exists. exists slot. apply findIndex_Some in Hj as (Hin & _ & _).
    split; [by apply list_elem_of_In, list_elem_of_lookup; eauto|].
    simpl. by apply bool_decide_eq_true_2.
Qed.

(** What the [try] block leaves of the bookings: one more on success, for
    the user of the request; the same on failure. *)
Lemma book_locked_bookings userId v w :
  match (book_locked env userId v w).1 with
  | Ok _ => ∃ b, bookings (book_locked env userId v w).2 = (bookings w ++ [b])%list
                 ∧ bk_user b = userId
  | Throw _ => bookings (book_locked env userId v w).2 = bookings w
  end.
Proof.
  unfold book_locked, new_ObjectId, Booking_create, getStripe, checkout_sessions_create.
  run_handler.
  destruct (bool_decide (BYPASS_STRIPE_PAYMENT env = Some "true")); run_handler.
  - destruct (Booking_create_fault env _); cbn; eauto.
  - destruct (stripe_direct w); cbn;
      [|destruct (truthy (STRIPE_SECRET_KEY env)); cbn; [|done]];
      (destruct (sessions_create env _ _) as [e|cs]; cbn; [done|]);
      destruct (Booking_create_fault env _); cbn; eauto.
Qed.

(** In bypass mode the [try] block does not go near the processor. *)
Lemma book_locked_bypass userId v w :
  BYPASS_STRIPE_PAYMENT env = Some "true" → persistence_up env →
  let bookingId := ObjectId env (oids w) in
  let booking := direct_booking userId bookingId v ("demo_session_" ++ bookingId)
                   (Some ("demo_payment_" ++ bookingId)) Paid in
  (book_locked env userId v w).1
  = Ok {| res_status := 201;
          res_body := BodyDemo bookingId Paid (Some (v_sport v))
                        (slot_startTime (v_slot v)) (slot_endTime (v_slot v))
                        (PrimFloat.div (v_priceInPaise v) 100) |}
  ∧ bookings (book_locked env userId v w).2 = (bookings w ++ [booking])%list
  ∧ sessions (book_locked env userId v w).2 = sessions w
  ∧ stripe_direct (book_locked env userId v w).2 = stripe_direct w
  ∧ timeslots (book_locked env userId v w).2 = timeslots w.
Proof.
  intros Hby Hdb. unfold book_locked, new_ObjectId, Booking_create.
  run_handler. rewrite bool_decide_eq_true_2 by done. run_handler.
  by rewrite Hdb.
Qed.

#[local] Arguments book_locked : simpl never.

(** X10. Bypass mode.  With [BYPASS_STRIPE_PAYMENT] set to ["true"] and
    [Booking.create] succeeding, a valid request for an available slot whose
    map or object holds a price [p] that is neither 0 nor NaN is answered 201
    with the demo body (status Paid, amount [(p * 100) / 100], both
    operations on doubles) without any call to the processor: no session is
    created, the processor client is not even built, and the processor key is
    never looked at.  The booking added is Paid, with amount [p * 100] (the
    product of the two doubles) and the synthetic ids ["demo_session_<id>"]
    and ["demo_payment_<id>"]; the slots are left as the lock made them. *)
Theorem direct_bypass_mode req w subVenueId d s sport slot p subVenue venue :
  nonempty (dr_subVenueId req) = Some subVenueId →
  nonempty (dr_timeSlotDocId req) = Some d →
  nonempty (dr_slotId req) = Some s →
  nonempty (dr_sport req) = Some sport →
  read_slot d s (timeslots w) = Some slot →
  slot_status slot = available →
  (clock_request env ≤ slot_startTime slot)%Z →
  match slot_prices slot with
  | PricesMap entries => entries !! sport
  | PricesObject props => props !! sport
  end = Some p →
  PrimFloat.eqb p 0 = false → PrimFloat.is_nan p = false →
  subvenues w !! subVenueId = Some subVenue →
  venues w !! sv_venue subVenue = Some venue →
  BYPASS_STRIPE_PAYMENT env = Some "true" →
  persistence_up env →
  let w' := (createDirectBooking env req w).2 in
  let bookingId := ObjectId env (oids w) in
  (createDirectBooking env req w).1
  = Ok {| res_status := 201;
          res_body := BodyDemo bookingId Paid (Some sport)
                        (slot_startTime slot) (slot_endTime slot)
                        (PrimFloat.div (PrimFloat.mul p 100) 100) |}
  ∧ (∃ booking,
       bookings w' = (bookings w ++ [booking])%list
       ∧ bk_id booking = bookingId ∧ bk_user booking = dr_user req
       ∧ bk_status booking = Paid ∧ bk_amount booking = PrimFloat.mul p 100
       ∧ bk_stripeSessionId booking = "demo_session_" ++ bookingId
       ∧ bk_stripePaymentIntentId booking = Some ("demo_payment_" ++ bookingId))
  ∧ sessions w' = sessions w ∧ stripe_direct w' = stripe_direct w
  ∧ timeslots w'
    = (findOneAndUpdate (lock_query d s) (set_booked (Some sport)) (timeslots w)).2.
Proof.
  intros Hsv Hd Hs Hsport Hread Hav Hfuture Hp Hp0 Hpnan Hsub Hven Hby Hdb w' bookingId.
  subst w' bookingId. unfold createDirectBooking, bind.
  apply price_of_own in Hp.
  rewrite (validate_ok env req w subVenueId d s sport slot subVenue venue)
    by (try done; by rewrite Hp; simpl; rewrite Hp0, Hpnan).
  rewrite Hp. simpl times_100.
  set (v := {| v_subVenueId := subVenueId |}).
  destruct (lock_after_validation d s (timeslots w) slot Hread Hav)
    as (k & doc & Hdoc & Hq).
  unfold reserve. run_handler. unfold findOneAndUpdate. rewrite Hq. cbn.
  match goal with |- context [book_locked env (dr_user req) v ?w0] => set (w2 := w0) end.
  destruct (book_locked_bypass (dr_user req) v w2 Hby Hdb) as (Hr & Hbk & Hss & Hst & Hts).
  destruct (book_locked env (dr_user req) v w2) as [r w3]; simpl in *. subst r. simpl.
  split; [done|]. split; [|done].
  eexists. split; [exact Hbk|]. done.
Qed.

(** Locking the first available entry of a document and releasing the slot
    again gives the slot store back, when the entry carried no sport. *)
Lemma lock_release_roundtrip d s sport tss slot :
  read_slot d s tss = Some slot →
  slot_status slot = available → slot_bookedForSport slot = None →
  first_available d s tss = true →
  (findOneAndUpdate (slot_query d s) set_available
     (findOneAndUpdate (lock_query d s) (set_booked sport) tss).2).2 = tss.
Proof.
  intros Hread Hav Hsport Hfirst.
  destruct (lock_after_validation d s tss slot Hread Hav) as (k & doc & Hdoc & Hq).
  apply read_slot_Some in Hread as (k0 & doc0 & j & Hdoc0 & Hj).
  assert (k0 = k ∧ doc0 = doc) as [-> ->] by (split; congruence).
  unfold first_available in Hfirst. rewrite Hdoc, Hj in Hfirst.
  destruct (findIndex (slot_sat (SlotStatusIs available)) (ts_slots doc))
    as [[j' x]|] eqn:Hj'; [|done].
  apply Nat.eqb_eq in Hfirst as <-.
  unfold findOneAndUpdate at 2. rewrite Hq. simpl.
  set (doc' := update_doc (lock_query d s) (set_booked sport) doc).
  assert (Hslots : ts_slots doc' = alter (apply_SlotSet (set_booked sport)) j (ts_slots doc)).
  { unfold doc', update_doc, positional; simpl. by rewrite Hj'. }
  assert (Hj1 : findIndex (slot_sat (SlotIdIs s)) (ts_slots doc')
                = Some (j, apply_SlotSet (set_booked sport) slot)).
  { rewrite Hslots. by apply findIndex_alter; [|apply findIndex_Some in Hj as (_ & ? & _)]. }
  assert (Hq' : findIndex (query_matches (slot_query d s)) (<[k := doc']> tss)
                = Some (k, doc')).
  { apply findIndex_query.
    - unfold findById in *. eapply findIndex_insert; [exact Hdoc|].
      unfold doc'. rewrite update_doc_id. by apply findIndex_Some in Hdoc as (_ & ? & _).
    - simpl. rewrite andb_true_r. unfold array_sat.
      rewrite findIndex_existsb, Hj1. by apply bool_decide_eq_true_2. }
  unfold findOneAndUpdate. rewrite Hq'. simpl.
  rewrite list_insert_insert_eq. apply list_insert_id.
  apply findIndex_Some in Hdoc as (-> & _ & _). f_equal.
  unfold update_doc at 1, positional; simpl. rewrite Hj1. simpl.
  rewrite Hslots, list_alter_alter_eq.
  assert (Hid : alter (apply_SlotSet set_available ∘ apply_SlotSet (set_booked sport)) j
                  (ts_slots doc) = ts_slots doc).
  { transitivity (alter id j (ts_slots doc)); [|by apply list_alter_id].
    apply list_alter_ext; [|done]. intros y Hy.
    apply findIndex_Some in Hj as (Hjs & _ & _).
    assert (y = slot) as -> by congruence.
    destruct slot; simpl in *; by subst. }
  rewrite Hid. unfold with_slots, doc', update_doc, positional; simpl.
  rewrite Hj'; simpl. by destruct doc.
Qed.

(** X11. A failure undoes the lock exactly.  When the slot asked for reads
    as available with no sport recorded and is the first available entry of
    its document, a run of [createDirectBooking] from the lock on that ends
    in an error leaves the slot store and the bookings exactly as they were
    before the lock. *)
Theorem direct_failure_restores_stores userId v w e w' :
  let d := v_timeSlotDocId v in
  let s := v_slotId v in
  ∀ slot,
  read_slot d s (timeslots w) = Some slot →
  slot_status slot = available → slot_bookedForSport slot = None →
  first_available d s (timeslots w) = true →
  reserve env userId v w = (Throw e, w') →
  timeslots w' = timeslots w ∧ bookings w' = bookings w.
Proof.
  intros d s slot Hread Hav Hsport Hfirst.
  pose proof (lock_release_roundtrip d s (Some (v_sport v)) (timeslots w) slot
                Hread Hav Hsport Hfirst) as Hround.
  destruct (lock_after_validation d s (timeslots w) slot Hread Hav)
    as (k & doc & Hdoc & Hq).
  unfold reserve. run_handler. fold d s.
  destruct (findOneAndUpdate (lock_query d s) _ (timeslots w)) as [[l|] tss1] eqn:Hlock;
    cbn; [|unfold findOneAndUpdate in Hlock; by rewrite Hq in Hlock].
  simpl in Hround.
  match goal with |- context [book_locked env userId v ?w0] => set (w2 := w0) end.
  destruct (book_locked_frame env userId v w2) as [Hts _].
  pose proof (book_locked_bookings userId v w2) as Hbk.
  destruct (book_locked env userId v w2) as [[r|e0] w3]; simpl in *; [done|].
  rewrite Hts.
  destruct (findOneAndUpdate (slot_query d s) set_available tss1) as [r3 tss3] eqn:Hrel.
  simpl in Hround. subst tss3. by intros [= <- <-].
Qed.

Lemma createDirectBooking_bookings req w :
  let run := createDirectBooking env req w in
  match run.1 with
  | Ok _ => ∃ b, bookings run.2 = (bookings w ++ [b])%list ∧ bk_user b = dr_user req
  | Throw _ => bookings run.2 = bookings w
  end.
Proof.
  unfold createDirectBooking, bind.
  pose proof (validation_bookings req w) as Hv.
  destruct (validate env req w) as [[v|e] w1]; simpl in *; [|done].
  unfold reserve. run_handler.
  destruct (findOneAndUpdate (lock_query _ _) _ (timeslots w1)) as [[locked|] tss1];
    cbn; [|done].
  match goal with |- context [book_locked env (dr_user req) v ?w0] => set (w2 := w0) end.
  pose proof (book_locked_bookings (dr_user req) v w2) as Hbk.
  destruct (book_locked env (dr_user req) v w2) as [[r|e] w3]; simpl in *.
  - by rewrite <- Hv.
  - destruct (findOneAndUpdate (slot_query _ _) _ (timeslots w3)); simpl. congruence.
Qed.

(** X12. The bookings only grow, by one booking per successful request.  A
    run of [createDirectBooking] that ends in an error leaves the bookings as
    they were; a run that answers leaves them followed by exactly one new
    booking, of the user of the request. *)
Theorem direct_appends_one_booking req w :
  let run := createDirectBooking env req w in
  match run.1 with
  | Ok _ => ∃ b, bookings run.2 = (bookings w ++ [b])%list ∧ bk_user b = dr_user req
  | Throw _ => bookings run.2 = bookings w
  end.
Proof. apply createDirectBooking_bookings. Qed.

End DirectMore.

(** ** More of the retry *)

Section RetryMore.

Context (env : Env).
Implicit Types (w : World) (req : RetryRequest) (b : Booking).

#[local] Arguments retry_session_params : simpl never.
#[local] Arguments issued : simpl never.

(** X13. Nobody can retry somebody else's booking.  When no booking carries
    both the id of the request and the id of the requesting user (the id is
    unknown, or the booking is another user's), the retry is refused with
    404 "Booking not found" after the single lookup, and nothing changes. *)
Theorem retry_foreign_booking_not_found req w bookingId :
  nonempty (rr_bookingId req) = Some bookingId →
  (∀ b, b ∈ bookings w → bk_id b = bookingId → bk_user b ≠ rr_user req) →
  retryPayment env req w
  = (Throw (AppError "Booking not found" 404), logged (OpRead Bookings) w).
Proof.
  intros Hid Hforeign. unfold retryPayment. rewrite Hid. run_handler.
  destruct (findIndex _ (bookings w)) as [[i b]|] eqn:Hf; [|done].
  apply findIndex_Some in Hf as (Hi & [Hb Hu]%andb_prop & _).
  apply String.eqb_eq in Hb, Hu.
  exfalso. apply (Hforeign b); [|done..]. apply list_elem_of_lookup. eauto.
Qed.

(** X14. The refusals decided on the booking alone.  A retry without a
    booking id is refused with 400 before any datastore call.  Otherwise the
    booking found for the id and the user is checked in this order: Paid,
    started, without a sub-venue; the first check that fails gives its 400,
    after the single lookup of the booking and with nothing changed. *)
Theorem retry_refused_on_booking req w :
  (nonempty (rr_bookingId req) = None →
   retryPayment env req w = (Throw (AppError "Booking ID is required" 400), w))
  ∧ ∀ bookingId i b,
      nonempty (rr_bookingId req) = Some bookingId →
      findIndex (retry_lookup req bookingId) (bookings w) = Some (i, b) →
      bk_status b = Paid ∨ (bk_startTime b < clock_request env)%Z
      ∨ nonempty (bk_subVenueId b) = None →
      retryPayment env req w =
      (Throw
         (if bool_decide (bk_status b = Paid) then AppError "Booking is already paid" 400
          else if (bk_startTime b <? clock_request env)%Z then
            AppError "Cannot retry payment for a past booking" 400
          else AppError "Invalid booking: missing subVenueId" 400),
       logged (OpRead Bookings) w).
Proof.
  split.
  - intros Hid. unfold retryPayment. by rewrite Hid.
  - intros bookingId i b Hid Hfound Hbad. unfold retryPayment. rewrite Hid. run_handler.
    unfold retry_lookup in Hfound. rewrite Hfound.
    destruct (bool_decide (bk_status b = Paid)) eqn:Hpaid; [done|].
    destruct (bk_startTime b <? clock_request env)%Z eqn:Hpast; [done|].
    apply bool_decide_eq_false_1 in Hpaid. apply Z.ltb_ge in Hpast.
    destruct Hbad as [?|[?|Hsv]]; [done|lia|].
    rewrite Hsv. by destruct (bk_status b).
Qed.

(** Up to its lock a retry reads twice and changes nothing. *)
Lemma retry_reaches_lock req w i b ts slot :
  retry_target env req w i b ts slot →
  retryPayment env req w =
  bind (retry_lock b ts slot)
    (λ didLock, retry_pay env (rr_user req) i b ts slot didLock)
    (logged (OpRead TimeSlots) (logged (OpRead Bookings) w)).
Proof.
  intros ((bookingId & Hid & Hfound) & Hpaid & Hfuture & sv & k & j & Hsv & Hts & Hslot).
  unfold retryPayment. rewrite Hid. run_handler.
  unfold retry_lookup in Hfound. rewrite Hfound.
  rewrite bool_decide_eq_false_2 by done.
  destruct (Z.ltb_spec (bk_startTime b) (clock_request env)) as [?|_]; [lia|].
  replace (bool_decide (bk_status b = Failed) || bool_decide (bk_status b = Pending))
    with true by (by destruct (bk_status b)).
  rewrite Hsv. run_handler. unfold findBySubVenueDate in Hts. rewrite Hts, Hslot.
  done.
Qed.

(** The [try] block of the retry when the processor accepts the session. *)
Lemma retry_pay_ok userId i b ts slot didLock w :
  processor_up env →
  ∃ cs,
    let run := retry_pay env userId i b ts slot didLock w in
    run.1 = Ok {| res_status := 200; res_body := BodyCheckout (cs_url cs) (bk_id b) |}
    ∧ timeslots run.2 = timeslots w
    ∧ bookings run.2
      = alter (λ x, bk_set_status Pending (bk_set_stripeSessionId (cs_id cs) x)) i (bookings w)
    ∧ sessions run.2 = retry_session_params env userId b :: sessions w
    ∧ games run.2 = match nonempty (bk_gameId b) with
                    | Some g => match games w !! g with
                                | Some gm => <[g := game_set_status Full gm]> (games w)
                                | None => games w
                                end
                    | None => games w
                    end.
Proof.
  intros [Hkey Hup].
  destruct (Hup (length (sessions w)) (retry_session_params env userId b)) as [cs Hcs].
  exists cs. unfold retry_pay, getStripe, checkout_sessions_create. run_handler.
  rewrite Hkey.
  destruct (stripe_retry w); cbn; rewrite Hcs; cbn;
    (destruct (nonempty (bk_gameId b)) as [g|]; cbn;
     [destruct (games w !! g) as [gm|]; cbn|]); done.
Qed.

(** What a retry leaves of the bookings and the sessions in its two last
    steps. *)
Lemma retry_lock_frame b ts slot w :
  bookings (retry_lock b ts slot w).2 = bookings w
  ∧ games (retry_lock b ts slot w).2 = games w.
Proof.
  unfold retry_lock. destruct (bk_status b); run_handler.
  - destruct (findOneAndUpdate _ _ (timeslots w)) as [[l|] tss]; cbn; [done|].
    destruct (findIndex _ tss) as [[k cur]|]; cbn; [|done].
    destruct (slots_id (slot_id slot) (ts_slots cur)) as [cs|]; cbn; [|done].
    by destruct (bool_decide (slot_status cs = booked)).
  - done.
  - by destruct (findOneAndUpdate _ _ (timeslots w)) as [[l|] tss].
Qed.

Lemma retry_pay_bookings userId i b ts slot didLock w :
  let w' := (retry_pay env userId i b ts slot didLock w).2 in
  bookings w' = bookings w
  ∨ ∃ sid, bookings w'
           = alter (λ x, bk_set_status Pending (bk_set_stripeSessionId sid x)) i (bookings w).
Proof.
  unfold retry_pay, getStripe, checkout_sessions_create. run_handler.
  destruct (stripe_retry w); cbn;
    [|destruct (truthy (STRIPE_SECRET_KEY env)); cbn;
      [|destruct didLock; cbn; [destruct (findOneAndUpdate _ _ _)|]; by left]];
    (destruct (sessions_create env _ _) as [e|cs]; cbn;
     [destruct didLock; cbn; [destruct (findOneAndUpdate _ _ _)|]; by left|]);
    (destruct (nonempty (bk_gameId b)) as [g|]; cbn;
     [destruct (games w !! g) as [gm|]; cbn|]);
    right; by eexists.
Qed.

#[local] Arguments retry_pay : simpl never.
#[local] Arguments retry_lock : simpl never.

Lemma retry_bookings req w :
  let w' := (retryPayment env req w).2 in
  bookings w' = bookings w
  ∨ ∃ i sid b, bookings w !! i = Some b ∧ bk_user b = rr_user req
               ∧ bookings w'
                 = alter (λ x, bk_set_status Pending (bk_set_stripeSessionId sid x)) i
                     (bookings w).
Proof.
  unfold retryPayment.
  destruct (nonempty (rr_bookingId req)) as [bookingId|]; [|by left].
  run_handler.
  destruct (findIndex _ (bookings w)) as [[i b]|] eqn:Hfound; [|by left].
  apply findIndex_Some in Hfound as (Hi & [_ Hu%String.eqb_eq]%andb_prop & _).
  destruct (bool_decide (bk_status b = Paid)); [by left|].
  destruct (_ <? _)%Z; [by left|].
  destruct (_ || _); [|by left].
  destruct (nonempty (bk_subVenueId b)) as [sv|]; [|by left].
  run_handler.
  destruct (findIndex _ (timeslots w)) as [[k ts]|]; [|by left].
  destruct (findIndex (same_times b) (ts_slots ts)) as [[j slot]|]; [|by left].
  run_handler.
  match goal with |- context [retry_lock b ts slot ?w0] => set (w1 := w0) end.
  destruct (retry_lock_frame b ts slot w1) as [Hb _].
  destruct (retry_lock b ts slot w1) as [[didLock|e] w2]; simpl in *; [|by left].
  destruct (retry_pay_bookings (rr_user req) i b ts slot didLock w2) as [H|[sid H]];
    rewrite H, Hb; eauto 10.
Qed.

(** What the lock step gives when its conditional update matches, and when
    it does not. *)
Lemma retry_lock_matched b ts slot w :
  bk_status b ≠ Paid →
  let q := lock_query (ts_id ts) (slot_id slot) in
  let u := set_booked (bk_sport b) in
  is_Some (findOneAndUpdate q u (timeslots w)).1 →
  retry_lock b ts slot w
  = (Ok true, logged (OpFindOneAndUpdate q u true)
                (with_timeslots w (findOneAndUpdate q u (timeslots w)).2)).
Proof.
  intros Hpaid q u Hsome. unfold retry_lock. subst q u.
  destruct (bk_status b); [|done|]; run_handler;
    by destruct (findOneAndUpdate _ _ (timeslots w)) as [[l|] tss];
      [|destruct Hsome as [? [=]]].
Qed.

Lemma findOneAndUpdate_unmatched q u tss :
  (findOneAndUpdate q u tss).1 = None → (findOneAndUpdate q u tss).2 = tss.
Proof. unfold findOneAndUpdate. by destruct (findIndex _ tss) as [[k doc]|]. Qed.

Lemma retry_lock_held b ts slot w cur :
  bk_status b = Pending →
  let q := lock_query (ts_id ts) (slot_id slot) in
  let u := set_booked (bk_sport b) in
  (findOneAndUpdate q u (timeslots w)).1 = None →
  read_slot (ts_id ts) (slot_id slot) (timeslots w) = Some cur →
  retry_lock b ts slot w
  = (Ok false, logged (OpRead TimeSlots) (logged (OpFindOneAndUpdate q u false) w)).
Proof.
  intros Hst q u Hnone Hread. subst q u.
  assert (Hbooked : slot_status cur = booked).
  { destruct (slot_status cur) eqn:Hcur; [exfalso|done].
    destruct (lock_after_validation _ _ _ _ Hread Hcur) as (k & doc & _ & Hq).
    unfold findOneAndUpdate in Hnone. by rewrite Hq in Hnone. }
  pose proof (findOneAndUpdate_unmatched _ _ _ Hnone) as Hsame.
  apply read_slot_inv in Hread as (k & doc & Hdoc & Hslot).
  unfold retry_lock. rewrite Hst. run_handler.
  destruct (findOneAndUpdate _ _ (timeslots w)) as [r tss]; simpl in *. subst r tss.
  cbn. unfold findById in Hdoc. rewrite Hdoc. cbn. rewrite Hslot, Hbooked. cbn.
  by destruct w.
Qed.

(** Without [didLock] the [try] block and its [catch] issue no conditional
    update. *)
Lemma retry_pay_unlocked_log userId i b ts slot w :
  ∃ ops, oplog (retry_pay env userId i b ts slot false w).2 = (ops ++ oplog w)%list
         ∧ updates ops = [].
Proof.
  unfold retry_pay, getStripe, checkout_sessions_create. run_handler.
  destruct (stripe_retry w); cbn;
    [|destruct (truthy (STRIPE_SECRET_KEY env)); cbn; [|by exists []]];
    (destruct (sessions_create env _ _) as [e|cs]; cbn; [by exists []|]);
    (destruct (nonempty (bk_gameId b)) as [g|]; cbn;
     [destruct (games w !! g) as [gm|]; cbn|]).
  all: first [ by exists [OpWrite Games; OpRead Games; OpWrite Bookings]
             | by exists [OpRead Games; OpWrite Bookings]
             | by exists [OpWrite Bookings] ].
Qed.

#[local] Arguments findOneAndUpdate : simpl never.

(** X15. A retry that wins its slot.  When the retry of a Failed or Pending
    booking reaches its lock, the lock matches and the processor accepts the
    session, the answer is 200 with the session's url and the booking's id;
    the session asks for the amount and currency recorded on the booking and
    names the booking; the booking gets the new session id and the status
    Pending; the slot store is as the lock left it; a game the booking
    names, if it exists, is Full; no booking is created. *)
Theorem retry_success req w i b ts slot :
  retry_target env req w i b ts slot →
  processor_up env →
  let locked := findOneAndUpdate (lock_query (ts_id ts) (slot_id slot))
                  (set_booked (bk_sport b)) (timeslots w) in
  is_Some locked.1 →
  ∃ cs p,
    let run := retryPayment env req w in
    run.1 = Ok {| res_status := 200; res_body := BodyCheckout (cs_url cs) (bk_id b) |}
    ∧ sessions run.2 = p :: sessions w
    ∧ sp_unit_amount p = bk_amount b ∧ sp_currency p = bk_currency b
    ∧ sp_metadata p !! "bookingId" = Some (bk_id b)
    ∧ bookings run.2
      = alter (λ x, bk_set_status Pending (bk_set_stripeSessionId (cs_id cs) x)) i (bookings w)
    ∧ timeslots run.2 = locked.2
    ∧ games run.2 = match nonempty (bk_gameId b) with
                    | Some g => match games w !! g with
                                | Some gm => <[g := game_set_status Full gm]> (games w)
                                | None => games w
                                end
                    | None => games w
                    end.
Proof.
  intros Htarget Hup locked Hlocked.
  rewrite (retry_reaches_lock _ _ _ _ _ _ Htarget).
  destruct Htarget as (_ & Hpaid & _).
  unfold bind at 1.
  rewrite retry_lock_matched by done.
  match goal with |- context [retry_pay env ?u i b ts slot true ?w0] =>
    destruct (retry_pay_ok u i b ts slot true w0 Hup) as (cs & Hres & Hts & Hbk & Hs & Hg)
  end.
  exists cs, (retry_session_params env (rr_user req) b). cbn zeta.
  rewrite Hres, Hts, Hbk, Hs, Hg. repeat split.
Qed.

(** X16. A Failed booking whose slot has been taken.  When the retry of a
    Failed booking reaches its lock and the lock matches nothing, the retry
    is refused with 400 "Slot is no longer available"; no session is
    requested and the slots, the bookings and the games stay as they
    were. *)
Theorem retry_failed_slot_taken req w i b ts slot :
  retry_target env req w i b ts slot →
  bk_status b = Failed →
  (findOneAndUpdate (lock_query (ts_id ts) (slot_id slot))
     (set_booked (bk_sport b)) (timeslots w)).1 = None →
  let run := retryPayment env req w in
  run.1 = Throw (AppError "Slot is no longer available" 400)
  ∧ stores run.2 = stores w ∧ sessions run.2 = sessions w.
Proof.
  intros Htarget Hst Hnone.
  rewrite (retry_reaches_lock _ _ _ _ _ _ Htarget).
  pose proof (findOneAndUpdate_unmatched _ _ _ Hnone) as Hsame.
  unfold bind, retry_lock. rewrite Hst. run_handler.
  destruct (findOneAndUpdate _ _ (timeslots w)) as [r tss]; simpl in *. by subst r tss.
Qed.

(** X17. A Pending booking keeps the slot it holds.  When the retry of a
    Pending booking reaches its lock, the lock matches nothing and the slot
    is still in its document, the retry goes on without a lock of its own:
    whatever happens next, the slot store is left as it was and the only
    conditional update issued is the lock that matched nothing (no release).
    If the processor accepts the session the answer is 200 and the booking
    gets the new session id. *)
Theorem retry_pending_keeps_held_slot req w i b ts slot cur :
  retry_target env req w i b ts slot →
  bk_status b = Pending →
  let q := lock_query (ts_id ts) (slot_id slot) in
  let u := set_booked (bk_sport b) in
  (findOneAndUpdate q u (timeslots w)).1 = None →
  read_slot (ts_id ts) (slot_id slot) (timeslots w) = Some cur →
  let run := retryPayment env req w in
  timeslots run.2 = timeslots w
  ∧ updates (issued w run.2) = [OpFindOneAndUpdate q u false]
  ∧ (processor_up env →
     ∃ cs, run.1 = Ok {| res_status := 200; res_body := BodyCheckout (cs_url cs) (bk_id b) |}
           ∧ bookings run.2
             = alter (λ x, bk_set_status Pending (bk_set_stripeSessionId (cs_id cs) x)) i
                 (bookings w)).
Proof.
  intros Htarget Hst q u Hnone Hread.
  rewrite (retry_reaches_lock _ _ _ _ _ _ Htarget).
  unfold bind at 1.
  rewrite (retry_lock_held b ts slot _ cur) by done.
  fold q u.
  match goal with |- context [retry_pay env ?x i b ts slot false ?w0] =>
    set (w2 := w0); set (usr := x)
  end.
  destruct (retry_pay_unlocked env usr i b ts slot w2) as [Hts _].
  destruct (retry_pay_unlocked_log usr i b ts slot w2) as (ops & Hlog & Hops).
  cbn zeta. split; [by rewrite Hts|]. split.
  - rewrite (issued_app w _ (ops ++ [OpRead TimeSlots; OpFindOneAndUpdate q u false;
                                      OpRead TimeSlots; OpRead Bookings])).
    + unfold updates in *. by rewrite List.filter_app, Hops.
    + rewrite Hlog. by rewrite <- app_assoc.
  - intros Hup.
    destruct (retry_pay_ok usr i b ts slot false w2 Hup) as (cs & Hres & _ & Hbk & _).
    exists cs. by rewrite Hres, Hbk.
Qed.

(** The [catch] of a retry that holds a lock when the processor refuses. *)
Lemma retry_pay_refused userId i b ts slot w e :
  sessions_create env (length (sessions w)) (retry_session_params env userId b) = inl e →
  let run := retry_pay env userId i b ts slot true w in
  (∃ e', run.1 = Throw e')
  ∧ timeslots run.2
    = (findOneAndUpdate (slot_query (ts_id ts) (slot_id slot)) set_available (timeslots w)).2
  ∧ bookings run.2 = bookings w ∧ games run.2 = games w ∧ sessions run.2 = sessions w.
Proof.
  intros He. unfold retry_pay, getStripe, checkout_sessions_create. run_handler.
  destruct (stripe_retry w); cbn;
    [|destruct (truthy (STRIPE_SECRET_KEY env)); cbn];
    rewrite ?He; cbn;
    destruct (findOneAndUpdate _ _ (timeslots w)) as [r tss]; cbn; eauto 10.
Qed.

(** X18. A refused retry leaves no trace.  When the retry reaches its lock
    on a free slot that is the first available entry of its document, and
    the processor then refuses the session, the retry fails and the lock is
    undone: the slots, the bookings and the games are exactly as before the
    request, and no session is recorded. *)
Theorem retry_failure_restores_stores req w i b ts slot cur e :
  retry_target env req w i b ts slot →
  read_slot (ts_id ts) (slot_id slot) (timeslots w) = Some cur →
  slot_status cur = available → slot_bookedForSport cur = None →
  first_available (ts_id ts) (slot_id slot) (timeslots w) = true →
  sessions_create env (length (sessions w)) (retry_session_params env (rr_user req) b)
  = inl e →
  let run := retryPayment env req w in
  (∃ e', run.1 = Throw e') ∧ stores run.2 = stores w ∧ sessions run.2 = sessions w.
Proof.
  intros Htarget Hread Hav Hsport Hfirst He.
  pose proof (lock_release_roundtrip _ _ (bk_sport b) _ _ Hread Hav Hsport Hfirst) as Hround.
  destruct (lock_after_validation _ _ _ _ Hread Hav) as (k & doc & _ & Hq).
  rewrite (retry_reaches_lock _ _ _ _ _ _ Htarget).
  destruct Htarget as (_ & Hpaid & _).
  unfold bind at 1.
  rewrite retry_lock_matched
    by (by try (unfold findOneAndUpdate; cbn; rewrite Hq; eexists)).
  match goal with |- context [retry_pay env ?u i b ts slot true ?w0] =>
    destruct (retry_pay_refused u i b ts slot w0 e He) as (He' & Hts & Hbk & Hg & Hs)
  end.
  cbn zeta. unfold stores. rewrite Hts, Hbk, Hg, Hs. cbn. by rewrite Hround.
Qed.

(** X19. A retry never creates or removes a booking and never changes what
    a booking is a purchase of (the amount above all: the price snapshot) nor
    its payment intent.  After any retry the bookings are as many, in the
    same order, and each has either the session id and status it had or a
    new session id and the status Pending. *)
Theorem retry_keeps_purchases req w :
  let w' := (retryPayment env req w).2 in
  purchase <$> bookings w' = purchase <$> bookings w
  ∧ bk_stripePaymentIntentId <$> bookings w' = bk_stripePaymentIntentId <$> bookings w
  ∧ ∀ i b', bookings w' !! i = Some b' →
            ∃ b, bookings w !! i = Some b
                 ∧ (b' = b ∨ bk_status b' = Pending).
Proof.
  intros w'. subst w'.
  destruct (retry_bookings req w) as [->|(i & sid & _ & _ & _ & ->)].
  - repeat split; eauto.
  - rewrite !fmap_alter_stable by done. repeat split.
    intros j b' Hb'. destruct (decide (i = j)) as [->|Hne].
    + rewrite list_lookup_alter_eq in Hb'.
      destruct (bookings w !! j) as [b|]; simpl in Hb'; [|done].
      injection Hb' as <-. eauto.
    + rewrite list_lookup_alter_ne in Hb' by done. eauto.
Qed.

End RetryMore.

(** ** The authentication middleware and the routes *)

Section SplitOn.

Implicit Types (c : Ascii.ascii) (s : string).

Lemma split_on_cons c s : ∃ x l, split_on c s = x :: l.
Proof.
  induction s as [|a r (x & l & IH)]; simpl; [by eauto|].
  destruct (Ascii.eqb a c); [by eauto|]. rewrite IH. eauto.
Qed.

Lemma split_on_app c a b :
  c ∉ String.list_ascii_of_string a → split_on c (a ++ String c b) = a :: split_on c b.
Proof.
  induction a as [|x a IH]; simpl; intros Hc.
  - by rewrite Ascii.eqb_refl.
  - apply not_elem_of_cons in Hc as [Hx Ha].
    destruct (Ascii.eqb_spec x c) as [->|_]; [done|]. by rewrite IH.
Qed.

Lemma split_on_none c a :
  c ∉ String.list_ascii_of_string a → split_on c a = [a].
Proof.
  induction a as [|x a IH]; simpl; intros Hc; [done|].
  apply not_elem_of_cons in Hc as [Hx Ha].
  destruct (Ascii.eqb_spec x c) as [->|_]; [done|]. by rewrite IH.
Qed.

Lemma split_on_head c s x l :
  split_on c s = x :: l →
  (c ∉ String.list_ascii_of_string x)
  ∧ ((s = x ∧ l = []) ∨ ∃ r, s = (x ++ String c r)%string ∧ l = split_on c r).
Proof.
  revert x l. induction s as [|a r IH]; simpl; intros x l.
  - intros [= <- <-]. split; [apply not_elem_of_nil|by left].
  - destruct (Ascii.eqb_spec a c) as [->|Hne].
    + intros [= <- <-]. split; [apply not_elem_of_nil|]. right. by exists r.
    + destruct (split_on_cons c r) as (y & l' & Hr). rewrite Hr.
      intros [= <- <-]. destruct (IH y l' Hr) as [Hy Hs]. split.
      * simpl. apply not_elem_of_cons. split; [congruence|done].
      * destruct Hs as [[-> ->]|(r' & -> & ->)]; [by left|]. right. by exists r'.
Qed.

Lemma prefix_app p s : String.prefix p s = true → ∃ r, s = (p ++ r)%string.
Proof.
  revert s. induction p as [|a p IH]; intros s H; [by exists s|].
  destruct s as [|b s]; [done|]. simpl in H.
  destruct (Ascii.ascii_dec a b) as [->|]; [|done].
  apply IH in H as [r ->]. by exists r.
Qed.

Lemma append_empty_r s : (s ++ "")%string = s.
Proof. induction s as [|a s IH]; [done|]. change (String a (s ++ "") = String a s). by rewrite IH. Qed.

End SplitOn.

Section Auth.

Context (aenv : AuthEnv).
Implicit Types (h : option string) (token : string).

(** The checks on a header that starts with "Bearer ". *)
Lemma bearer_token_header r :
  bearer_token (Some ("Bearer " ++ r)%string)
  = match split_on " " r !! 0%nat with
    | Some token =>
        if String.eqb token "" || blank token then
          inl "Token is empty — please provide a valid token after 'Bearer'."
        else inr token
    | None => inl "Token is empty — please provide a valid token after 'Bearer'."
    end.
Proof. by destruct r. Qed.

(** What [bearer_token] accepts. *)
Lemma bearer_token_inv h token :
  bearer_token h = inr token →
  ∃ rest, h = Some ("Bearer " ++ token ++ rest)%string
          ∧ (rest = "" ∨ ∃ r, rest = String " " r)
          ∧ (" "%char ∉ String.list_ascii_of_string token)
          ∧ token ≠ "" ∧ blank token = false.
Proof.
  intros H.
  assert (∃ r, h = Some ("Bearer " ++ r)%string) as [r ->].
  { unfold bearer_token in H.
    destruct (nonempty h) as [authHeader|] eqn:Hh; [|done].
    assert (h = Some authHeader) as ->.
    { unfold nonempty in Hh. by destruct (truthy h). }
    destruct (String.prefix "Bearer " authHeader) eqn:Hp; [|done].
    apply prefix_app in Hp as [r ->]. by exists r. }
  rewrite bearer_token_header in H.
  destruct (split_on " " r) as [|tok l] eqn:Hs; [done|].
  change ((tok :: l) !! 0%nat) with (Some tok) in H. cbv beta iota in H.
  destruct (String.eqb_spec tok "") as [->|Hne]; [done|].
  destruct (blank tok) eqn:Hb; [done|]. injection H as <-.
  apply split_on_head in Hs as [Hns [[-> ->]|(r' & -> & ->)]].
  - exists "". rewrite append_empty_r. eauto 10.
  - exists (String " " r'). eauto 10.
Qed.

(** X20. The token of a request is the text between the first and the
    second space of its Authorization header.  The checks on the header let a
    token through exactly when the header is "Bearer ", then the token, then
    nothing or a space and anything, and the token has no space and is not
    made of white space only (so it is not empty). *)
Theorem bearer_token_spec h token :
  bearer_token h = inr token
  ↔ ∃ rest, h = Some ("Bearer " ++ token ++ rest)%string
            ∧ (rest = "" ∨ ∃ r, rest = String " " r)
            ∧ (" "%char ∉ String.list_ascii_of_string token)
            ∧ blank token = false.
Proof.
  split.
  - intros (rest & ? & ? & ? & _ & ?)%bearer_token_inv. eauto 10.
  - intros (rest & -> & Hrest & Hns & Hb).
    rewrite bearer_token_header.
    assert (∃ l, split_on " " (token ++ rest) = token :: l) as [l ->].
    { destruct Hrest as [->|[r ->]].
      - rewrite append_empty_r, split_on_none by done. eauto.
      - rewrite split_on_app by done. eauto. }
    change ((token :: l) !! 0%nat) with (Some token). cbv beta iota.
    rewrite Hb.
    by destruct (String.eqb_spec token "") as [->|_].
Qed.

(** X21. Whom [protect] lets through.  [next()] is called exactly when the
    header yields a token, [jwt.verify] accepts it under JWT_SECRET and the
    user the payload names is found; then that user is [req.user], the calls
    are the verification and the lookup, and no status is set.  In every
    other case an error is thrown, [req.user] stays unset and the last
    status set is 401 or 500. *)
Theorem protect_passes_iff_verified_user h :
  let run := protect aenv h in
  let verified token decoded user :=
    bearer_token h = inr token
    ∧ jwt_verify aenv token (JWT_SECRET aenv) = inr decoded
    ∧ User_findById aenv (jp_userId decoded) = inr (Some user) in
  match ar_thrown run with
  | None =>
      ∃ token decoded user,
        verified token decoded user
        ∧ run = auth_next [CallVerify token (JWT_SECRET aenv);
                           CallUserFindById (jp_userId decoded)] user
  | Some _ =>
      (¬ ∃ token decoded user, verified token decoded user)
      ∧ ar_user run = None
      ∧ ∃ pre c, ar_statuses run = (pre ++ [c])%list ∧ (c = 401 ∨ c = 500)%Z
  end.
Proof.
  intros run verified. subst run verified. unfold protect.
  destruct (bearer_token h) as [m|token] eqn:Ht; simpl.
  { split; [by intros (? & ? & ? & [=] & _)|]. split; [done|]. exists [], 401%Z. eauto. }
  destruct (jwt_verify aenv token (JWT_SECRET aenv)) as [e|decoded] eqn:Hv; simpl.
  { split; [intros (? & ? & ? & [= <-] & ? & _); congruence|].
    split; [done|]. exists [], 401%Z. eauto. }
  destruct (User_findById aenv (jp_userId decoded)) as [dbError|[user|]] eqn:Hu; simpl.
  - split; [intros (? & ? & ? & [= <-] & ? & ?); congruence|].
    split; [done|]. exists [], 500%Z. eauto.
  - exists token, decoded, user. eauto.
  - split; [intros (? & ? & ? & [= <-] & ? & ?); congruence|].
    split; [done|]. exists [401%Z], 500%Z. eauto.
Qed.

(** X22. An account that is gone.  For a token that verifies, a user that
    is not found makes [protect] set 401 and then 500 and throw the message
    of the lookup failure wrapped around the one of the missing user, while
    an admin that is not found makes [protectAdmin] set 401 only. *)
Theorem missing_account_statuses h token decoded :
  bearer_token h = inr token →
  jwt_verify aenv token (JWT_SECRET aenv) = inr decoded →
  (User_findById aenv (jp_userId decoded) = inr None →
   ar_statuses (protect aenv h) = [401; 500]%Z
   ∧ ar_thrown (protect aenv h)
     = Some ("Database lookup failed — could not retrieve user: "
             ++ "Authentication failed — user not found or has been removed."))
  ∧ (ADMIN_TOKEN aenv ≠ Some token → jp_id decoded ≠ Some "admin-env" →
     Admin_findById aenv (jp_id decoded) = inr None →
     ar_statuses (protectAdmin aenv h) = [401]%Z
     ∧ ar_thrown (protectAdmin aenv h)
       = Some "Authentication failed — admin not found or has been removed.").
Proof.
  intros Ht Hv. split.
  - intros Hu. unfold protect. by rewrite Ht, Hv, Hu.
  - intros Hadm Hid Hu. unfold protectAdmin. rewrite Ht.
    rewrite bool_decide_eq_false_2 by done. rewrite Hv.
    rewrite bool_decide_eq_false_2 by done. by rewrite Hu.
Qed.

(** X23. Whom [protectAdmin] lets through.  [next()] is called exactly in
    three cases: the token of the header is ADMIN_TOKEN (nothing is verified
    and nothing looked up); the token verifies and its payload has the id
    'admin-env' (nothing is looked up); the token verifies and the admin its
    payload names is found.  In the first two cases [req.user] is the admin
    built from the environment, in the third the admin found. *)
Theorem protectAdmin_passes_iff h :
  let run := protectAdmin aenv h in
  ar_thrown run = None ↔
  ∃ token,
    bearer_token h = inr token
    ∧ ((ADMIN_TOKEN aenv = Some token ∧ run = auth_next [] (env_admin aenv))
       ∨ (ADMIN_TOKEN aenv ≠ Some token
          ∧ ∃ decoded,
              let verify := CallVerify token (JWT_SECRET aenv) in
              jwt_verify aenv token (JWT_SECRET aenv) = inr decoded
              ∧ ((jp_id decoded = Some "admin-env"
                  ∧ run = auth_next [verify] (env_admin aenv))
                 ∨ (jp_id decoded ≠ Some "admin-env"
                    ∧ ∃ admin,
                        Admin_findById aenv (jp_id decoded) = inr (Some admin)
                        ∧ run = auth_next [verify; CallAdminFindById (jp_id decoded)]
                                  admin)))).
Proof.
  intros run. subst run. unfold protectAdmin.
  destruct (bearer_token h) as [m|token] eqn:Ht; simpl.
  { split; [done|]. by intros (? & [=] & _). }
  destruct (decide (ADMIN_TOKEN aenv = Some token)) as [Hadm|Hadm].
  { rewrite bool_decide_eq_true_2 by done. split; [|done]. intros _. exists token. eauto. }
  rewrite bool_decide_eq_false_2 by done.
  destruct (jwt_verify aenv token (JWT_SECRET aenv)) as [e|decoded] eqn:Hv; simpl.
  { split; [done|]. intros (? & [= <-] & [[? _]|(_ & ? & ? & _)]); congruence. }
  destruct (decide (jp_id decoded = Some "admin-env")) as [Hid|Hid].
  { rewrite bool_decide_eq_true_2 by done. split; [|done]. intros _.
    exists token. split; [done|]. right. split; [done|]. exists decoded. eauto. }
  rewrite bool_decide_eq_false_2 by done.
  destruct (Admin_findById aenv (jp_id decoded)) as [dbError|[admin|]] eqn:Hu; simpl.
  - split; [done|].
    intros (? & [= <-] & [[? _]|(_ & d & Hd & [[? _]|(_ & ? & ? & _)])]); congruence.
  - split; [|done]. intros _.
    exists token. split; [done|]. right. split; [done|]. exists decoded.
    split; [done|]. right. split; [done|]. by exists admin.
  - split; [done|].
    intros (? & [= <-] & [[? _]|(_ & d & Hd & [[? _]|(_ & ? & ? & _)])]); congruence.
Qed.

(** X24. No ADMIN_TOKEN, no shortcut.  When ADMIN_TOKEN is unset or empty,
    [protectAdmin] lets no request through without a token that [jwt.verify]
    accepts. *)
Theorem protectAdmin_unset_token_no_bypass h :
  nonempty (ADMIN_TOKEN aenv) = None →
  ar_thrown (protectAdmin aenv h) = None →
  ∃ token decoded,
    bearer_token h = inr token
    ∧ jwt_verify aenv token (JWT_SECRET aenv) = inr decoded
    ∧ CallVerify token (JWT_SECRET aenv) ∈ ar_calls (protectAdmin aenv h).
Proof.
  intros Hunset. unfold protectAdmin.
  destruct (bearer_token h) as [m|token] eqn:Ht; simpl; [done|].
  destruct (bearer_token_inv _ _ Ht) as (_ & _ & _ & _ & Hne & _).
  rewrite bool_decide_eq_false_2.
  2: { intros Hadm. rewrite Hadm in Hunset. unfold nonempty in Hunset. simpl in Hunset.
       by destruct (String.eqb_spec token ""). }
  destruct (jwt_verify aenv token (JWT_SECRET aenv)) as [e|decoded] eqn:Hv; simpl; [done|].
  intros Hpass. exists token, decoded. split; [done|]. split; [done|].
  destruct (bool_decide _); simpl; [set_solver|].
  destruct (Admin_findById aenv (jp_id decoded)) as [?|[?|]]; simpl; set_solver.
Qed.

(** X25. No account is looked up for a token that does not verify.  Every
    lookup either middleware issues is for the id in the payload of the
    header's token, which [jwt.verify] accepted; [protect] never reads the
    admins, [protectAdmin] never reads the users and never looks up
    'admin-env'. *)
Theorem lookup_only_after_verification h call :
  (call ∈ ar_calls (protect aenv h) →
   (∃ token secret, call = CallVerify token secret)
   ∨ ∃ token decoded,
       bearer_token h = inr token
       ∧ jwt_verify aenv token (JWT_SECRET aenv) = inr decoded
       ∧ call = CallUserFindById (jp_userId decoded))
  ∧ (call ∈ ar_calls (protectAdmin aenv h) →
     (∃ token secret, call = CallVerify token secret)
     ∨ ∃ token decoded,
         bearer_token h = inr token
         ∧ jwt_verify aenv token (JWT_SECRET aenv) = inr decoded
         ∧ jp_id decoded ≠ Some "admin-env"
         ∧ call = CallAdminFindById (jp_id decoded)).
Proof.
  split.
  - unfold protect.
    destruct (bearer_token h) as [m|token] eqn:Ht; simpl; [by intros ?%elem_of_nil|].
    destruct (jwt_verify aenv token (JWT_SECRET aenv)) as [e|decoded] eqn:Hv; simpl.
    { rewrite !elem_of_cons, elem_of_nil. intros [->|[]]. eauto. }
    destruct (User_findById aenv (jp_userId decoded)) as [?|[?|]]; simpl;
      rewrite !elem_of_cons, elem_of_nil; (intros [->|[->|[]]]; [by eauto|]);
      right; by exists token, decoded.
  - unfold protectAdmin.
    destruct (bearer_token h) as [m|token] eqn:Ht; simpl; [by intros ?%elem_of_nil|].
    destruct (bool_decide (ADMIN_TOKEN aenv = Some token)); simpl;
      [by intros ?%elem_of_nil|].
    destruct (jwt_verify aenv token (JWT_SECRET aenv)) as [e|decoded] eqn:Hv; simpl.
    { rewrite !elem_of_cons, elem_of_nil. intros [->|[]]. eauto. }
    destruct (decide (jp_id decoded = Some "admin-env")) as [Hid|Hid].
    { rewrite bool_decide_eq_true_2 by done. simpl.
      rewrite !elem_of_cons, elem_of_nil. intros [->|[]]. eauto. }
    rewrite bool_decide_eq_false_2 by done.
    destruct (Admin_findById aenv (jp_id decoded)) as [?|[?|]]; simpl;
      rewrite !elem_of_cons, elem_of_nil; (intros [->|[->|[]]]; [by eauto|]);
      right; by exists token, decoded.
Qed.

End Auth.

Section Routes.

Context (aenv : AuthEnv) (env : Env).
Implicit Types (h : option string) (w : World).

(** The two ways [protect] ends. *)
Lemma protect_cases h :
  (∃ token decoded user,
     bearer_token h = inr token
     ∧ jwt_verify aenv token (JWT_SECRET aenv) = inr decoded
     ∧ User_findById aenv (jp_userId decoded) = inr (Some user)
     ∧ protect aenv h = auth_next [CallVerify token (JWT_SECRET aenv);
                                   CallUserFindById (jp_userId decoded)] user)
  ∨ ∃ calls statuses message, protect aenv h = auth_throw calls statuses message.
Proof.
  unfold protect.
  destruct (bearer_token h) as [m|token] eqn:Ht; [by eauto 10|].
  destruct (jwt_verify aenv token (JWT_SECRET aenv)) as [e|decoded] eqn:Hv; [by eauto 10|].
  destruct (User_findById aenv (jp_userId decoded)) as [?|[user|]] eqn:Hu; [by eauto 10| |by eauto 10].
  left. by exists token, decoded, user.
Qed.

(** A retry leaves the bookings of every other user as they are. *)
Lemma retry_foreign_untouched req w i b :
  bookings w !! i = Some b → bk_user b ≠ rr_user req →
  bookings (retryPayment env req w).2 !! i = Some b.
Proof.
  intros Hi Hforeign.
  destruct (retry_bookings env req w) as [->|(i0 & sid & b0 & Hi0 & Hu & ->)]; [done|].
  destruct (decide (i0 = i)) as [->|Hne]; [congruence|].
  by rewrite list_lookup_alter_ne.
Qed.

(** X26. POST /direct books for the account of the token, or not at all.
    When [protect] refuses the request the handler does not run and nothing
    of the world changes.  When the handler runs and answers, the header
    held a token that [jwt.verify] accepted, and the one booking added
    belongs to the user that token names; when it runs and fails the
    bookings are as they were. *)
Theorem route_direct_books_for_verified_user h body w :
  let out := route_direct aenv env h body w in
  match out.1.2 with
  | None => ar_thrown out.1.1 ≠ None ∧ out.2 = w
  | Some (Throw _) => bookings out.2 = bookings w
  | Some (Ok _) =>
      ∃ token decoded user b,
        bearer_token h = inr token
        ∧ jwt_verify aenv token (JWT_SECRET aenv) = inr decoded
        ∧ User_findById aenv (jp_userId decoded) = inr (Some user)
        ∧ bookings out.2 = (bookings w ++ [b])%list
        ∧ bk_user b = acc_id user
  end.
Proof.
  unfold route_direct.
  destruct (protect_cases h)
    as [(token & decoded & user & Ht & Hv & Hu & ->)|(calls & statuses & m & ->)];
    simpl; [|done].
  match goal with |- context [createDirectBooking env ?r w] => set (req := r) end.
  pose proof (createDirectBooking_bookings env req w) as Hbk. cbn zeta in Hbk.
  destruct (createDirectBooking env req w) as [[r|e] w']; simpl in *; [|done].
  destruct Hbk as (b & Hb & Hub). by exists token, decoded, user, b.
Qed.

(** X27. POST /retry never touches another account's booking.  When
    [protect] refuses the request the handler does not run and nothing of
    the world changes.  When the handler runs, the header held a token that
    [jwt.verify] accepted, and every booking of a user other than the one
    that token names is afterwards exactly as it was, whatever booking id
    the request gave. *)
Theorem route_retry_leaves_other_accounts h bookingId w :
  let out := route_retry aenv env h bookingId w in
  match out.1.2 with
  | None => ar_thrown out.1.1 ≠ None ∧ out.2 = w
  | Some _ =>
      ∃ token decoded user,
        bearer_token h = inr token
        ∧ jwt_verify aenv token (JWT_SECRET aenv) = inr decoded
        ∧ User_findById aenv (jp_userId decoded) = inr (Some user)
        ∧ ∀ i b, bookings w !! i = Some b → bk_user b ≠ acc_id user →
                 bookings out.2 !! i = Some b
  end.
Proof.
  unfold route_retry.
  destruct (protect_cases h)
    as [(token & decoded & user & Ht & Hv & Hu & ->)|(calls & statuses & m & ->)];
    simpl; [|done].
  match goal with |- context [retryPayment env ?r w] => set (req := r) end.
  pose proof (retry_foreign_untouched req w) as Hbk.
  destruct (retryPayment env req w) as [r w']; simpl in *.
  exists token, decoded, user. eauto.
Qed.

End Routes.

(** ** The further properties at work *)

(** A completed game session: the booking is Paid and the game Booked. *)
Lemma completed_marks_paid_witness :
  let env := ex_env_with None ex_constructEvent_more processor_ok in
  let req := ex_webhook "completed game session" ex_good_signature in
  let w := ex_world (ex_doc booked booked (Some "Cricket") (Some "Cricket"))
             [ex_booking_game Pending "cs_0"] in
  let w' := (stripeWebhook env req w).2 in
  (stripeWebhook env req w).1 = Ok {| res_status := 200; res_body := BodyStatus |}
  ∧ timeslots w' = timeslots w
  ∧ bookings w'
    = [bk_set_stripePaymentIntentId (Some "pi_1")
         (bk_set_status Paid (ex_booking_game Pending "cs_0"))]
  ∧ games w'
    = <["game123" := {| game_status := Full; game_bookingStatus := Booked |}]> (games w).
Proof.
  intros env req w w'.
  destruct (completed_marks_paid env req w
              (ex_event "checkout.session.completed" "cs_0" (Some ex_metadata_game)))
    as (Hres & Hts & Hbk & Hgame & _); [vm_compute; reflexivity..|].
  split; [exact Hres|]. split; [exact Hts|]. split; [exact Hbk|].
  apply (Hgame "game123" {| game_status := Full; game_bookingStatus := NotBooked |}).
  - by eexists.
  - exists ex_metadata_game. repeat split; vm_compute; reflexivity.
  - vm_compute. reflexivity.
Defined.

Lemma other_events_only_acknowledged_witness :
  let env := ex_env_with None ex_constructEvent_intent processor_ok in
  let req := ex_webhook "payment intent" ex_good_signature in
  let w := ex_world (ex_doc booked available (Some "Cricket") None) [ex_booking Pending "cs_0"] in
  stripeWebhook env req w = (Ok {| res_status := 200; res_body := BodyStatus |}, w).
Proof.
  intros env req w.
  apply (other_events_only_acknowledged env req w
           (ex_event "payment_intent.succeeded" "pi_1" None));
    [vm_compute; reflexivity|vm_compute; discriminate..].
Defined.

Lemma expired_unknown_session_releases_nothing_witness :
  let env := ex_env processor_ok in
  let req := ex_webhook "expired without metadata" ex_good_signature in
  let w := ex_world (ex_doc booked available (Some "Cricket") None) [] in
  stripeWebhook env req w
  = (Ok {| res_status := 200; res_body := BodyStatus |}, logged (OpRead Bookings) w).
Proof.
  intros env req w.
  apply (expired_unknown_session_releases_nothing env req w
           (ex_event "checkout.session.expired" "cs_0" None));
    [vm_compute; reflexivity..|left; vm_compute; reflexivity].
Defined.

Lemma expired_release_leaves_other_slots_witness :
  let env := ex_env processor_ok in
  let req := ex_webhook "expired with metadata" ex_good_signature in
  let w := ex_world (ex_doc booked booked (Some "Cricket") (Some "Cricket")) [] in
  read_slot "tsDoc123" "slot456" (timeslots (stripeWebhook env req w).2)
  = read_slot "tsDoc123" "slot456" (timeslots w).
Proof.
  intros env req w.
  apply (expired_release_leaves_other_slots env req w
           (ex_event "checkout.session.expired" "cs_0" (Some ex_metadata))
           "tsDoc123" "slot123");
    [vm_compute; reflexivity..|right; discriminate].
Defined.

Lemma direct_missing_field_witness :
  let env := ex_env processor_ok in
  let w := ex_world (ex_doc available available None None) [] in
  createDirectBooking env ex_direct_no_slot w
  = (Throw (AppError "Missing required fields" 400), w).
Proof.
  intros env w. apply (direct_missing_field env ex_direct_no_slot w).
  right; right; left. vm_compute. reflexivity.
Defined.

Lemma direct_refused_on_slot_witness :
  let env := ex_env processor_ok in
  let req := ex_direct "user123" "slot123" "Cricket" in
  let w := ex_world (ex_doc booked available (Some "Football") None) [] in
  createDirectBooking env req w
  = (Throw (AppError "Slot is no longer available" 400), logged (OpRead TimeSlots) w).
Proof.
  intros env req w.
  apply (direct_refused_on_slot env req w "subVenue123" "tsDoc123" "slot123" "Cricket");
    [vm_compute; reflexivity..|].
  intros slot Hslot. vm_compute in Hslot. injection Hslot as <-. left. discriminate.
Defined.

Lemma direct_bypass_mode_witness :
  let env := ex_env_with (Some "true") ex_constructEvent processor_down in
  let req := ex_direct "user123" "slot123" "Cricket" in
  let w := ex_world (ex_doc available available None None) [] in
  (createDirectBooking env req w).1
  = Ok {| res_status := 201;
          res_body := BodyDemo "oid0" Paid (Some "Cricket") 1728000000000 1728003600000
                        1000%float |}
  ∧ sessions (createDirectBooking env req w).2 = [].
Proof.
  intros env req w.
  destruct (direct_bypass_mode env req w "subVenue123" "tsDoc123" "slot123" "Cricket"
              (ex_slot "slot123" 1728000000000 1728003600000 available None ex_prices)
              1000%float
              {| sv_venue := "venue123" |}
              {| venue_id := "venue123"; venue_coordinates := [0; 0]%Z |})
    as (Hres & _ & Hsessions & _);
    try (vm_compute; reflexivity); try (vm_compute; discriminate);
    try (intros b; reflexivity).
  split; [exact Hres|exact Hsessions].
Defined.

Lemma direct_failure_restores_stores_witness :
  let env := ex_env processor_down in
  let w := ex_world (ex_doc available available None None) [] in
  let w' := (reserve env "user123" ex_validated w).2 in
  timeslots w' = timeslots w ∧ bookings w' = bookings w.
Proof.
  intros env w w'.
  apply (direct_failure_restores_stores env "user123" ex_validated w
           (OtherError "Stripe Fail") w'
           (ex_slot "slot123" 1728000000000 1728003600000 available None ex_prices));
    vm_compute; reflexivity.
Defined.

Lemma retry_foreign_booking_not_found_witness :
  let env := ex_env processor_ok in
  let w := ex_world (ex_doc booked available (Some "Cricket") None) [ex_booking Failed "cs_0"] in
  retryPayment env ex_retry_foreign w
  = (Throw (AppError "Booking not found" 404), logged (OpRead Bookings) w).
Proof.
  intros env w.
  apply (retry_foreign_booking_not_found env ex_retry_foreign w "booking123");
    [vm_compute; reflexivity|].
  intros b Hb _. apply elem_of_cons in Hb as [->|Hb%elem_of_nil]; [|done].
  vm_compute. discriminate.
Defined.

(** The retry of booking123 by user123 reaches its lock on slot123. *)
Lemma ex_retry_target st stA stB sportA sportB :
  st ≠ Paid →
  retry_target (ex_env processor_ok) ex_retry
    (ex_world (ex_doc stA stB sportA sportB) [ex_booking st "cs_0"])
    0 (ex_booking st "cs_0") (ex_doc stA stB sportA sportB)
    (ex_slot "slot123" 1728000000000 1728003600000 stA sportA ex_prices).
Proof.
  intros Hst. split; [by exists "booking123"|]. split; [done|]. split; [done|].
  by exists "subVenue123", 0%nat, 0%nat.
Qed.

Lemma retry_success_witness :
  let env := ex_env processor_ok in
  let w := ex_world (ex_doc available available None None) [ex_booking Failed "cs_0"] in
  ∃ cs p,
    (retryPayment env ex_retry w).1
    = Ok {| res_status := 200; res_body := BodyCheckout (cs_url cs) "booking123" |}
    ∧ sessions (retryPayment env ex_retry w).2 = [p]
    ∧ sp_unit_amount p = 100000%float.
Proof.
  intros env w.
  destruct (retry_success env ex_retry w 0 (ex_booking Failed "cs_0")
              (ex_doc available available None None)
              (ex_slot "slot123" 1728000000000 1728003600000 available None ex_prices))
    as (cs & p & Hres & Hs & Hamount & _).
  - by apply ex_retry_target.
  - split; [reflexivity|]. intros n q. eexists. reflexivity.
  - vm_compute. eexists. reflexivity.
  - exists cs, p. split; [exact Hres|]. split; [exact Hs|exact Hamount].
Defined.

Lemma retry_failed_slot_taken_witness :
  let env := ex_env processor_ok in
  let w := ex_world (ex_doc booked booked (Some "Football") (Some "Cricket"))
             [ex_booking Failed "cs_0"] in
  (retryPayment env ex_retry w).1 = Throw (AppError "Slot is no longer available" 400)
  ∧ stores (retryPayment env ex_retry w).2 = stores w
  ∧ sessions (retryPayment env ex_retry w).2 = sessions w.
Proof.
  intros env w.
  apply (retry_failed_slot_taken env ex_retry w 0 (ex_booking Failed "cs_0")
           (ex_doc booked booked (Some "Football") (Some "Cricket"))
           (ex_slot "slot123" 1728000000000 1728003600000 booked (Some "Football") ex_prices)).
  - by apply ex_retry_target.
  - reflexivity.
  - vm_compute. reflexivity.
Defined.

Lemma retry_pending_keeps_held_slot_witness :
  let env := ex_env processor_ok in
  let w := ex_world (ex_doc booked booked (Some "Cricket") (Some "Cricket"))
             [ex_booking Pending "cs_0"] in
  timeslots (retryPayment env ex_retry w).2 = timeslots w
  ∧ ∃ cs, (retryPayment env ex_retry w).1
          = Ok {| res_status := 200; res_body := BodyCheckout (cs_url cs) "booking123" |}.
Proof.
  intros env w.
  destruct (retry_pending_keeps_held_slot env ex_retry w 0 (ex_booking Pending "cs_0")
              (ex_doc booked booked (Some "Cricket") (Some "Cricket"))
              (ex_slot "slot123" 1728000000000 1728003600000 booked (Some "Cricket") ex_prices)
              (ex_slot "slot123" 1728000000000 1728003600000 booked (Some "Cricket") ex_prices))
    as (Hts & _ & Hok).
  - by apply ex_retry_target.
  - reflexivity.
  - vm_compute. reflexivity.
  - vm_compute. reflexivity.
  - split; [exact Hts|].
    destruct Hok as (cs & Hres & _).
    + split; [reflexivity|]. intros n q. eexists. reflexivity.
    + by exists cs.
Defined.

Lemma retry_failure_restores_stores_witness :
  let env := ex_env processor_down in
  let w := ex_world (ex_doc available available None None) [ex_booking Failed "cs_0"] in
  (∃ e, (retryPayment env ex_retry w).1 = Throw e)
  ∧ stores (retryPayment env ex_retry w).2 = stores w
  ∧ sessions (retryPayment env ex_retry w).2 = sessions w.
Proof.
  intros env w.
  apply (retry_failure_restores_stores env ex_retry w 0 (ex_booking Failed "cs_0")
           (ex_doc available available None None)
           (ex_slot "slot123" 1728000000000 1728003600000 available None ex_prices)
           (ex_slot "slot123" 1728000000000 1728003600000 available None ex_prices)
           (OtherError "Stripe Fail")).
  - split; [by exists "booking123"|]. split; [done|]. split; [done|].
    by exists "subVenue123", 0%nat, 0%nat.
  - vm_compute. reflexivity.
  - reflexivity.
  - reflexivity.
  - vm_compute. reflexivity.
  - reflexivity.
Defined.

Lemma missing_account_statuses_witness :
  let h := Some "Bearer ghost" in
  ar_statuses (protect ex_auth h) = [401; 500]%Z
  ∧ ar_statuses (protectAdmin ex_auth h) = [401]%Z.
Proof.
  intros h.
  destruct (missing_account_statuses ex_auth h "ghost"
              {| jp_userId := Some "user999"; jp_id := Some "admin999" |})
    as [Huser Hadmin]; [reflexivity..|].
  split.
  - apply Huser. reflexivity.
  - apply Hadmin; [discriminate..|reflexivity].
Defined.

Lemma protectAdmin_unset_token_no_bypass_witness :
  let h := Some "Bearer good" in
  ∃ token decoded,
    bearer_token h = inr token
    ∧ jwt_verify ex_auth token (JWT_SECRET ex_auth) = inr decoded
    ∧ CallVerify token (JWT_SECRET ex_auth) ∈ ar_calls (protectAdmin ex_auth h).
Proof.
  intros h.
  apply (protectAdmin_unset_token_no_bypass ex_auth h); reflexivity.
Defined.
